(** * fidelity-helper: the request-construction / response-normalization client

    A shallow embedding of [node/fidelity-helper/src/fidelity.ts] (class
    [Fidelity]) together with the parts of the JavaScript run time the class
    calls: strings, binary64 numbers, [Date], [Map], [JSON], [Buffer]'s
    base64, Mustache rendering and Temporal's zoned midnight.

    Conventions.
    - A JavaScript string is a Rocq [string]; one [ascii] is one UTF-16 code
      unit below 256.  Strings with larger code units are outside the model.
    - A JavaScript number is a primitive binary64 [float].
    - A method that can throw returns a [Completion]; a method of the class
      that reads or writes the instance is a function of the instance state
      (module [Fidelity]).
*)

From Stdlib Require Import ZArith List String Ascii Bool Lia Floats.
Import ListNotations.

Set Warnings "-inexact-float,-register-all".

Local Open Scope string_scope.
Local Open Scope Z_scope.

(* ------------------------------------------------------------------------- *)
(** ** Strings *)

Module JsString.

Definition code (c : ascii) : Z := Z.of_N (N_of_ascii c).

(** The double quote. *)
Definition dquote : ascii := "034"%char.

(** A text written with apostrophes in the place of double quotes. *)
Definition quoted (s : string) : string :=
  string_of_list_ascii
    (List.map (fun c => if Ascii.eqb c "039"%char then dquote else c)
              (list_ascii_of_string s)).

Definition chr (n : Z) : ascii := ascii_of_N (Z.to_N n).

Definition string_of_list (l : list ascii) : string := string_of_list_ascii l.

Definition list_of_string (s : string) : list ascii := list_ascii_of_string s.

(** WhiteSpace and LineTerminator code units below 256. *)
Definition isWhiteSpace (c : ascii) : bool :=
  let n := code c in
  (9 <=? n) && (n <=? 13) || (n =? 32) || (n =? 160).

Fixpoint trimStart (s : string) : string :=
  match s with
  | String c r => if isWhiteSpace c then trimStart r else s
  | EmptyString => EmptyString
  end.

Definition rev (s : string) : string := string_of_list (List.rev (list_of_string s)).

Definition trimEnd (s : string) : string := rev (trimStart (rev s)).

(** [String.prototype.trim] *)
Definition trim (s : string) : string := trimEnd (trimStart s).

Fixpoint filter (p : ascii -> bool) (s : string) : string :=
  match s with
  | String c r => if p c then String c (filter p r) else filter p r
  | EmptyString => EmptyString
  end.

Fixpoint forallb (p : ascii -> bool) (s : string) : bool :=
  match s with
  | String c r => p c && forallb p r
  | EmptyString => true
  end.

Fixpoint map (f : ascii -> ascii) (s : string) : string :=
  match s with
  | String c r => String (f c) (map f r)
  | EmptyString => EmptyString
  end.

(** [s.replace(/[...]/g, '')] for a character class: every character of
    the class is deleted. *)
Definition deleteAll (class : list ascii) (s : string) : string :=
  filter (fun c => negb (existsb (Ascii.eqb c) class)) s.

(** Lower case of one code unit below 256 (Unicode simple lower-case
    mapping: A-Z, and the Latin-1 capitals except the multiplication
    sign). *)
Definition lowerChar (c : ascii) : ascii :=
  let n := code c in
  if (65 <=? n) && (n <=? 90) then chr (n + 32)
  else if (192 <=? n) && (n <=? 222) && negb (n =? 215) then chr (n + 32)
  else c.

(** [String.prototype.toLowerCase] *)
Definition toLowerCase (s : string) : string := map lowerChar s.

(** [Array.prototype.join] on an array of strings. *)
Fixpoint join (sep : string) (l : list string) : string :=
  match l with
  | [] => ""
  | [x] => x
  | x :: r => x ++ sep ++ join sep r
  end.

Definition digitChar (d : Z) : ascii := chr (48 + d).

(** Decimal digits of a non-negative integer, most significant first.
    The fuel is the number of binary digits, which bounds the number of
    decimal ones. *)
Fixpoint digitsAux (fuel : nat) (n : Z) (acc : string) : string :=
  match fuel with
  | O => acc
  | S f =>
      let acc' := String (digitChar (n mod 10)) acc in
      if n <? 10 then acc' else digitsAux f (n / 10) acc'
  end.

Definition digits (n : Z) : string :=
  digitsAux (S (Z.to_nat (Z.log2 n))) n "".

(** [Number.prototype.toString] on an integer below 10^21 in size. *)
Definition ofZ (n : Z) : string :=
  if n <? 0 then "-" ++ digits (- n) else digits n.

Definition isDigit (c : ascii) : bool :=
  let n := code c in (48 <=? n) && (n <=? 57).

Definition digitValue (c : ascii) : Z := code c - 48.

(** Value of a string of decimal digits. *)
Fixpoint natValue (acc : Z) (s : string) : Z :=
  match s with
  | String c r => natValue (10 * acc + digitValue c) r
  | EmptyString => acc
  end.

(** Longest prefix of digits, and the rest. *)
Fixpoint spanDigits (s : string) : string * string :=
  match s with
  | String c r =>
      if isDigit c then let '(d, t) := spanDigits r in (String c d, t)
      else ("", s)
  | EmptyString => ("", "")
  end.

Definition startsWith (p s : string) : bool := prefix p s.

Definition drop (n : nat) (s : string) : string :=
  substring n (Nat.sub (length s) n) s.

End JsString.

(* ------------------------------------------------------------------------- *)
(** ** Numbers: binary64 *)

Module JsNumber.

Definition nan : float := PrimFloat.nan.

Definition negZero : float := Eval cbv in (- 0)%float.

(** The number value of an integer (round to nearest, ties to even). *)
Definition ofZ (n : Z) : float :=
  SF2Prim (binary_normalize prec emax n 0 false).

(** The number value of [m * 10^e] for [0 <= m], correctly rounded.
    For a negative exponent the quotient is taken with 64 extra bits and a
    sticky last bit, so that the single rounding of [binary_normalize] is
    the rounding of the exact quotient. *)
Definition ofDecimalPos (m e : Z) : float :=
  if m =? 0 then 0%float
  else
    let mag := Z.log2 m * 30103 / 100000 + e in
    if 310 <? mag then infinity
    else if mag <? -330 then 0%float
    else if 0 <=? e then ofZ (m * 10 ^ e)
    else
      let d := 10 ^ (- e) in
      let s := Z.max 0 (Z.log2 d - Z.log2 m + 64) in
      let q := (m * 2 ^ s) / d in
      let r := (m * 2 ^ s) mod d in
      let q' := 2 * q + (if r =? 0 then 0 else 1) in
      SF2Prim (binary_normalize prec emax q' (- s - 1) false).

Definition ofDecimal (neg : bool) (m e : Z) : float :=
  if neg then (- ofDecimalPos m e)%float else ofDecimalPos m e.

(** [isNaN] on a number. *)
Definition isNaN (x : float) : bool := PrimFloat.is_nan x.

(** The exponent part of a StrDecimalLiteral, when present and complete:
    [e] or [E], an optional sign, at least one digit. *)
Definition exponentPart (s : string) : Z :=
  match s with
  | String c r =>
      if (Ascii.eqb c "e" || Ascii.eqb c "E")%bool then
        let '(neg, r') :=
          match r with
          | String "-" t => (true, t)
          | String "+" t => (false, t)
          | _ => (false, r)
          end in
        let '(ds, _) := JsString.spanDigits r' in
        match ds with
        | EmptyString => 0
        | _ => if neg then - JsString.natValue 0 ds else JsString.natValue 0 ds
        end
      else 0
  | EmptyString => 0
  end.

(** [parseFloat]: leading white space is skipped, then the longest prefix
    that is a StrDecimalLiteral is converted; NaN when there is none. *)
Definition parseFloat (input : string) : float :=
  let s := JsString.trimStart input in
  let '(neg, s1) :=
    match s with
    | String "-" t => (true, t)
    | String "+" t => (false, t)
    | _ => (false, s)
    end in
  if JsString.startsWith "Infinity" s1 then
    (if neg then neg_infinity else infinity)
  else
    let '(ip, r1) := JsString.spanDigits s1 in
    let '(fp, r2) :=
      match r1 with
      | String "." t => JsString.spanDigits t
      | _ => ("", r1)
      end in
    match ip ++ fp with
    | EmptyString => nan
    | ds =>
        ofDecimal neg (JsString.natValue 0 ds)
                  (exponentPart r2 - Z.of_nat (String.length fp))
    end.

(** [Math.round]: the nearest integer, a tie going up. *)
Definition Math_round (x : float) : float :=
  match Prim2SF x with
  | S754_finite s m e =>
      let sm := if s then Zneg m else Zpos m in
      let n := if 0 <=? e then sm * 2 ^ e
               else (2 * sm + 2 ^ (- e)) / (2 * 2 ^ (- e)) in
      if n =? 0 then (if s then negZero else 0%float) else ofZ n
  | _ => x
  end.

(** *** Number::toString, radix 10 *)

(** [v < 10^n] for the positive rational [v = num / den]. *)
Definition ltPow10 (num den n : Z) : bool :=
  if 0 <=? n then num <? 10 ^ n * den else num * 10 ^ (- n) <? den.

Fixpoint searchExponent (fuel : nat) (num den n : Z) : Z :=
  match fuel with
  | O => n
  | S f => if ltPow10 num den n then n else searchExponent f num den (n + 1)
  end.

(** The [n] with [10^(n-1) <= v < 10^n]. *)
Definition decimalExponent (num den : Z) : Z :=
  searchExponent 8 num den ((Z.log2 num - Z.log2 den) * 30103 / 100000 - 2).

(** The [k]-digit decimals next to [v], nearest first, as pairs
    (digits, exponent [n]). *)
Definition candidates (num den n k : Z) : list (Z * Z) :=
  let sc := n - k in
  let '(a, b) := if 0 <=? sc then (num, den * 10 ^ sc) else (num * 10 ^ (- sc), den) in
  let lo := a / b in
  let r := a mod b in
  let norm s := if s =? 10 ^ k then (10 ^ (k - 1), n + 1) else (s, n) in
  if 2 * r <=? b then [norm lo; norm (lo + 1)] else [norm (lo + 1); norm lo].

Definition roundTrips (x : float) (k : Z) (c : Z * Z) : bool :=
  PrimFloat.eqb (ofDecimalPos (fst c) (snd c - k)) x.

Fixpoint shortest (fuel : nat) (x : float) (num den n k : Z) : Z * Z * Z :=
  match fuel with
  | O => (0, n, k)
  | S f =>
      match List.filter (roundTrips x k) (candidates num den n k) with
      | (s, n') :: _ => (s, n', k)
      | [] => shortest f x num den n (k + 1)
      end
  end.

Fixpoint zeros (n : nat) : string :=
  match n with O => "" | S m => String "0" (zeros m) end.

Definition layout (ds : string) (n : Z) : string :=
  let k := Z.of_nat (String.length ds) in
  if (k <=? n) && (n <=? 21) then ds ++ zeros (Z.to_nat (n - k))
  else if (0 <? n) && (n <=? 21) then
    substring 0 (Z.to_nat n) ds ++ "." ++ JsString.drop (Z.to_nat n) ds
  else if (-6 <? n) && (n <=? 0) then "0." ++ zeros (Z.to_nat (- n)) ++ ds
  else
    let e := n - 1 in
    let es := (if e <? 0 then "-" else "+") ++ JsString.digits (Z.abs e) in
    if k =? 1 then ds ++ "e" ++ es
    else substring 0 1 ds ++ "." ++ JsString.drop 1 ds ++ "e" ++ es.

(** [Number.prototype.toString()]: the shortest decimal that reads back
    as the same number. *)
Definition toString (x : float) : string :=
  match Prim2SF x with
  | S754_nan => "NaN"
  | S754_zero _ => "0"
  | S754_infinity s => if s then "-Infinity" else "Infinity"
  | S754_finite s m e =>
      let '(num, den) := if 0 <=? e then (Zpos m * 2 ^ e, 1) else (Zpos m, 2 ^ (- e)) in
      let n := decimalExponent num den in
      let '(d, n', _) := shortest 17 (abs x) num den n 1 in
      (if s then "-" else "") ++ layout (JsString.digits d) n'
  end.

End JsNumber.




(* ------------------------------------------------------------------------- *)
(** ** Completions *)

Inductive JsError : Type :=
| FidelityError (message : string)
| TypeError (message : string)
| RangeError (message : string)
| SyntaxError (message : string)
| OtherError (message : string).

(** [e instanceof Error ? e.message : String(e)] for the errors above, all
    of which are instances of [Error]. *)
Definition errorMessage (e : JsError) : string :=
  match e with
  | FidelityError m | TypeError m | RangeError m | SyntaxError m | OtherError m => m
  end.

Inductive Completion (A : Type) : Type :=
| Return (a : A)
| Throw (e : JsError).

Arguments Return {A} a.
Arguments Throw {A} e.

Definition bindC {A B} (c : Completion A) (k : A -> Completion B) : Completion B :=
  match c with
  | Return a => k a
  | Throw e => Throw e
  end.

Notation "'let*' x ':=' c 'in' k" := (bindC c (fun x => k))
  (at level 10, x pattern, c at level 100, k at level 200).

Fixpoint mapC {A B} (f : A -> Completion B) (l : list A) : Completion (list B) :=
  match l with
  | [] => Return []
  | x :: r => let* y := f x in let* ys := mapC f r in Return (y :: ys)
  end.

(* ------------------------------------------------------------------------- *)
(** ** Dates *)

Module JsDate.

Definition msPerDay : Z := 86400000.

(** A [Date] object: its time value, milliseconds since the epoch, or NaN. *)
Inductive Date : Type :=
| DateOf (tv : Z)
| InvalidDate.

Definition TimeClip (t : Z) : Date :=
  if Z.abs t <=? 8640000000000000 then DateOf t else InvalidDate.

Definition Day (t : Z) : Z := t / msPerDay.

(** *** The proleptic Gregorian calendar

    Days are counted in 400-year eras that start on a 1 March, so that the
    leap day closes a year.  [yoe], [doe], [doy] are the year, day of era
    and day of year so counted; months are 1..12. *)

Definition daysPerEra : Z := 146097.

Definition eraShift : Z := 719468.

Definition civilOfEraDay (doe : Z) : Z * Z * Z :=
  let yoe := (doe - doe / 1460 + doe / 36524 - doe / 146096) / 365 in
  let doy := doe - (365 * yoe + yoe / 4 - yoe / 100) in
  let mp := (5 * doy + 2) / 153 in
  let d := doy - (153 * mp + 2) / 5 + 1 in
  let m := if mp <? 10 then mp + 3 else mp - 9 in
  (yoe, m, d).

Definition eraDayOfCivil (yoe m d : Z) : Z :=
  let doy := (153 * (if 2 <? m then m - 3 else m + 9) + 2) / 5 + d - 1 in
  yoe * 365 + yoe / 4 - yoe / 100 + doy.

(** Year, month (1..12) and day of month of a day number (days since the
    epoch). *)
Definition civilFromDays (z : Z) : Z * Z * Z :=
  let z' := z + eraShift in
  let era := z' / daysPerEra in
  let '(yoe, m, d) := civilOfEraDay (z' - era * daysPerEra) in
  let y := yoe + era * 400 in
  (if m <=? 2 then y + 1 else y, m, d).

(** The day number of year [y], month [m] (1..12), day [d]. *)
Definition daysFromCivil (y m d : Z) : Z :=
  let y' := if m <=? 2 then y - 1 else y in
  let era := y' / 400 in
  era * daysPerEra + eraDayOfCivil (y' - era * 400) m d - eraShift.

Definition YearFromTime (t : Z) : Z := fst (fst (civilFromDays (Day t))).
(** Months are numbered from 0 here, as [getMonth] does. *)
Definition MonthFromTime (t : Z) : Z := snd (fst (civilFromDays (Day t))) - 1.
Definition DateFromTime (t : Z) : Z := snd (civilFromDays (Day t)).
Definition HourFromTime (t : Z) : Z := (t / 3600000) mod 24.
Definition MinFromTime (t : Z) : Z := (t / 60000) mod 60.
Definition SecFromTime (t : Z) : Z := (t / 1000) mod 60.
Definition msFromTime (t : Z) : Z := t mod 1000.
(** 0 is Sunday. *)
Definition WeekDay (t : Z) : Z := (Day t + 4) mod 7.

Definition MakeTime (h m s ms : Z) : Z := h * 3600000 + m * 60000 + s * 1000 + ms.

(** [month] counts from 0 and may lie outside 0..11. *)
Definition MakeDay (year month date : Z) : Z :=
  daysFromCivil (year + month / 12) (month mod 12 + 1) 1 + date - 1.

Definition MakeDate (day time : Z) : Z := day * msPerDay + time.

(** A getter's result: [None] is NaN. *)
Definition getter (f : Z -> Z) (d : Date) : option Z :=
  match d with
  | DateOf t => Some (f t)
  | InvalidDate => None
  end.

Definition getUTCFullYear := getter YearFromTime.
Definition getUTCMonth := getter MonthFromTime.
Definition getUTCDate := getter DateFromTime.
Definition getUTCHours := getter HourFromTime.
Definition getUTCMinutes := getter MinFromTime.
Definition getUTCSeconds := getter SecFromTime.
Definition getUTCMilliseconds := getter msFromTime.

(** The number a getter returns. *)
Definition num (v : option Z) : float :=
  match v with
  | Some n => JsNumber.ofZ n
  | None => JsNumber.nan
  end.

(** [Date.UTC(year, month, date)]: a year in 0..99 means 1900 + year. *)
Definition UTC (year month date : option Z) : Date :=
  match year, month, date with
  | Some y, Some m, Some d =>
      let yr := if (0 <=? y) && (y <=? 99) then 1900 + y else y in
      TimeClip (MakeDate (MakeDay yr m d) (MakeTime 0 0 0 0))
  | _, _, _ => InvalidDate
  end.

(** *** The host: local time zone and date parsing *)

(** What [Date.parse] reads in a string: an instant, a wall-clock time
    without zone (milliseconds, counted as if UTC), or nothing. *)
Inductive Parsed : Type :=
| Instant (t : Z)
| WallClock (t : Z)
| Unparsed.

(** The environment the program runs in.  [localTZA t isUTC] is the
    offset of local time in milliseconds, at the instant [t] or at the
    wall-clock time [t]; [fallbackParse] is the implementation-defined
    parse of a string that is not in the Date Time String Format. *)
Record Host : Type := {
  localTZA : Z -> bool -> Z;
  fallbackParse : string -> Parsed
}.

Definition LocalTime (h : Host) (t : Z) : Z := t + localTZA h t true.

Definition UTCOfLocal (h : Host) (t : Z) : Z := t - localTZA h t false.

Definition getFullYear (h : Host) := getter (fun t => YearFromTime (LocalTime h t)).
Definition getMonth (h : Host) := getter (fun t => MonthFromTime (LocalTime h t)).
Definition getDate (h : Host) := getter (fun t => DateFromTime (LocalTime h t)).

(** [n] digits, then the rest. *)
Fixpoint digitsN (n : nat) (acc : Z) (s : string) : option (Z * string) :=
  match n with
  | O => Some (acc, s)
  | S k =>
      match s with
      | String c r =>
          if JsString.isDigit c then digitsN k (10 * acc + JsString.digitValue c) r
          else None
      | EmptyString => None
      end
  end.

Definition DaysInMonth (y m : Z) : Z :=
  daysFromCivil (y + m / 12) (m mod 12 + 1) 1 - daysFromCivil y m 1.

Definition optBind {A B} (o : option A) (k : A -> option B) : option B :=
  match o with Some a => k a | None => None end.

(** Time zone designator: [Z], or a signed [HH:mm]; the offset in ms. *)
Definition parseZone (s : string) : option (option Z) :=
  match s with
  | EmptyString => Some None
  | String "Z" EmptyString => Some (Some 0)
  | String c r =>
      if (Ascii.eqb c "+" || Ascii.eqb c "-")%bool then
        optBind (digitsN 2 0 r) (fun '(hh, r1) =>
        match r1 with
        | String ":" r2 =>
            optBind (digitsN 2 0 r2) (fun '(mm, r3) =>
            match r3 with
            | EmptyString =>
                if (hh <=? 23) && (mm <=? 59) then
                  let off := MakeTime hh mm 0 0 in
                  Some (Some (if Ascii.eqb c "-" then - off else off))
                else None
            | _ => None
            end)
        | _ => None
        end)
      else None
  end.

(** [THH:mm], [THH:mm:ss] or [THH:mm:ss.s...] and what follows. *)
Definition parseTime (s : string) : option (Z * string) :=
  optBind (digitsN 2 0 s) (fun '(hh, r1) =>
  match r1 with
  | String ":" r2 =>
      optBind (digitsN 2 0 r2) (fun '(mm, r3) =>
      let '(ss, ms, r6) :=
        match r3 with
        | String ":" r4 =>
            match digitsN 2 0 r4 with
            | Some (ss, String "." r5) =>
                let '(fr, r6) := JsString.spanDigits r5 in
                (Some ss,
                 match fr with
                 | EmptyString => None
                 | _ => Some (JsString.natValue 0 (substring 0 3 (fr ++ "00")))
                 end, r6)
            | Some (ss, r5) => (Some ss, Some 0, r5)
            | None => (None, None, r4)
            end
        | _ => (Some 0, Some 0, r3)
        end in
      match ss, ms with
      | Some ss, Some ms =>
          if (hh <=? 23) && (mm <=? 59) && (ss <=? 59)
             || (hh =? 24) && (mm =? 0) && (ss =? 0) && (ms =? 0)
          then Some (MakeTime hh mm ss ms, r6) else None
      | _, _ => None
      end)
  | _ => None
  end).

(** The Date Time String Format with a four-digit year:
    [YYYY-MM-DD], optionally followed by [T], a time and a zone.  A date
    alone is UTC; a date and time without zone is local time. *)
Definition parseISO (s : string) : option Parsed :=
  optBind (digitsN 4 0 s) (fun '(y, r1) =>
  match r1 with
  | String "-" r2 =>
      optBind (digitsN 2 0 r2) (fun '(m, r3) =>
      match r3 with
      | String "-" r4 =>
          optBind (digitsN 2 0 r4) (fun '(d, r5) =>
          if (1 <=? m) && (m <=? 12) && (1 <=? d) && (d <=? DaysInMonth y m) then
            let day := MakeDate (daysFromCivil y m d) 0 in
            match r5 with
            | EmptyString => Some (Instant day)
            | String "T" r6 =>
                optBind (parseTime r6) (fun '(time, r7) =>
                optBind (parseZone r7) (fun z =>
                match z with
                | Some off => Some (Instant (day + time - off))
                | None => Some (WallClock (day + time))
                end))
            | _ => None
            end
          else None)
      | _ => None
      end)
  | _ => None
  end).

Definition parse (h : Host) (s : string) : Parsed :=
  match parseISO s with
  | Some p => p
  | None => fallbackParse h s
  end.

(** [new Date(string)] *)
Definition ofString (h : Host) (s : string) : Date :=
  match parse h s with
  | Instant t => TimeClip t
  | WallClock t => TimeClip (UTCOfLocal h t)
  | Unparsed => InvalidDate
  end.

(** A host whose local time is UTC plus a constant, and that parses
    nothing but the standard format. *)
Definition fixedOffsetHost (offset : Z) : Host :=
  {| localTZA := fun _ _ => offset; fallbackParse := fun _ => Unparsed |}.

End JsDate.

(* ------------------------------------------------------------------------- *)
(** ** Temporal: midnight of a calendar date in a named time zone *)

Module Temporal.

(** A time zone, as the tz database gives it: the offset from UTC, in
    seconds, of local time at an instant (epoch seconds). *)
Definition TimeZone : Type := Z -> Z.

Definition secondsPerDay : Z := 86400.

(** The instants at which local time shows the wall-clock time [local]
    (seconds, counted as if UTC): the offsets in force a day before and a
    day after are tried. *)
Definition possibleInstants (tz : TimeZone) (local : Z) : list Z :=
  let a := local - tz (local - secondsPerDay) in
  let b := local - tz (local + secondsPerDay) in
  List.filter (fun t => t + tz t =? local)
              (if a =? b then [a] else [Z.min a b; Z.max a b]).

(** Disambiguation [compatible]: the earlier instant when the wall-clock
    time occurs twice, and the time pushed past the gap when it does not
    occur. *)
Definition instantFor (tz : TimeZone) (local : Z) : Z :=
  match possibleInstants tz local with
  | t :: _ => t
  | [] => local - tz (local - secondsPerDay)
  end.

(** Instants are limited to 10^8 days around the epoch. *)
Definition instantLimit : Z := 8640000000000.

(** [Temporal.PlainDate.from({year, month, day})
      .toZonedDateTime(zone).epochMilliseconds].
    Out-of-range month and day are constrained; a field that is NaN or
    below 1, and an instant beyond the limit, is a RangeError. *)
Definition zonedMidnightEpochMilliseconds
           (tz : TimeZone) (year month day : option Z) : Completion Z :=
  match year, month, day with
  | Some y, Some m, Some d =>
      if (m <? 1) || (d <? 1) then Throw (RangeError "value out of range")
      else
        let m' := Z.min m 12 in
        let d' := Z.min d (JsDate.DaysInMonth y m') in
        let t := instantFor tz (JsDate.daysFromCivil y m' d' * secondsPerDay) in
        if Z.abs t <=? instantLimit then Return (1000 * t)
        else Throw (RangeError "date/time value is outside of supported range")
  | _, _, _ => Throw (RangeError "invalid number value")
  end.

(** *** America/New_York, as the tz database has it

    Local mean time, 4:56:02 behind UTC, until 18 November 1883, 17:00
    UTC; Eastern standard time, five hours behind, since; and daylight
    time, four hours behind, by the rules of the city of New York (1920 to
    1941 and 1946 to 1966) and of the United States (the other years).
    The clocks change at 2:00 local time: daylight time begins at 7:00 UTC
    and ends at 6:00 UTC. *)

(** Day number of the first Sunday on or after a date. *)
Definition sundayOnOrAfter (y m d : Z) : Z :=
  let n := JsDate.daysFromCivil y m d in
  n + (7 - (n + 4) mod 7) mod 7.

(** Day number of the last Sunday of a month. *)
Definition lastSunday (y m : Z) : Z :=
  sundayOnOrAfter y m (JsDate.DaysInMonth y m - 6).

(** Daylight time in a year: none; from 2:00 of the day [first] to 2:00 of
    the day [last]; or, in the years of war time, which lasted from
    9 February 1942 to 30 September 1945, from a day on, all the year, or
    until a day. *)
Inductive Daylight : Type :=
| Standard
| Between (first last : Z)
| From (first : Z)
| Throughout
| Until (last : Z).

(** The table of the years, the year being that of the instant in UTC:
    - 1918 and 1919 (United States), 1920 (city): from the last Sunday of
      March to the last Sunday of October;
    - 1921 to 1941 and 1946 to 1954 (city): from the last Sunday of April
      to the last Sunday of September;
    - 1942 to 1945 (United States): war time;
    - 1955 to 1966 (city), 1967 to 1973 and 1976 to 1986 (United States):
      from the last Sunday of April to the last Sunday of October;
    - 1974: from 6 January, and 1975: from the last Sunday of February, to
      the last Sunday of October;
    - 1987 to 2006: from the first Sunday of April to the last Sunday of
      October;
    - since 2007: from the second Sunday of March to the first Sunday of
      November. *)
Definition daylight (y : Z) : Daylight :=
  if y <? 1918 then Standard
  else if y <? 1921 then Between (lastSunday y 3) (lastSunday y 10)
  else if y <? 1942 then Between (lastSunday y 4) (lastSunday y 9)
  else if y =? 1942 then From (JsDate.daysFromCivil 1942 2 9)
  else if y <? 1945 then Throughout
  else if y =? 1945 then Until (JsDate.daysFromCivil 1945 9 30)
  else if y <? 1955 then Between (lastSunday y 4) (lastSunday y 9)
  else if y <? 1974 then Between (lastSunday y 4) (lastSunday y 10)
  else if y =? 1974 then Between (JsDate.daysFromCivil 1974 1 6) (lastSunday y 10)
  else if y =? 1975 then Between (lastSunday y 2) (lastSunday y 10)
  else if y <? 1987 then Between (lastSunday y 4) (lastSunday y 10)
  else if y <? 2007 then Between (sundayOnOrAfter y 4 1) (lastSunday y 10)
  else Between (sundayOnOrAfter y 3 8) (sundayOnOrAfter y 11 1).

(** 18 November 1883, 17:00 UTC: noon of the new standard time. *)
Definition standardTimeStart : Z := -2717650800.

Definition americaNewYork : TimeZone :=
  fun t =>
    if t <? standardTimeStart then -17762
    else
      let y := fst (fst (JsDate.civilFromDays (t / secondsPerDay))) in
      let begun (first : Z) := first * secondsPerDay + 7 * 3600 <=? t in
      let notEnded (last : Z) := t <? last * secondsPerDay + 6 * 3600 in
      let daylightTime :=
        match daylight y with
        | Standard => false
        | Between first last => begun first && notEnded last
        | From first => begun first
        | Throughout => true
        | Until last => notEnded last
        end in
      if daylightTime then -14400 else -18000.

End Temporal.

(* ------------------------------------------------------------------------- *)
(** ** Map: insertion-ordered, string keys *)

Module JsMap.

Section Ops.
Context {V : Type}.

(** The entries in insertion order; keys are distinct. *)
Definition t : Type := list (string * V).

Definition empty : t := [].

(** [set] on a key that is present replaces the value in place. *)
Fixpoint set (k : string) (v : V) (m : t) : t :=
  match m with
  | [] => [(k, v)]
  | (k', v') :: r =>
      if String.eqb k k' then (k, v) :: r else (k', v') :: set k v r
  end.

Fixpoint get (k : string) (m : t) : option V :=
  match m with
  | [] => None
  | (k', v') :: r => if String.eqb k k' then Some v' else get k r
  end.

Definition entries (m : t) : list (string * V) := m.

Definition keys (m : t) : list string := List.map fst m.

Definition values (m : t) : list V := List.map snd m.
End Ops.

Arguments t V : clear implicits.

End JsMap.

(* ------------------------------------------------------------------------- *)
(** ** JSON *)

Module Json.

(** JSON values.  Numbers are integers: the request documents and status
    fields handled here hold no others, and a number literal with a
    fraction or an exponent is outside the model ([parse] gives [None]). *)
Inductive json : Type :=
| JNull
| JBool (b : bool)
| JNum (n : Z)
| JStr (s : string)
| JArr (items : list json)
| JObj (members : list (string * json)).

Definition hexDigit (n : Z) : ascii :=
  if n <? 10 then JsString.chr (48 + n) else JsString.chr (87 + n).

Definition hexValue (c : ascii) : option Z :=
  let n := JsString.code c in
  if (48 <=? n) && (n <=? 57) then Some (n - 48)
  else if (97 <=? n) && (n <=? 102) then Some (n - 87)
  else if (65 <=? n) && (n <=? 70) then Some (n - 55)
  else None.

(** QuoteJSONString, one character. *)
Definition escapeChar (c : ascii) : string :=
  let n := JsString.code c in
  if n =? 34 then String "\" (String JsString.dquote "")
  else if n =? 92 then "\\"
  else if n =? 8 then "\b"
  else if n =? 12 then "\f"
  else if n =? 10 then "\n"
  else if n =? 13 then "\r"
  else if n =? 9 then "\t"
  else if n <? 32 then
    String "\" (String "u" (String "0" (String "0"
      (String (hexDigit (n / 16)) (String (hexDigit (n mod 16)) "")))))
  else String c "".

Fixpoint escape (s : string) : string :=
  match s with
  | String c r => escapeChar c ++ escape r
  | EmptyString => ""
  end.

Definition quote (s : string) : string :=
  String JsString.dquote (escape s ++ String JsString.dquote "").

(** [JSON.stringify(value)], no indentation. *)
Fixpoint stringify (v : json) : string :=
  match v with
  | JNull => "null"
  | JBool true => "true"
  | JBool false => "false"
  | JNum n => JsString.ofZ n
  | JStr s => quote s
  | JArr items =>
      "[" ++ (fix go (l : list json) : string :=
                match l with
                | [] => ""
                | [x] => stringify x
                | x :: r => stringify x ++ "," ++ go r
                end) items ++ "]"
  | JObj members =>
      "{" ++ (fix go (l : list (string * json)) : string :=
                match l with
                | [] => ""
                | [(k, x)] => quote k ++ ":" ++ stringify x
                | (k, x) :: r => quote k ++ ":" ++ stringify x ++ "," ++ go r
                end) members ++ "}"
  end.

Definition isJsonSpace (c : ascii) : bool :=
  let n := JsString.code c in
  (n =? 32) || (n =? 9) || (n =? 10) || (n =? 13).

Fixpoint skipWs (s : string) : string :=
  match s with
  | String c r => if isJsonSpace c then skipWs r else s
  | EmptyString => EmptyString
  end.

Definition simpleEscape (c : ascii) : option ascii :=
  let n := JsString.code c in
  if n =? 34 then Some c
  else if n =? 92 then Some c
  else if n =? 47 then Some c
  else if n =? 98 then Some (JsString.chr 8)
  else if n =? 102 then Some (JsString.chr 12)
  else if n =? 110 then Some (JsString.chr 10)
  else if n =? 114 then Some (JsString.chr 13)
  else if n =? 116 then Some (JsString.chr 9)
  else None.

Definition hex4 (a b c d : ascii) : option Z :=
  match hexValue a, hexValue b, hexValue c, hexValue d with
  | Some x, Some y, Some z, Some w => Some (((x * 16 + y) * 16 + z) * 16 + w)
  | _, _, _, _ => None
  end.

Definition consFst (c : ascii) (p : option (string * string)) : option (string * string) :=
  match p with
  | Some (s, r) => Some (String c s, r)
  | None => None
  end.

(** The characters of a string literal after its opening quote, up to the
    closing one, and what follows it.  An escape above U+00FF is outside
    the model. *)
Fixpoint parseStringBody (s : string) : option (string * string) :=
  match s with
  | EmptyString => None
  | String c r =>
      if JsString.code c =? 34 then Some ("", r)
      else if JsString.code c =? 92 then
        match r with
        | String e r' =>
            match simpleEscape e with
            | Some ch => consFst ch (parseStringBody r')
            | None =>
                match e, r' with
                | "u"%char, String h1 (String h2 (String h3 (String h4 r''))) =>
                    match hex4 h1 h2 h3 h4 with
                    | Some n =>
                        if n <? 256 then consFst (JsString.chr n) (parseStringBody r'')
                        else None
                    | None => None
                    end
                | _, _ => None
                end
            end
        | EmptyString => None
        end
      else if JsString.code c <? 32 then None
      else consFst c (parseStringBody r)
  end.

(** A number literal: an optional minus sign and digits without a leading
    zero.  A fraction or an exponent is outside the model. *)
Definition parseNumber (s : string) : option (json * string) :=
  let '(neg, r) :=
    match s with
    | String c t => if JsString.code c =? 45 then (true, t) else (false, s)
    | EmptyString => (false, s)
    end in
  let '(ds, r') := JsString.spanDigits r in
  let leadingZero :=
    match ds with
    | String c (String _ _) => JsString.digitValue c =? 0
    | _ => false
    end in
  let fraction :=
    match r' with
    | String c _ =>
        let n := JsString.code c in (n =? 46) || (n =? 101) || (n =? 69)
    | EmptyString => false
    end in
  match ds with
  | EmptyString => None
  | _ =>
      if leadingZero || fraction then None
      else Some (JNum (if neg then - JsString.natValue 0 ds else JsString.natValue 0 ds), r')
  end.

Section Compound.
(** The parser of one value, for the elements of arrays and objects. *)
Variable parseValue : string -> option (json * string).

(** Elements after [[], at least one; [n] bounds their number. *)
Fixpoint parseItems (n : nat) (s : string) : option (list json * string) :=
  match n with
  | O => None
  | S k =>
      match parseValue s with
      | Some (v, r) =>
          match skipWs r with
          | String c r' =>
              if JsString.code c =? 44 then (* , *)
                match parseItems k r' with
                | Some (vs, r'') => Some (v :: vs, r'')
                | None => None
                end
              else if JsString.code c =? 93 then (* ] *) Some ([v], r')
              else None
          | EmptyString => None
          end
      | None => None
      end
  end.

(** Members after [{], at least one. *)
Fixpoint parseMembers (n : nat) (s : string) : option (list (string * json) * string) :=
  match n with
  | O => None
  | S k =>
      match skipWs s with
      | String q r =>
          if JsString.code q =? 34 then
            match parseStringBody r with
            | Some (key, r1) =>
                match skipWs r1 with
                | String colon r2 =>
                    if JsString.code colon =? 58 then
                      match parseValue r2 with
                      | Some (v, r3) =>
                          match skipWs r3 with
                          | String c r4 =>
                              if JsString.code c =? 44 then (* , *)
                                match parseMembers k r4 with
                                | Some (ms, r5) => Some ((key, v) :: ms, r5)
                                | None => None
                                end
                              else if JsString.code c =? 125 then (* } *)
                                Some ([(key, v)], r4)
                              else None
                          | EmptyString => None
                          end
                      | None => None
                      end
                    else None
                | EmptyString => None
                end
            | None => None
            end
          else None
      | EmptyString => None
      end
  end.
End Compound.

(** A literal name: the text after its first letter, and its value. *)
Definition parseLiteral (tail : string) (v : json) (r : string) : option (json * string) :=
  if prefix tail r then Some (v, JsString.drop (String.length tail) r) else None.

(** One value, white space before it allowed, and what follows.  [fuel]
    bounds the nesting depth. *)
Fixpoint parseValue (fuel : nat) (s : string) : option (json * string) :=
  match fuel with
  | O => None
  | S f =>
      match skipWs s with
      | EmptyString => None
      | String c r =>
          let n := JsString.code c in
          if n =? 110 then parseLiteral "ull" JNull r
          else if n =? 116 then parseLiteral "rue" (JBool true) r
          else if n =? 102 then parseLiteral "alse" (JBool false) r
          else if n =? 34 then
            match parseStringBody r with
            | Some (str, r') => Some (JStr str, r')
            | None => None
            end
          else if n =? 91 then (* [ *)
            match skipWs r with
            | EmptyString => None
            | String c' r' =>
                if JsString.code c' =? 93 then Some (JArr [], r')
                else
                  match parseItems (parseValue f) (String.length r) r with
                  | Some (vs, r'') => Some (JArr vs, r'')
                  | None => None
                  end
            end
          else if n =? 123 then (* { *)
            match skipWs r with
            | EmptyString => None
            | String c' r' =>
                if JsString.code c' =? 125 then Some (JObj [], r')
                else
                  match parseMembers (parseValue f) (String.length r) r with
                  | Some (ms, r'') => Some (JObj ms, r'')
                  | None => None
                  end
            end
          else parseNumber (String c r)
      end
  end.

(** [JSON.parse(text)]; [None] is the SyntaxError of a text that is no
    JSON.  A text with a fraction, an exponent or an escape above 00FF,
    whose value this model cannot hold, gives [None] as well and is outside
    the model: what is proved of [parse] is proved of the texts that
    [stringify] and the templates write. *)
Definition parse (text : string) : option json :=
  match parseValue (S (String.length text)) text with
  | Some (v, r) => match skipWs r with EmptyString => Some v | _ => None end
  | None => None
  end.

Definition parseC (text : string) : Completion json :=
  match parse text with
  | Some v => Return v
  | None => Throw (SyntaxError "Unexpected token in JSON")
  end.

(** *** Reading a parsed document *)

(** The value of an own property of an object built by [parse]: of
    several members with one name the last counts. *)
Fixpoint lookup (name : string) (members : list (string * json)) : option json :=
  match members with
  | [] => None
  | (k, v) :: r =>
      match lookup name r with
      | Some v' => Some v'
      | None => if String.eqb name k then Some v else None
      end
  end.

(** [value.name], where [None] is [undefined].  The names read by the
    client are no built-in properties of strings, numbers, booleans or
    arrays, on which the result is [undefined]. *)
Definition getProp (value : option json) (name : string) : Completion (option json) :=
  match value with
  | None =>
      Throw (TypeError ("Cannot read properties of undefined (reading '" ++ name ++ "')"))
  | Some JNull =>
      Throw (TypeError ("Cannot read properties of null (reading '" ++ name ++ "')"))
  | Some (JObj members) => Return (lookup name members)
  | Some _ => Return None
  end.

(** The receiver of an array method such as [map], in a call written
    [receiver.method(...)]. *)
Definition asArray (value : option json) (receiver method : string) : Completion (list json) :=
  match value with
  | Some (JArr items) => Return items
  | None =>
      Throw (TypeError ("Cannot read properties of undefined (reading '" ++ method ++ "')"))
  | Some JNull =>
      Throw (TypeError ("Cannot read properties of null (reading '" ++ method ++ "')"))
  | Some _ => Throw (TypeError (receiver ++ "." ++ method ++ " is not a function"))
  end.

(** The receiver of a string method such as [toLowerCase]. *)
Definition asString (value : option json) (receiver method : string) : Completion string :=
  match value with
  | Some (JStr s) => Return s
  | None =>
      Throw (TypeError ("Cannot read properties of undefined (reading '" ++ method ++ "')"))
  | Some JNull =>
      Throw (TypeError ("Cannot read properties of null (reading '" ++ method ++ "')"))
  | Some _ => Throw (TypeError (receiver ++ "." ++ method ++ " is not a function"))
  end.

End Json.

(* ------------------------------------------------------------------------- *)
(** ** Buffer: UTF-8 and base64 *)

Module Buffer.

(** UTF-8 bytes of a string of code units below 256: one byte below 128,
    two from 128 on.  ([Utf16.utf8] gives the bytes of any text.) *)
Fixpoint utf8 (s : string) : list Z :=
  match s with
  | String c r =>
      let n := JsString.code c in
      if n <? 128 then n :: utf8 r
      else (192 + n / 64) :: (128 + n mod 64) :: utf8 r
  | EmptyString => []
  end.

Definition alphabet : string :=
  "ABCDEFGHIJKLMNOPQRSTUVWXYZabcdefghijklmnopqrstuvwxyz0123456789+/".

Definition sextet (n : Z) : ascii :=
  match String.get (Z.to_nat n) alphabet with
  | Some c => c
  | None => "="%char
  end.

Fixpoint base64 (bytes : list Z) : string :=
  match bytes with
  | a :: b :: c :: r =>
      String (sextet (a / 4))
        (String (sextet ((a mod 4) * 16 + b / 16))
           (String (sextet ((b mod 16) * 4 + c / 64))
              (String (sextet (c mod 64)) (base64 r))))
  | [a; b] =>
      String (sextet (a / 4))
        (String (sextet ((a mod 4) * 16 + b / 16))
           (String (sextet ((b mod 16) * 4)) "="))
  | [a] =>
      String (sextet (a / 4)) (String (sextet ((a mod 4) * 16)) "==")
  | [] => ""
  end.

End Buffer.

(* ------------------------------------------------------------------------- *)
(** ** Mustache *)

Module Mustache.

(** A template after parsing of its tags. *)
Inductive node : Type :=
| Text (s : string)
| Var (name : string)                          (* {{name}} *)
| Raw (name : string)                          (* {{{name}}} *)
| Section (name : string) (body : list node)   (* {{#name}} ... {{/name}} *)
| Inverted (name : string) (body : list node). (* {{^name}} ... {{/name}} *)

Definition template : Type := list node.

(** The values of a view. *)
Inductive value : Type :=
| VStr (s : string)
| VBool (b : bool)
| VList (items : list (list (string * value))).

Definition view : Type := list (string * value).

Fixpoint find (name : string) (v : view) : option value :=
  match v with
  | [] => None
  | (k, x) :: r => if String.eqb name k then Some x else find name r
  end.

(** A name is looked up in the innermost view first. *)
Fixpoint lookup (name : string) (stack : list view) : option value :=
  match stack with
  | [] => None
  | v :: r =>
      match find name v with
      | Some x => Some x
      | None => lookup name r
      end
  end.

Definition escapeHtmlChar (c : ascii) : string :=
  let n := JsString.code c in
  if n =? 38 then "&amp;"
  else if n =? 60 then "&lt;"
  else if n =? 62 then "&gt;"
  else if n =? 34 then "&quot;"
  else if n =? 39 then "&#39;"
  else if n =? 47 then "&#x2F;"
  else if n =? 96 then "&#x60;"
  else if n =? 61 then "&#x3D;"
  else String c "".

Fixpoint escapeHtml (s : string) : string :=
  match s with
  | String c r => escapeHtmlChar c ++ escapeHtml r
  | EmptyString => ""
  end.

(** The text of a variable tag. *)
Definition show (x : option value) : string :=
  match x with
  | Some (VStr s) => s
  | Some (VBool true) => "true"
  | Some (VBool false) => "false"
  | Some (VList _) => ""
  | None => ""
  end.

Definition concat (l : list string) : string :=
  List.fold_right String.append "" l.

Fixpoint renderNode (n : node) (stack : list view) {struct n} : string :=
  let renderAll :=
    fix renderAll (l : list node) (stack : list view) {struct l} : string :=
      match l with
      | [] => ""
      | x :: r => renderNode x stack ++ renderAll r stack
      end in
  match n with
  | Text s => s
  | Var name => escapeHtml (show (lookup name stack))
  | Raw name => show (lookup name stack)
  | Section name body =>
      match lookup name stack with
      | Some (VList items) =>
          concat (List.map (fun item => renderAll body (item :: stack)) items)
      | Some (VBool true) => renderAll body stack
      | Some (VStr (String _ _)) => renderAll body stack
      | _ => ""
      end
  | Inverted name body =>
      match lookup name stack with
      | Some (VList []) | Some (VBool false) | Some (VStr EmptyString) | None =>
          renderAll body stack
      | _ => ""
      end
  end.

Fixpoint renderAll (l : list node) (stack : list view) : string :=
  match l with
  | [] => ""
  | x :: r => renderNode x stack ++ renderAll r stack
  end.

(** [Mustache.render(template, view)] *)
Definition render (t : template) (v : view) : string := renderAll t [v].

End Mustache.

(* ------------------------------------------------------------------------- *)
(** ** fidelity-models.ts *)

Module Models.

Record GetTransactionsRespHistoryModel : Type := {
  acctNum : string;
  amount : string;
  date : string;
  description : string;
  intradayInd : bool;
  orderNumber : string
}.

End Models.

(* ------------------------------------------------------------------------- *)
(** ** fidelity-templates *)

Module Templates.

Import Mustache.

(** Modelled from the spec: the part of the template below that is
    rendered for each account. *)
Definition accountEntry : template :=
  [ Text (JsString.quoted "{'acctNum':'");
    Var "number";
    Text (JsString.quoted "','acctType':'','name':'");
    Raw "name";
    Text (JsString.quoted "'}");
    Inverted "last" [ Text "," ] ].

(** Modelled from the spec: the file
    [fidelity-templates/getTransactionsBody.json.mustache], which is not
    among the sources.  The spec gives its slots: [accounts], a sequence of
    [{number, name, last}] where [last] keeps the list free of a trailing
    comma, and [start] and [end]; the envelope
    [{operationName, variables, query}]; [variables.acctDetailList] and
    [variables.searchCriteriaDetail.txnFromDate] / [txnToDate].  The other
    fields are those of [GetTransactionsReqModel]; the spec does not give
    their values, which are blank here.  The name slot is substituted as it
    is. *)
Definition getTransactionsBody : template :=
  [ Text (JsString.quoted
      "{'operationName':'','variables':{'isNewOrderApi':false,'isSupportCrypto':false,'hideDCOrders':false,'acctIdList':'','acctDetailList':[");
    Section "accounts" accountEntry;
    Text (JsString.quoted
      "],'searchCriteriaDetail':{'timePeriod':0,'txnCat':null,'viewType':'','histSortDir':'','acctHistSort':'','hasBasketName':false,'txnFromDate':'");
    Var "start";
    Text (JsString.quoted "','txnToDate':'");
    Var "end";
    Text (JsString.quoted "'}},'query':''}") ].

(** Modelled from the spec: the file
    [fidelity-templates/getTransactionsOptions.json.mustache], which is not
    among the sources: request options (method, headers, body) of a POST
    request, the [body] slot substituted as it is. *)
Definition getTransactionsOptions : template :=
  [ Text (JsString.quoted "{'method':'POST','headers':{},'body':");
    Raw "body";
    Text "}" ].

End Templates.

(* ------------------------------------------------------------------------- *)
(** ** fidelity.ts *)

Module Fidelity.

Import Json.

(** Fidelity account. *)
Record Account : Type := {
  number : string;
  name : string
}.

(** Fidelity transaction.  An absent [amount] or [order_number] is
    [undefined]. *)
Record Transaction : Type := {
  acct_num : string;
  date : JsDate.Date;
  description : string;
  amount : option float;
  order_number : option string;
  pending : bool
}.

(** One call of the evaluator: the arguments handed to the browser's
    [fetch]. *)
Record Request : Type := {
  url : string;
  options : json
}.

(** What the evaluator resolves to. *)
Record FetchResp : Type := {
  status : Z;
  text : option string;
  json : option Json.json
}.

(** The injected [EvaluateFunc]: what a call gives, which may depend on the
    calls made before it.  A rejected promise is a [Throw]. *)
Definition EvaluateFunc : Type := list Request -> Request -> Completion FetchResp.

(** An instance of the class, and the calls it has made to its evaluator
    so far (oldest first). *)
Record State : Type := {
  accounts : option (JsMap.t Account);
  calls : list Request
}.

(** A method of the instance. *)
Definition M (A : Type) : Type := State -> Completion A * State.

Definition ret {A} (a : A) : M A := fun st => (Return a, st).

Definition throw {A} (e : JsError) : M A := fun st => (Throw e, st).

Definition lift {A} (c : Completion A) : M A := fun st => (c, st).

Definition bind {A B} (c : M A) (k : A -> M B) : M B :=
  fun st =>
    match c st with
    | (Return a, st') => k a st'
    | (Throw e, st') => (Throw e, st')
    end.

Notation "x <- c ;; k" := (bind c (fun x => k))
  (at level 61, c at next level, right associativity).

(** [for (const x of l) { s = await body(s, x) }] *)
Fixpoint forOf {A S} (l : list A) (body : S -> A -> M S) (s : S) : M S :=
  match l with
  | [] => ret s
  | x :: r => s' <- body s x ;; forOf r body s'
  end.

(** [try { c } catch (e) { throw new FidelityError(`Failed to parse ${what} response: ${e.message}`) }] *)
Definition parseGuard {A} (what : string) (c : Completion A) : Completion A :=
  match c with
  | Return a => Return a
  | Throw e =>
      Throw (FidelityError ("Failed to parse " ++ what ++ " response: " ++ errorMessage e))
  end.

Definition transactionsUrl : string :=
  "https://digital.fidelity.com/ftgw/digital/webactivity/api/graphql?ref_at=activity".

Definition accountsUrl : string :=
  "https://digital.fidelity.com/ftgw/digital/portfolio/api/graphql?ref_at=portsum".

(** A leaf of a response read at the type the response model declares.
    The code casts the response to its model and checks nothing: it
    carries a leaf of another type along (an account without a name is
    cached, a history entry without an order number gives a transaction
    without one) and fails, if at all, where the leaf is used:
    [h.amount.replace] within the [try] block, [Buffer.from] in
    [encodeAccountName] outside of it.  Responses with such leaves are
    outside this model, which ends the reading with a TypeError; what is
    proved of the errors of the client is proved for typed account lists
    ([AccountsSpec.typedAccounts]). *)
Definition leafString (v : option Json.json) (field : string) : Completion string :=
  match v with
  | Some (JStr s) => Return s
  | _ => Throw (TypeError (field ++ " is not a string"))
  end.

Definition leafBool (v : option Json.json) (field : string) : Completion bool :=
  match v with
  | Some (JBool b) => Return b
  | _ => Throw (TypeError (field ++ " is not a boolean"))
  end.

(** An element of [historys] as a [GetTransactionsRespHistoryModel]. *)
Definition readHistoryEntry (h : Json.json) : Completion Models.GetTransactionsRespHistoryModel :=
  let* date := getProp (Some h) "date" in
  let* date := leafString date "date" in
  let* amount := getProp (Some h) "amount" in
  let* amount := leafString amount "amount" in
  let* acctNum := getProp (Some h) "acctNum" in
  let* acctNum := leafString acctNum "acctNum" in
  let* description := getProp (Some h) "description" in
  let* description := leafString description "description" in
  let* orderNumber := getProp (Some h) "orderNumber" in
  let* orderNumber := leafString orderNumber "orderNumber" in
  let* intradayInd := getProp (Some h) "intradayInd" in
  let* intradayInd := leafBool intradayInd "intradayInd" in
  Return {| Models.acctNum := acctNum;
            Models.amount := amount;
            Models.date := date;
            Models.description := description;
            Models.intradayInd := intradayInd;
            Models.orderNumber := orderNumber |}.

(** An element of [assets] as an [Account]:
    [{number: a.acctNum, name: a.preferenceDetail.name}]. *)
Definition readAsset (a : Json.json) : Completion Account :=
  let* acctNum := getProp (Some a) "acctNum" in
  let* acctNum := leafString acctNum "acctNum" in
  let* preferenceDetail := getProp (Some a) "preferenceDetail" in
  let* name := getProp preferenceDetail "name" in
  let* name := leafString name "name" in
  Return {| number := acctNum; name := name |}.

(** [static encodeAccountName(name)] *)
Definition encodeAccountName (name : string) : string :=
  Buffer.base64 (Buffer.utf8 name).

(** [private static checkDate(d)] *)
Definition checkDate (d : JsDate.Date) : string :=
  let dayOffset :=
    (JsDate.num (JsDate.getUTCHours d)
     + JsDate.num (JsDate.getUTCMinutes d) / 60
     + JsDate.num (JsDate.getUTCSeconds d) / 3600
     + JsDate.num (JsDate.getUTCMilliseconds d) / 3600000)%float in
  if negb (PrimFloat.eqb dayOffset 0) then
    "not exact day: " ++ JsNumber.toString dayOffset ++ " hours"
  else "".

(** The [accountDicts] of [getTransactionsBody], from index [i] on. *)
Fixpoint accountDicts (i length : Z) (accounts : list Account) : list Mustache.view :=
  match accounts with
  | [] => []
  | a :: r =>
      [ ("number", Mustache.VStr (number a));
        ("name", Mustache.VStr (encodeAccountName (name a)));
        ("last", Mustache.VBool (i =? length - 1)) ]
      :: accountDicts (i + 1) length r
  end.

Section Client.

(** The tz database's zone [FIDELITY_ZONE], America/New_York. *)
Variable zone : Temporal.TimeZone.

(** The host the client runs on. *)
Variable host : JsDate.Host.

(** The content of [fidelity-templates/getAccountsOptions.json], static
    request options that are not among the sources. *)
Variable accountsOptions : Json.json.

(** The evaluator the instance was constructed with. *)
Variable evaluator : EvaluateFunc.

(** [static getAccountsOptions()] *)
Definition getAccountsOptions : Json.json := accountsOptions.

(** [static fidelityDate(d)].  The epoch milliseconds are a multiple of
    1000 below 2^53, on which the division and [Math.floor] are exact. *)
Definition fidelityDate (d : JsDate.Date) : Completion string :=
  let* epochMilliseconds :=
    Temporal.zonedMidnightEpochMilliseconds zone
      (JsDate.getUTCFullYear d)
      (option_map (fun m => m + 1) (JsDate.getUTCMonth d))
      (JsDate.getUTCDate d) in
  Return (JsString.ofZ (epochMilliseconds / 1000)).

(** [private static getTransactionsBody(accounts, start, end)] *)
Definition getTransactionsBody (accounts : list Account) (start end_ : JsDate.Date)
  : Completion Json.json :=
  let accountDicts := accountDicts 0 (Z.of_nat (List.length accounts)) accounts in
  let* start' := fidelityDate start in
  let* end' := fidelityDate end_ in
  let context :=
    [ ("accounts", Mustache.VList accountDicts);
      ("start", Mustache.VStr start');
      ("end", Mustache.VStr end') ] in
  let body := Mustache.render Templates.getTransactionsBody context in
  Json.parseC body.

(** [static getTransactionsOptions(accounts, start, end)] *)
Definition getTransactionsOptions (accounts : list Account) (start end_ : JsDate.Date)
  : Completion Json.json :=
  let* body := getTransactionsBody accounts start end_ in
  let context :=
    [ ("body", Mustache.VStr (Json.stringify (JStr (Json.stringify body)))) ] in
  Json.parseC (Mustache.render Templates.getTransactionsOptions context).

(** [private static historyEntryToTransaction(h)] *)
Definition historyEntryToTransaction (h : Models.GetTransactionsRespHistoryModel)
  : Transaction :=
  let d := JsDate.ofString host (Models.date h) in
  let date :=
    JsDate.UTC (JsDate.getFullYear host d) (JsDate.getMonth host d) (JsDate.getDate host d) in
  let amount_str := JsString.deleteAll [","%char; "$"%char] (Models.amount h) in
  let amount :=
    if negb (String.eqb (JsString.trim amount_str) "") then
      let amount := (JsNumber.Math_round (JsNumber.parseFloat amount_str * 100) / 100)%float in
      if JsNumber.isNaN amount then None else Some amount
    else None in
  {| acct_num := Models.acctNum h;
     date := date;
     description := Models.description h;
     amount := amount;
     order_number :=
       if String.eqb (Models.orderNumber h) "" then None else Some (Models.orderNumber h);
     pending := Models.intradayInd h |}.

(** [private async fetch(url, options)] *)
Definition fetch (url : string) (options : Json.json) : M (option Json.json) :=
  fun st =>
    let request := {| url := url; options := options |} in
    let st' := {| accounts := accounts st; calls := List.app (calls st) [request] |} in
    match evaluator (calls st) request with
    | Throw e => (Throw e, st')
    | Return resp =>
        if negb (status resp =? 200) then
          (Throw (FidelityError
                    ("get_transactions fetch failed, code: " ++ JsString.ofZ (status resp)
                     ++ ", text: "
                     ++ match text resp with Some t => t | None => "undefined" end)),
           st')
        else (Return (json resp), st')
    end.

(** The account map of [fetchAccounts], from [context.person.assets]. *)
Definition accountMapOf (context : option Json.json) : Completion (JsMap.t Account) :=
  let* person := getProp context "person" in
  let* assets := getProp person "assets" in
  let* assets := asArray assets "context.person.assets" "map" in
  let* accounts := mapC readAsset assets in
  Return (List.fold_left (fun accountMap a => JsMap.set (number a) a accountMap)
                         accounts JsMap.empty).

(** [resp.data.getContext] *)
Definition contextOf (respJson : option Json.json) : Completion (option Json.json) :=
  let* data := getProp respJson "data" in
  getProp data "getContext".

(** [context.sysStatus.backend.account], a string on which [toLowerCase]
    is called. *)
Definition statusOf (context : option Json.json) : Completion string :=
  let* sysStatus := getProp context "sysStatus" in
  let* backend := getProp sysStatus "backend" in
  let* status := getProp backend "account" in
  asString status "status" "toLowerCase".

(** The [try] block of [fetchAccounts]. *)
Definition readAccounts (respJson : option Json.json) : Completion (JsMap.t Account) :=
  let* context := contextOf respJson in
  let* status := statusOf context in
  if negb (String.eqb (JsString.toLowerCase status) "ok") then
    Throw (FidelityError ("Fidelity backend not ok " ++ status))
  else accountMapOf context.

(** [private async fetchAccounts()] *)
Definition fetchAccounts : M (JsMap.t Account) :=
  respJson <- fetch accountsUrl getAccountsOptions ;;
  lift (parseGuard "get_accounts" (readAccounts respJson)).

(** [private async getAccounts()] *)
Definition getAccounts : M (JsMap.t Account) :=
  fun st =>
    match accounts st with
    | Some accounts => (Return accounts, st)
    | None =>
        match fetchAccounts st with
        | (Return accounts, st') =>
            (Return accounts, {| accounts := Some accounts; calls := calls st' |})
        | (Throw e, st') => (Throw e, st')
        end
    end.

(** [private async getAccount(account)]; [None] is [null]. *)
Definition getAccount (account : string) : M (option Account) :=
  accounts <- getAccounts ;;
  ret (JsMap.get account accounts).

(** The loop of [getTransactions] that fills [acctDict]. *)
Definition resolveAccounts (accounts : list string) : M (JsMap.t (option Account)) :=
  forOf accounts
        (fun acctDict acct => a <- getAccount acct ;; ret (JsMap.set acct a acctDict))
        JsMap.empty.

(** The keys of [acctDict] whose value is [null]. *)
Definition missingAccounts (acctDict : JsMap.t (option Account)) : list string :=
  List.map fst
    (List.filter (fun e => match snd e with None => true | Some _ => false end)
                 (JsMap.entries acctDict)).

(** The values of [acctDict] that are not [null]. *)
Definition presentAccounts (acctDict : JsMap.t (option Account)) : list Account :=
  List.flat_map (fun a => match a with Some a' => [a'] | None => [] end)
                (JsMap.values acctDict).

(** The [try] block of [getTransactions]. *)
Definition readTransactions (respJson : option Json.json) : Completion (list Transaction) :=
  let* data := getProp respJson "data" in
  let* getTransactions := getProp data "getTransactions" in
  let* historys := getProp getTransactions "historys" in
  let* historys := asArray historys "historys" "map" in
  mapC (fun h => let* h' := readHistoryEntry h in Return (historyEntryToTransaction h'))
       historys.

(** The end of [getTransactions], from the accounts found: the request is
    built and sent, and the response read. *)
Definition fetchTransactions (accts : list Account) (start end_ : JsDate.Date)
  : M (list Transaction) :=
  options <- lift (getTransactionsOptions accts start end_) ;;
  respJson <- fetch transactionsUrl options ;;
  lift (parseGuard "get_transactions" (readTransactions respJson)).

(** [async getTransactions(accounts, start, end)] *)
Definition getTransactions (accounts : list string) (start end_ : JsDate.Date)
  : M (list Transaction) :=
  let dateMessage :=
    JsString.join "; "
      (List.filter (fun m => (0 <? String.length m)%nat) [checkDate start; checkDate end_]) in
  if (0 <? String.length dateMessage)%nat then
    throw (FidelityError ("Invalid date(s): " ++ dateMessage))
  else
    acctDict <- resolveAccounts accounts ;;
    let missing := missingAccounts acctDict in
    if (0 <? List.length missing)%nat then
      throw (FidelityError ("Account(s) not found: " ++ JsString.join ", " missing))
    else
      let accts := presentAccounts acctDict in
      fetchTransactions accts start end_.

End Client.

(** A new instance: [accounts] is [null], and no call has been made. *)
Definition newInstance : State := {| accounts := None; calls := [] |}.

End Fidelity.

(* ------------------------------------------------------------------------- *)
(** ** The other copy of the client

    The repository holds a second copy of [fidelity.ts], which differs in
    the validation of the date range ([checkStartEnd]) and in the amount of
    a transaction. *)

Module FidelityVariant.

(** [start > end] on two dates: false when either is invalid. *)
Definition dateGt (a b : JsDate.Date) : bool :=
  match a, b with
  | JsDate.DateOf x, JsDate.DateOf y => y <? x
  | _, _ => false
  end.

(** [private static checkStartEnd(start, end)]: the message of the error it
    throws, if it throws. *)
Definition checkStartEnd (start end_ : JsDate.Date) : option string :=
  let outOfOrder := if dateGt start end_ then "start > end" else "" in
  let dateMessage :=
    JsString.join "; "
      (List.filter (fun m => (0 <? String.length m)%nat)
                   [Fidelity.checkDate start; Fidelity.checkDate end_; outOfOrder]) in
  if (0 <? String.length dateMessage)%nat then Some ("Invalid date(s): " ++ dateMessage)
  else None.

End FidelityVariant.

(* ------------------------------------------------------------------------- *)
(** ** A mock evaluator, after the one of the repository's test *)

Module Mock.

Import Json.

Definition asset (acctNum name : string) : Json.json :=
  JObj [ ("acctNum", JStr acctNum); ("acctType", JStr "Brokerage");
         ("preferenceDetail", JObj [("name", JStr name)]) ].

(** A get-accounts response with backend status [status]. *)
Definition accountsResponse (status : string) : Json.json :=
  JObj [ ("data", JObj [ ("getContext", JObj
    [ ("sysStatus", JObj [("backend", JObj [("account", JStr status)])]);
      ("person", JObj [("assets", JArr [ asset "1234" "Brokerage"; asset "5678" "IRA" ])]) ]) ]) ].

Definition history (acctNum amount date description orderNumber : string) (intradayInd : bool)
  : Json.json :=
  JObj [ ("acctNum", JStr acctNum); ("amount", JStr amount); ("date", JStr date);
         ("description", JStr description); ("intradayInd", JBool intradayInd);
         ("orderNumber", JStr orderNumber) ].

(** A get-transactions response: one settled entry, one pending. *)
Definition transactionsResponse : Json.json :=
  JObj [ ("data", JObj [ ("getTransactions", JObj [ ("historys", JArr
    [ history "1234" "$1,234.56" "2025-11-28T00:00:00" "DIVIDEND RECEIVED" "24332-AB1CD" false;
      history "1234" "" "2025-12-01T00:00:00" "DEBIT CARD PURCHASE" "" true ]) ]) ]) ].

(** Answers by the URL, with status 200. *)
Definition evaluator (status : string) : Fidelity.EvaluateFunc :=
  fun _ request =>
    Return {| Fidelity.status := 200;
              Fidelity.text := None;
              Fidelity.json :=
                Some (if String.eqb (Fidelity.url request) Fidelity.accountsUrl
                      then accountsResponse status else transactionsResponse) |}.

(** Rejects every call. *)
Definition offline : Fidelity.EvaluateFunc :=
  fun _ _ => Throw (OtherError "net::ERR_INTERNET_DISCONNECTED").

Definition brokerage : Fidelity.Account :=
  {| Fidelity.number := "1234"; Fidelity.name := "Brokerage" |}.

Definition ira : Fidelity.Account :=
  {| Fidelity.number := "5678"; Fidelity.name := "IRA" |}.

(** The cache after the account list above was fetched. *)
Definition accountMap : JsMap.t Fidelity.Account :=
  [ ("1234", brokerage); ("5678", ira) ].

(** 2025-11-28 and 2025-12-02, the dates of the repository's test. *)
Definition nov28 : JsDate.Date := JsDate.DateOf (20420 * JsDate.msPerDay).

Definition dec02 : JsDate.Date := JsDate.DateOf (20424 * JsDate.msPerDay).

(** A host in New York's standard time that parses the standard format
    only. *)
Definition host : JsDate.Host := JsDate.fixedOffsetHost (-18000000).

End Mock.

(* ------------------------------------------------------------------------- *)
(** * Vocabulary of the properties *)

(** ** The calendar *)

Module CalendarSpec.

Import JsDate.

(** Checks [p] on [fuel] consecutive integers from [z] on. *)
Fixpoint allFrom (fuel : nat) (z : Z) (p : Z -> bool) : bool :=
  match fuel with
  | O => true
  | S f => if p z then allFrom f (z + 1) p else false
  end.

(** A day number names a valid date, and the date names the day number. *)
Definition dayOk (z : Z) : bool :=
  let '(y, m, d) := civilFromDays z in
  (1 <=? m) && (m <=? 12) && (1 <=? d) && (d <=? DaysInMonth y m)
  && (daysFromCivil y m d =? z).

End CalendarSpec.

(** ** The zone *)

Module ZoneSpec.

Import JsDate Temporal.

(** 19 November 1883, the first day that begins in standard time. *)
Definition firstStandardDay : Z := daysFromCivil 1883 11 19.

Definition yearOfDay (D : Z) : Z := fst (fst (civilFromDays D)).

(** Whether the day [D] begins in daylight time. *)
Definition daylightAt (D : Z) : bool :=
  match daylight (yearOfDay D) with
  | Standard => false
  | Between first last => (first <? D) && (D <=? last)
  | From first => first <? D
  | Throughout => true
  | Until last => D <=? last
  end.

(** Daylight time begins on the day [D]: the day has 23 hours. *)
Definition begins (D : Z) : bool :=
  match daylight (yearOfDay D) with
  | Between first _ | From first => D =? first
  | _ => false
  end.

(** Daylight time ends on the day [D]: the day has 25 hours. *)
Definition ends (D : Z) : bool :=
  match daylight (yearOfDay D) with
  | Between _ last | Until last => D =? last
  | _ => false
  end.

(** The offset at the midnight that begins the day [D]. *)
Definition midnightOffset (D : Z) : Z :=
  if D <? firstStandardDay then -17762
  else if daylightAt D then -14400 else -18000.

(** The time values of the days from the first that begins in standard
    time on whose midnight in the zone is in Temporal's range. *)
Definition standardTimeDay (t : Z) : Prop :=
  firstStandardDay <= Day t /\ t < 8640000000000000.

(** The year ends, or begins, in daylight time. *)
Definition endsInDaylight (y : Z) : bool :=
  match daylight y with
  | From _ | Throughout => true
  | _ => false
  end.

Definition startsInDaylight (y : Z) : bool :=
  match daylight y with
  | Throughout | Until _ => true
  | _ => false
  end.

(** The table of a year is in order: its days are days of the year, the
    first and the last day of the year are not days of change, daylight
    time lasts two days or more, and the year ends as the next begins. *)
Definition tableOk (y : Z) : bool :=
  let J := daysFromCivil y 1 1 in
  let J' := daysFromCivil (y + 1) 1 1 in
  match daylight y with
  | Standard | Throughout => true
  | Between first last => (J + 1 <=? first) && (first + 2 <=? last) && (last + 2 <=? J')
  | From first => (J + 1 <=? first) && (first + 2 <=? J')
  | Until last => (J + 1 <=? last) && (last + 2 <=? J')
  end
  && Bool.eqb (endsInDaylight y) (startsInDaylight (y + 1)).

End ZoneSpec.

(** ** JSON texts *)

Module JsonSpec.

Import Json JsString.

(** What may follow a value in a text: nothing, or a character that does
    not continue a number. *)
Definition delimited (rest : string) : Prop :=
  match rest with
  | EmptyString => True
  | String c _ => isDigit c = false /\ code c <> 46 /\ code c <> 101 /\ code c <> 69
  end.

(** Nesting depth. *)
Fixpoint depth (v : json) : nat :=
  match v with
  | JArr items => S (List.fold_right (fun x d => Nat.max (depth x) d) O items)
  | JObj members => S (List.fold_right (fun kx d => Nat.max (depth (snd kx)) d) O members)
  | _ => 1%nat
  end.

(** A member of an object, written. *)
Definition member (kx : string * json) : string :=
  quote (fst kx) ++ ":" ++ stringify (snd kx).

(** The first character of a written value: no white space, and none of
    the closing brackets. *)
Definition opens (c : ascii) : Prop :=
  isJsonSpace c = false /\ code c <> 93 /\ code c <> 125.

End JsonSpec.

(** ** The request *)

Module RequestSpec.

Import Json JsString.

(** A character that neither Mustache nor a JSON string literal writes
    differently. *)
Definition plainChar (c : ascii) : bool :=
  let n := code c in
  (32 <=? n) && negb ((n =? 34) || (n =? 92) || (n =? 38) || (n =? 60) || (n =? 62)
                      || (n =? 39) || (n =? 47) || (n =? 96) || (n =? 61)).

Definition plain (s : string) : bool := JsString.forallb plainChar s.

(** A character that a JSON string literal writes as it is. *)
Definition literalChar (c : ascii) : bool :=
  let n := code c in (32 <=? n) && negb ((n =? 34) || (n =? 92)).

Definition literal (s : string) : bool := JsString.forallb literalChar s.

(** The entry of [acctDetailList] for an account. *)
Definition acctDetail (a : Fidelity.Account) : Json.json :=
  JObj [("acctNum", JStr (Fidelity.number a)); ("acctType", JStr "");
        ("name", JStr (Fidelity.encodeAccountName (Fidelity.name a)))].

(** The inner request document for accounts and dates. *)
Definition requestDocument (accounts : list Fidelity.Account) (start end_ : string) : Json.json :=
  JObj
    [("operationName", JStr "");
     ("variables",
      JObj [("isNewOrderApi", JBool false); ("isSupportCrypto", JBool false);
            ("hideDCOrders", JBool false); ("acctIdList", JStr "");
            ("acctDetailList", JArr (List.map acctDetail accounts));
            ("searchCriteriaDetail",
             JObj [("timePeriod", JNum 0); ("txnCat", JNull); ("viewType", JStr "");
                   ("histSortDir", JStr ""); ("acctHistSort", JStr "");
                   ("hasBasketName", JBool false);
                   ("txnFromDate", JStr start); ("txnToDate", JStr end_)])]);
     ("query", JStr "")].

(** The request options around a body text. *)
Definition requestOptions (body : string) : Json.json :=
  JObj [("method", JStr "POST"); ("headers", JObj []); ("body", JStr body)].

(** Account numbers without a character that is escaped. *)
Definition plainNumbers (accounts : list Fidelity.Account) : Prop :=
  Forall (fun a => plain (Fidelity.number a) = true) accounts.

End RequestSpec.

(** ** Identifiers *)

Module MapSpec.

(** The distinct elements of [ids] after those of [ks], each at the place
    of its first occurrence. *)
Fixpoint appendNew (ks ids : list string) : list string :=
  match ids with
  | [] => ks
  | id :: r =>
      appendNew (if List.existsb (String.eqb id) ks then ks else List.app ks [id]) r
  end.

(** The distinct identifiers of a sequence, in the order of their first
    occurrence. *)
Definition firstOccurrences (ids : list string) : list string := appendNew [] ids.

End MapSpec.

(** ** The client *)

Module ClientSpec.

(** A date that is an exact day: a valid date with no time of day in UTC. *)
Definition exactDay (d : JsDate.Date) : Prop :=
  exists n, d = JsDate.DateOf (n * JsDate.msPerDay).

(** The request of the account list. *)
Definition accountsRequest (accountsOptions : Json.json) : Fidelity.Request :=
  {| Fidelity.url := Fidelity.accountsUrl; Fidelity.options := accountsOptions |}.

(** The identifiers that the account map does not hold. *)
Definition absent (m : JsMap.t Fidelity.Account) (id : string) : bool :=
  match JsMap.get id m with None => true | Some _ => false end.

(** The accounts of the identifiers that the account map holds. *)
Definition found (m : JsMap.t Fidelity.Account) (ids : list string)
  : list Fidelity.Account :=
  List.flat_map (fun id => match JsMap.get id m with Some a => [a] | None => [] end) ids.

(** Case-insensitively the string ok. *)
Definition caseInsensitiveOk (s : string) : bool :=
  match s with
  | String a (String b EmptyString) =>
      (Ascii.eqb a "o" || Ascii.eqb a "O") && (Ascii.eqb b "k" || Ascii.eqb b "K")
  | _ => false
  end.

End ClientSpec.

(** ** The amount of a transaction *)

Module AmountSpec.


(** Nothing but white space. *)
Definition blank (s : string) : bool := JsString.forallb JsString.isWhiteSpace s.




End AmountSpec.

(** ** The validation of the dates *)

Module ValidationSpec.

Import JsDate.

(** The hours that [checkDate] computes from the four fields of a time of
    day. *)
Definition dayOffset (h m s ms : Z) : float :=
  (JsNumber.ofZ h + JsNumber.ofZ m / 60 + JsNumber.ofZ s / 3600
   + JsNumber.ofZ ms / 3600000)%float.

(** The violations of a time value: none on an exact day, otherwise the
    one that reports the hours into the day. *)
Definition violations (t : Z) : list string :=
  if t mod msPerDay =? 0 then []
  else [ "not exact day: "
         ++ JsNumber.toString
              (dayOffset (HourFromTime t) (MinFromTime t) (SecFromTime t) (msFromTime t))
         ++ " hours" ].

(** The values of [f] on [0 .. n-1], each with its argument. *)
Definition table (f : Z -> float) (n : nat) : list (Z * float) :=
  List.map (fun i => (Z.of_nat i, f (Z.of_nat i))) (List.seq 0 n).

(** The hours of a time of day, from the terms of the four fields, are
    zero at midnight only. *)
Definition cell (h m s ms : Z * float) : bool :=
  if PrimFloat.eqb (snd h + snd m + snd s + snd ms) 0
  then (fst h =? 0) && (fst m =? 0) && (fst s =? 0) && (fst ms =? 0)
  else true.

(** [cell] over every combination of the terms of four tables. *)
Definition cells (H M S MS : list (Z * float)) : bool :=
  List.forallb (fun h => List.forallb (fun m =>
    let a := (snd h + snd m)%float in
    List.forallb (fun s =>
      let b := (a + snd s)%float in
      let z := (fst h =? 0) && (fst m =? 0) && (fst s =? 0) in
      List.forallb (fun ms =>
        if PrimFloat.eqb (b + snd ms) 0 then z && (fst ms =? 0) else true) MS) S) M) H.

End ValidationSpec.

(** ** Responses *)

Module ResponseSpec.

Import Json.

(** A history entry as the upstream sends it. *)
Definition historyJson (h : Models.GetTransactionsRespHistoryModel) : Json.json :=
  JObj [ ("acctNum", JStr (Models.acctNum h)); ("amount", JStr (Models.amount h));
         ("date", JStr (Models.date h)); ("description", JStr (Models.description h));
         ("intradayInd", JBool (Models.intradayInd h));
         ("orderNumber", JStr (Models.orderNumber h)) ].

(** A get-transactions response with the history entries [hs]. *)
Definition transactionsJson (hs : list Models.GetTransactionsRespHistoryModel) : Json.json :=
  JObj [ ("data", JObj [ ("getTransactions", JObj
    [ ("historys", JArr (List.map historyJson hs)) ]) ]) ].

(** The message of the error that [fetch] throws on a response. *)
Definition fetchFailed (resp : Fidelity.FetchResp) : string :=
  "get_transactions fetch failed, code: " ++ JsString.ofZ (Fidelity.status resp)
  ++ ", text: " ++ match Fidelity.text resp with Some t => t | None => "undefined" end.

End ResponseSpec.

(* ------------------------------------------------------------------------- *)
(** ** JSON text with indentation, and values as strings *)

Module JsonText.

Import Json.

Definition newline : string := String (JsString.chr 10) "".

Fixpoint spaces (n : nat) : string :=
  match n with
  | O => ""
  | S k => String " " (spaces k)
  end.

(** [JSON.stringify(value, null, gap)] for a number [gap] of spaces from 1
    to 10, at the indentation [indent]: an array or object that is not
    empty has each element on a line of its own, and a colon is followed by
    a space. *)
Fixpoint stringifyIndent (gap indent : nat) (v : json) : string :=
  match v with
  | JNull => "null"
  | JBool true => "true"
  | JBool false => "false"
  | JNum n => JsString.ofZ n
  | JStr s => quote s
  | JArr items =>
      match items with
      | [] => "[]"
      | _ =>
          let inner := (indent + gap)%nat in
          "[" ++ newline ++ spaces inner
          ++ (fix go (l : list json) : string :=
                match l with
                | [] => ""
                | [x] => stringifyIndent gap inner x
                | x :: r =>
                    stringifyIndent gap inner x ++ "," ++ newline ++ spaces inner ++ go r
                end) items
          ++ newline ++ spaces indent ++ "]"
      end
  | JObj members =>
      match members with
      | [] => "{}"
      | _ =>
          let inner := (indent + gap)%nat in
          "{" ++ newline ++ spaces inner
          ++ (fix go (l : list (string * json)) : string :=
                match l with
                | [] => ""
                | [(k, x)] => quote k ++ ": " ++ stringifyIndent gap inner x
                | (k, x) :: r =>
                    quote k ++ ": " ++ stringifyIndent gap inner x
                    ++ "," ++ newline ++ spaces inner ++ go r
                end) members
          ++ newline ++ spaces indent ++ "}"
      end
  end.

(** [String(value)], as a template literal converts a value: an array is
    its elements joined by commas, [null] among them as the empty string,
    and an object is [[object Object]]. *)
Fixpoint toString (v : json) : string :=
  match v with
  | JNull => "null"
  | JBool true => "true"
  | JBool false => "false"
  | JNum n => JsString.ofZ n
  | JStr s => s
  | JArr items =>
      (fix go (l : list json) : string :=
         match l with
         | [] => ""
         | [x] => match x with JNull => "" | _ => toString x end
         | x :: r => match x with JNull => "" | _ => toString x end ++ "," ++ go r
         end) items
  | JObj _ => "[object Object]"
  end.

(** [String(value)] where [None] is [undefined]. *)
Definition toStringOpt (v : option json) : string :=
  match v with
  | Some x => toString x
  | None => "undefined"
  end.

(** The elements of a list with their indices from [i] on, as the own
    properties of an array or of a string have them. *)
Fixpoint indexed {A} (f : A -> json) (i : Z) (l : list A) : list (string * json) :=
  match l with
  | [] => []
  | x :: r => (JsString.ofZ i, f x) :: indexed f (i + 1) r
  end.

(** The own enumerable properties of a value that is not [null], which a
    rest pattern copies. *)
Definition ownProperties (v : json) : list (string * json) :=
  match v with
  | JObj members => members
  | JArr items => indexed (fun x => x) 0 items
  | JStr s => indexed (fun c => JStr (String c "")) 0 (list_ascii_of_string s)
  | _ => []
  end.

(** The properties but the one named [name]. *)
Definition without (name : string) (members : list (string * json)) : list (string * json) :=
  List.filter (fun kx => negb (String.eqb (fst kx) name)) members.

End JsonText.

(* ------------------------------------------------------------------------- *)
(** ** fidelity.ts: the rendering of request options

    An object is given by its own properties in the order in which
    JavaScript lists them. *)

Module FidelityPrint.

Import Json JsonText.

(** [const {query, ...bodyMinusQuery} = bodyObj]: a TypeError on [null],
    whose message depends on how the pattern is compiled. *)
Definition splitQuery (bodyObj : json) : Completion (option json * list (string * json)) :=
  match bodyObj with
  | JNull => Throw (TypeError "Cannot destructure property 'query' of 'bodyObj' as it is null.")
  | _ =>
      let properties := ownProperties bodyObj in
      Return (match bodyObj with
              | JObj members => lookup "query" members
              | _ => None
              end,
              without "query" properties)
  end.

(** [static printFetchTransactionsOptions(options)] *)
Definition printFetchTransactionsOptions (options : list (string * json))
  : Completion string :=
  let body := lookup "body" options in
  let optionsMinusBody := without "body" options in
  let* bodyObj := parseC (toStringOpt body) in
  let* (query, bodyMinusQuery) := splitQuery bodyObj in
  Return (JsString.join newline
            [ "options_minus_body=" ++ stringifyIndent 2 0 (JObj optionsMinusBody);
              "body_minus_query=" ++ stringifyIndent 2 0 (JObj bodyMinusQuery);
              "query=" ++ toStringOpt query ]).

End FidelityPrint.

(* ------------------------------------------------------------------------- *)
(** ** Names as UTF-16 text

    A JavaScript string is a sequence of UTF-16 code units, numbers from 0
    to 65535.  The strings of the other modules hold code units below 256;
    here a name is the list of its code units, whatever they are. *)

Module Utf16.

(** The code units of a string of code units below 256. *)
Definition units (s : string) : list Z := List.map JsString.code (list_ascii_of_string s).

(** The first and the second half of a surrogate pair. *)
Definition isHigh (u : Z) : bool := (55296 <=? u) && (u <=? 56319).

Definition isLow (u : Z) : bool := (56320 <=? u) && (u <=? 57343).

Definition isSurrogate (u : Z) : bool := (55296 <=? u) && (u <=? 57343).

(** The code points of a text: a surrogate pair is one code point, and a
    surrogate that stands alone is read as U+FFFD. *)
Fixpoint codePoints (text : list Z) : list Z :=
  match text with
  | [] => []
  | u :: r =>
      match r with
      | v :: r' =>
          if isHigh u && isLow v
          then (65536 + (u - 55296) * 1024 + (v - 56320)) :: codePoints r'
          else (if isSurrogate u then 65533 else u) :: codePoints r
      | [] => [if isSurrogate u then 65533 else u]
      end
  end.

(** The UTF-8 bytes of a code point. *)
Definition utf8CodePoint (c : Z) : list Z :=
  if c <? 128 then [c]
  else if c <? 2048 then [192 + c / 64; 128 + c mod 64]
  else if c <? 65536 then [224 + c / 4096; 128 + c / 64 mod 64; 128 + c mod 64]
  else [240 + c / 262144; 128 + c / 4096 mod 64; 128 + c / 64 mod 64; 128 + c mod 64].

(** [Buffer.from(text, 'utf8')] *)
Definition utf8 (text : list Z) : list Z := List.flat_map utf8CodePoint (codePoints text).

End Utf16.

(** [static encodeAccountName(name)], the name given by its code units. *)
Module FidelityUnits.

Definition encodeAccountName (name : list Z) : string :=
  Buffer.base64 (Utf16.utf8 name).

End FidelityUnits.

(* ------------------------------------------------------------------------- *)
(** ** Comparison of strings *)

Module JsRelational.

(** [a < b] on strings: the first code unit that differs decides, and a
    proper prefix is less. *)
Fixpoint ltb (a b : string) : bool :=
  match a, b with
  | _, EmptyString => false
  | EmptyString, String _ _ => true
  | String x r, String y t =>
      if JsString.code x <? JsString.code y then true
      else if JsString.code y <? JsString.code x then false
      else ltb r t
  end.

(** [a <= b] on strings: [b < a] is false. *)
Definition leb (a b : string) : bool := negb (ltb b a).

End JsRelational.

(* ------------------------------------------------------------------------- *)
(** ** The other copy of the client, in full

    The second copy of [fidelity.ts] takes a date as a [Date] or as a
    string, validates the range in [checkStartEnd]
    ([FidelityVariant.checkStartEnd] gives the message), and returns an
    amount for every transaction.  [getAccountsOptions],
    [encodeAccountName], [fetch], [getAccount], [getAccounts],
    [fetchAccounts] and [getTransactionsBody] are word for word those of
    the first copy, [fidelityEpochSeconds] being the name of
    [fidelityDate], and are taken from [Fidelity]. *)

Module VariantClient.

Import Json Fidelity.

(** Fidelity transaction: the amount is a number. *)
Record Transaction : Type := {
  acct_num : string;
  date : JsDate.Date;
  description : string;
  amount : float;
  order_number : option string;
  pending : bool
}.

(** [start: Date | string] *)
Definition DateOrString : Type := (JsDate.Date + string)%type.

(** [private static checkStartEnd(start, end)] *)
Definition checkStartEnd (start end_ : JsDate.Date) : Completion unit :=
  match FidelityVariant.checkStartEnd start end_ with
  | Some message => Throw (FidelityError message)
  | None => Return tt
  end.

Section Client.

Variable zone : Temporal.TimeZone.
Variable host : JsDate.Host.
Variable accountsOptions : Json.json.
Variable evaluator : EvaluateFunc.

(** [start instanceof Date ? start : new Date(`${start}T00:00:00Z`)] *)
Definition toDate (d : DateOrString) : JsDate.Date :=
  match d with
  | inl date => date
  | inr text => JsDate.ofString host (text ++ "T00:00:00Z")
  end.

(** [static fidelityEpochSeconds(d)] *)
Definition fidelityEpochSeconds (d : JsDate.Date) : Completion string :=
  let* epochMilliseconds :=
    Temporal.zonedMidnightEpochMilliseconds zone
      (JsDate.getUTCFullYear d)
      (option_map (fun m => m + 1) (JsDate.getUTCMonth d))
      (JsDate.getUTCDate d) in
  Return (JsString.ofZ (epochMilliseconds / 1000)).

(** [private static _getTransactionsOptions(accounts, start, end)] *)
Definition _getTransactionsOptions (accounts : list Account) (start end_ : JsDate.Date)
  : Completion Json.json :=
  let* body := Fidelity.getTransactionsBody zone accounts start end_ in
  let context :=
    [ ("body", Mustache.VStr (Json.stringify (JStr (Json.stringify body)))) ] in
  Json.parseC (Mustache.render Templates.getTransactionsOptions context).

(** [static getTransactionsOptions(accounts, start, end)] *)
Definition getTransactionsOptions (accounts : list Account) (start end_ : DateOrString)
  : Completion Json.json :=
  let startDate := toDate start in
  let endDate := toDate end_ in
  let* _ := checkStartEnd startDate endDate in
  _getTransactionsOptions accounts startDate endDate.

(** [private static historyEntryToTransaction(h)] *)
Definition historyEntryToTransaction (h : Models.GetTransactionsRespHistoryModel)
  : Transaction :=
  let d := JsDate.ofString host (Models.date h) in
  let date :=
    JsDate.UTC (JsDate.getFullYear host d) (JsDate.getMonth host d) (JsDate.getDate host d) in
  let amount :=
    JsNumber.parseFloat (JsString.deleteAll [","%char; "$"%char] (Models.amount h)) in
  {| acct_num := Models.acctNum h;
     date := date;
     description := Models.description h;
     amount := (JsNumber.Math_round (amount * 100) / 100)%float;
     order_number :=
       if String.eqb (Models.orderNumber h) "" then None else Some (Models.orderNumber h);
     pending := Models.intradayInd h |}.

(** The [try] block of [getTransactions]. *)
Definition readTransactions (respJson : option Json.json) : Completion (list Transaction) :=
  let* data := getProp respJson "data" in
  let* getTransactions := getProp data "getTransactions" in
  let* historys := getProp getTransactions "historys" in
  let* historys := asArray historys "historys" "map" in
  mapC (fun h => let* h' := readHistoryEntry h in Return (historyEntryToTransaction h'))
       historys.

(** [async getTransactions(accounts, start, end)] *)
Definition getTransactions (accounts : list string) (start end_ : DateOrString)
  : M (list Transaction) :=
  let startDate := toDate start in
  let endDate := toDate end_ in
  _ <- lift (checkStartEnd startDate endDate) ;;
  acctDict <- Fidelity.resolveAccounts accountsOptions evaluator accounts ;;
  let missing := missingAccounts acctDict in
  if (0 <? List.length missing)%nat then
    throw (FidelityError ("Account(s) not found: " ++ JsString.join ", " missing))
  else
    let accts := presentAccounts acctDict in
    options <- lift (_getTransactionsOptions accts startDate endDate) ;;
    respJson <- Fidelity.fetch evaluator transactionsUrl options ;;
    lift (parseGuard "get_transactions" (readTransactions respJson)).

End Client.

End VariantClient.

(* ------------------------------------------------------------------------- *)
(** ** The command line

    The example program validates its options with a schema and hands
    the dates to the client.  The schema's [z.iso.date] is the library's:
    it accepts the texts [YYYY-MM-DD] that name a date of the calendar. *)

Module Cli.

(** [z.iso.date]: four digits, two digits, two digits, a date of the
    calendar; the year, month and day of an accepted text. *)
Definition isoDate (text : string) : option (Z * Z * Z) :=
  JsDate.optBind (JsDate.digitsN 4 0 text) (fun '(y, r1) =>
  match r1 with
  | String "-" r2 =>
      JsDate.optBind (JsDate.digitsN 2 0 r2) (fun '(m, r3) =>
      match r3 with
      | String "-" r4 =>
          JsDate.optBind (JsDate.digitsN 2 0 r4) (fun '(d, r5) =>
          match r5 with
          | EmptyString =>
              if (1 <=? m) && (m <=? 12) && (1 <=? d) && (d <=? JsDate.DaysInMonth y m)
              then Some (y, m, d) else None
          | _ => None
          end)
      | _ => None
      end)
  | _ => None
  end).

(** The refinement of [optionsSchema]: [options.start <= options.end]. *)
Definition startNotAfterEnd (start end_ : string) : bool := JsRelational.leb start end_.

(** [optionsSchema.safeParse(options).success], on the dates. *)
Definition validOptions (start end_ : string) : bool :=
  match isoDate start, isoDate end_ with
  | Some _, Some _ => startNotAfterEnd start end_
  | _, _ => false
  end.

(** [new Date(result.data.start + "T00:00:00Z")] *)
Definition dateOf (host : JsDate.Host) (text : string) : JsDate.Date :=
  JsDate.ofString host (text ++ "T00:00:00Z").

End Cli.

(* ------------------------------------------------------------------------- *)
(** * Vocabulary of further properties *)

(** ** The account list *)

Module AccountsSpec.

Import Json.

(** A get-accounts response with the backend status [status] and the
    assets [assets]. *)
Definition accountsJson (status : string) (assets : list Json.json) : Json.json :=
  JObj [ ("data", JObj [ ("getContext", JObj
    [ ("sysStatus", JObj [("backend", JObj [("account", JStr status)])]);
      ("person", JObj [("assets", JArr assets)]) ]) ]) ].

(** The last account of a list that has the number [k]. *)
Fixpoint lastWith (k : string) (accounts : list Fidelity.Account) : option Fidelity.Account :=
  match accounts with
  | [] => None
  | a :: r =>
      match lastWith k r with
      | Some b => Some b
      | None => if String.eqb k (Fidelity.number a) then Some a else None
      end
  end.

(** An error that is a [FidelityError]. *)
Definition isFidelityError (e : JsError) : Prop :=
  exists message, e = FidelityError message.

(** An error of the construction of a request: [JSON.parse] or Temporal
    raised it. *)
Definition isConstructionError (e : JsError) : Prop :=
  exists message, e = SyntaxError message \/ e = RangeError message.

(** An asset as [GetAccountsRespModel] declares it: an object with a
    string [acctNum] and an object [preferenceDetail] with a string
    [name]. *)
Definition typedAsset (a : Json.json) : bool :=
  match a with
  | JObj members =>
      match lookup "acctNum" members, lookup "preferenceDetail" members with
      | Some (JStr _), Some (JObj detail) =>
          match lookup "name" detail with
          | Some (JStr _) => true
          | _ => false
          end
      | _, _ => false
      end
  | _ => false
  end.

(** The assets of a response that has them:
    [resp.data.getContext.person.assets], an array. *)
Definition assetsOf (respJson : option Json.json) : option (list Json.json) :=
  match (let* context := Fidelity.contextOf respJson in
         let* person := getProp context "person" in
         getProp person "assets") with
  | Return (Some (JArr assets)) => Some assets
  | _ => None
  end.

(** The account lists that the evaluator returns are typed: every asset
    is as the response model declares it. *)
Definition typedAccounts (evaluator : Fidelity.EvaluateFunc) (accountsOptions : Json.json)
  : Prop :=
  forall (calls : list Fidelity.Request) (resp : Fidelity.FetchResp) (assets : list Json.json),
    evaluator calls
      {| Fidelity.url := Fidelity.accountsUrl; Fidelity.options := accountsOptions |}
    = Return resp ->
    assetsOf (Fidelity.json resp) = Some assets ->
    List.forallb typedAsset assets = true.

End AccountsSpec.

(** ** The calendar by months *)

Module MonthSpec.

Import JsDate.

(** The day number of the first day of the month [k], months counted
    from January of the year 0. *)
Definition firstOfMonth (k : Z) : Z := daysFromCivil (k / 12) (k mod 12 + 1) 1.

End MonthSpec.

(** ** Texts of dates *)

Module IsoSpec.

(** The shape of a text that [z.iso.date] accepts: eight digits and two
    hyphens. *)
Definition shaped (a1 a2 a3 a4 a5 a6 a7 a8 : ascii) : string :=
  String a1 (String a2 (String a3 (String a4 (String "-"
    (String a5 (String a6 (String "-" (String a7 (String a8 ""))))))))).

End IsoSpec.

(** ** The range of the dates *)

Module RangeSpec.
(** The violations of a range of valid dates: those of the start, those of
    the end, and the order. *)
Definition violations (t1 t2 : Z) : list string :=
  List.app (ValidationSpec.violations t1)
    (List.app (ValidationSpec.violations t2)
       (if t2 <? t1 then ["start > end"] else [])).
End RangeSpec.

(** ** The encoding of account names *)

Module EncodingSpec.

(** A character of base64 text: of the alphabet, or the padding. *)
Definition base64Char (c : ascii) : bool :=
  let n := JsString.code c in
  (65 <=? n) && (n <=? 90) || (97 <=? n) && (n <=? 122) || (48 <=? n) && (n <=? 57)
  || (n =? 43) || (n =? 47) || (n =? 61).

(** The place of a character in the alphabet. *)
Definition unsextet (c : ascii) : Z :=
  let n := JsString.code c in
  if (65 <=? n) && (n <=? 90) then n - 65
  else if (97 <=? n) && (n <=? 122) then n - 71
  else if (48 <=? n) && (n <=? 57) then n + 4
  else if n =? 43 then 62 else 63.

(** The bytes that a base64 text stands for. *)
Fixpoint unbase64 (s : string) : list Z :=
  match s with
  | String a (String b (String c (String d r))) =>
      let x := unsextet a in
      let y := unsextet b in
      let z := unsextet c in
      let w := unsextet d in
      if Ascii.eqb c "=" then [x * 4 + y / 16]
      else if Ascii.eqb d "=" then [x * 4 + y / 16; y mod 16 * 16 + z / 4]
      else (x * 4 + y / 16) :: (y mod 16 * 16 + z / 4) :: (z mod 4 * 64 + w) :: unbase64 r
  | _ => []
  end.

(** Each sextet is read back, none is written as the padding, and all are
    characters of base64. *)
Definition sextetsOk : bool :=
  List.forallb
    (fun i => let n := Z.of_nat i in
              (unsextet (Buffer.sextet n) =? n)
              && negb (Ascii.eqb (Buffer.sextet n) "=")
              && base64Char (Buffer.sextet n))
    (List.seq 0 64).

End EncodingSpec.

(** ** Objects as JavaScript holds them *)

Module ObjectSpec.

Import Json.

(** A property name that is an array index: the decimal text of an
    integer from 0 to 2^32 - 2.  JavaScript lists such names first. *)
Definition isArrayIndex (s : string) : bool :=
  match s with
  | EmptyString => false
  | String c r =>
      JsString.forallb JsString.isDigit s
      && (negb (Ascii.eqb c "0") || String.eqb r "")
      && (JsString.natValue 0 s <? 4294967295)
  end.

Fixpoint distinct (l : list string) : bool :=
  match l with
  | [] => true
  | k :: r => negb (List.existsb (String.eqb k) r) && distinct r
  end.

(** A value that JavaScript holds as it is written: the names of an
    object differ, and none is an array index; a number is a safe
    integer. *)
Fixpoint proper (v : json) : bool :=
  match v with
  | JArr items =>
      (fix go (l : list json) : bool :=
         match l with
         | [] => true
         | x :: r => proper x && go r
         end) items
  | JObj members =>
      distinct (List.map fst members)
      && List.forallb (fun k => negb (isArrayIndex k)) (List.map fst members)
      && (fix go (l : list (string * json)) : bool :=
            match l with
            | [] => true
            | (_, x) :: r => proper x && go r
            end) members
  | JNum n => Z.abs n <=? 9007199254740991
  | _ => true
  end.

End ObjectSpec.

(** ** The two copies of the client *)

Module CopiesSpec.

(** A transaction of the first copy and one of the second that say the
    same: the fields agree, and an amount that the first leaves out is NaN
    in the second. *)
Definition sameTransaction (t : Fidelity.Transaction) (t' : VariantClient.Transaction) : Prop :=
  VariantClient.acct_num t' = Fidelity.acct_num t /\
  VariantClient.date t' = Fidelity.date t /\
  VariantClient.description t' = Fidelity.description t /\
  VariantClient.order_number t' = Fidelity.order_number t /\
  VariantClient.pending t' = Fidelity.pending t /\
  match Fidelity.amount t with
  | Some a => VariantClient.amount t' = a
  | None => JsNumber.isNaN (VariantClient.amount t') = true
  end.

(** Two completions that say the same: the same error, or lists of
    transactions that say the same one by one. *)
Definition sameResult (r : Completion (list Fidelity.Transaction))
                      (r' : Completion (list VariantClient.Transaction)) : Prop :=
  match r, r' with
  | Return ts, Return ts' => Forall2 sameTransaction ts ts'
  | Throw e, Throw e' => e = e'
  | _, _ => False
  end.

End CopiesSpec.

(** ** Names as UTF-16 text *)

Module Utf16Spec.

Import Utf16.

(** A text of code units in which every surrogate is half of a pair. *)
Fixpoint wellFormed (text : list Z) : bool :=
  match text with
  | [] => true
  | u :: r =>
      (0 <=? u) && (u <? 65536)
      && match r with
         | v :: r' =>
             if isHigh u then isLow v && wellFormed r'
             else negb (isLow u) && wellFormed r
         | [] => negb (isSurrogate u)
         end
  end.

(** The code points that UTF-8 bytes stand for. *)
Fixpoint unutf8 (bytes : list Z) : list Z :=
  match bytes with
  | [] => []
  | a :: r =>
      if a <? 128 then a :: unutf8 r
      else if a <? 224 then
        match r with
        | b :: r' => ((a - 192) * 64 + (b - 128)) :: unutf8 r'
        | _ => []
        end
      else if a <? 240 then
        match r with
        | b :: c :: r' => ((a - 224) * 4096 + (b - 128) * 64 + (c - 128)) :: unutf8 r'
        | _ => []
        end
      else
        match r with
        | b :: c :: d :: r' =>
            ((a - 240) * 262144 + (b - 128) * 4096 + (c - 128) * 64 + (d - 128)) :: unutf8 r'
        | _ => []
        end
  end.

(** The code units of a code point. *)
Definition utf16CodePoint (c : Z) : list Z :=
  if c <? 65536 then [c]
  else [55296 + (c - 65536) / 1024; 56320 + (c - 65536) mod 1024].

(** The text that UTF-8 bytes stand for. *)
Definition decode (bytes : list Z) : list Z := List.flat_map utf16CodePoint (unutf8 bytes).

(** A code point that is no surrogate. *)
Definition scalar (c : Z) : Prop :=
  0 <= c < 1114112 /\ isSurrogate c = false.

End Utf16Spec.

(* ------------------------------------------------------------------------- *)
(** * Checks of the run-time model on known values *)

Example parseFloat_ex :
  JsNumber.parseFloat "1234.56" = 1234.56%float /\
  JsNumber.parseFloat "  -.5e1x" = (-5)%float /\
  JsNumber.parseFloat "1e" = 1%float /\
  JsNumber.parseFloat "0.1" = 0.1%float /\
  JsNumber.parseFloat "1.7976931348623157e308" = 0x1.fffffffffffffp+1023%float /\
  JsNumber.parseFloat "5e-324" = 0x1p-1074%float /\
  JsNumber.parseFloat "2e-324" = 0%float /\
  JsNumber.parseFloat "3e-324" = 0x1p-1074%float /\
  JsNumber.parseFloat "1e309" = infinity /\
  JsNumber.parseFloat "9007199254740993" = 9007199254740992%float /\
  JsNumber.parseFloat "0.30000000000000004" = (0.1 + 0.2)%float /\
  JsNumber.isNaN (JsNumber.parseFloat "N/A") = true.
Proof. vm_compute. repeat split. Qed.

Example round_ex :
  JsNumber.Math_round 2.5 = 3%float /\ JsNumber.Math_round (-2.5)%float = (-2)%float /\
  JsNumber.Math_round 0.49999999999999994 = 0%float /\
  Prim2SF (JsNumber.Math_round (-0.2)%float) = S754_zero true /\
  JsNumber.Math_round 123456.00000000001 = 123456%float /\
  JsNumber.Math_round 1e300 = 1e300%float.
Proof. vm_compute. repeat split. Qed.

Example toString_ex :
  JsNumber.toString 12.5 = "12.5" /\
  JsNumber.toString (1 / 3600000) = "2.7777777777777776e-7" /\
  JsNumber.toString (0.1 + 0.2) = "0.30000000000000004" /\
  JsNumber.toString 1e21 = "1e+21" /\
  JsNumber.toString 123456789012345680000 = "123456789012345680000" /\
  JsNumber.toString 0.000001 = "0.000001" /\
  JsNumber.toString 5e-324 = "5e-324" /\
  JsNumber.toString 1.7976931348623157e308 = "1.7976931348623157e+308" /\
  JsNumber.toString (-1234.56) = "-1234.56" /\
  JsNumber.toString 100 = "100" /\
  JsNumber.toString (23 + 59 / 60 + 59 / 3600 + 999 / 3600000) = "23.999999722222224".
Proof. vm_compute. repeat split. Qed.

Example civil_ex :
  JsDate.civilFromDays 0 = (1970, 1, 1) /\
  JsDate.civilFromDays 20420 = (2025, 11, 28) /\
  JsDate.civilFromDays (-1) = (1969, 12, 31) /\
  JsDate.civilFromDays 19782 = (2024, 2, 29) /\
  JsDate.daysFromCivil 2025 11 28 = 20420 /\
  JsDate.daysFromCivil 2000 3 1 = 11017 /\
  JsDate.DaysInMonth 2024 2 = 29 /\ JsDate.DaysInMonth 2025 12 = 31 /\
  JsDate.WeekDay (20420 * 86400000) = 5.
Proof. vm_compute. repeat split. Qed.

Example parse_ex :
  JsDate.ofString (JsDate.fixedOffsetHost 0) "2025-11-28" = JsDate.DateOf 1764288000000 /\
  JsDate.ofString (JsDate.fixedOffsetHost 0) "2025-11-28T00:00:00.000Z" = JsDate.DateOf 1764288000000 /\
  JsDate.ofString (JsDate.fixedOffsetHost (-18000000)) "2025-11-28T00:00:00" = JsDate.DateOf 1764306000000 /\
  JsDate.ofString (JsDate.fixedOffsetHost 0) "2025-11-28T10:30:15.5+01:00" = JsDate.DateOf (1764288000000 + 37815500 - 3600000) /\
  JsDate.ofString (JsDate.fixedOffsetHost 0) "2025-02-29" = JsDate.InvalidDate /\
  JsDate.ofString (JsDate.fixedOffsetHost 0) "Nov-28-2025" = JsDate.InvalidDate.
Proof. vm_compute. repeat split. Qed.

Example zone_ex :
  Temporal.americaNewYork 1764306000 = -18000 /\
  Temporal.americaNewYork 1741503599 = -18000 /\
  Temporal.americaNewYork 1741503600 = -14400 /\
  Temporal.americaNewYork 1762063199 = -14400 /\
  Temporal.americaNewYork 1762063200 = -18000 /\
  Temporal.zonedMidnightEpochMilliseconds Temporal.americaNewYork (Some 2025) (Some 11) (Some 28)
    = Return 1764306000000 /\
  Temporal.zonedMidnightEpochMilliseconds Temporal.americaNewYork (Some 2025) (Some 7) (Some 4)
    = Return 1751601600000.
Proof. vm_compute. repeat split. Qed.

(** The offsets of the tz database a second before and at every change
    from 1883 to 2037. *)
Example zone_changes_ex :
  List.forallb (fun '(t, offset) => Temporal.americaNewYork t =? offset)
    [ ((-2717650801), (-17762)); ((-2717650800), (-18000)); ((-1633280401), (-18000));
      ((-1633280400), (-14400)); ((-1615140001), (-14400)); ((-1615140000), (-18000));
      ((-1601830801), (-18000)); ((-1601830800), (-14400)); ((-1583690401), (-14400));
      ((-1583690400), (-18000)); ((-1570381201), (-18000)); ((-1570381200), (-14400));
      ((-1551636001), (-14400)); ((-1551636000), (-18000)); ((-1536512401), (-18000));
      ((-1536512400), (-14400)); ((-1523210401), (-14400)); ((-1523210400), (-18000));
      ((-1504458001), (-18000)); ((-1504458000), (-14400)); ((-1491760801), (-14400));
      ((-1491760800), (-18000)); ((-1473008401), (-18000)); ((-1473008400), (-14400));
      ((-1459706401), (-14400)); ((-1459706400), (-18000)); ((-1441558801), (-18000));
      ((-1441558800), (-14400)); ((-1428256801), (-14400)); ((-1428256800), (-18000));
      ((-1410109201), (-18000)); ((-1410109200), (-14400)); ((-1396807201), (-14400));
      ((-1396807200), (-18000)); ((-1378659601), (-18000)); ((-1378659600), (-14400));
      ((-1365357601), (-14400)); ((-1365357600), (-18000)); ((-1347210001), (-18000));
      ((-1347210000), (-14400)); ((-1333908001), (-14400)); ((-1333908000), (-18000));
      ((-1315155601), (-18000)); ((-1315155600), (-14400)); ((-1301853601), (-14400));
      ((-1301853600), (-18000)); ((-1283706001), (-18000)); ((-1283706000), (-14400));
      ((-1270404001), (-14400)); ((-1270404000), (-18000)); ((-1252256401), (-18000));
      ((-1252256400), (-14400)); ((-1238954401), (-14400)); ((-1238954400), (-18000));
      ((-1220806801), (-18000)); ((-1220806800), (-14400)); ((-1207504801), (-14400));
      ((-1207504800), (-18000)); ((-1189357201), (-18000)); ((-1189357200), (-14400));
      ((-1176055201), (-14400)); ((-1176055200), (-18000)); ((-1157302801), (-18000));
      ((-1157302800), (-14400)); ((-1144605601), (-14400)); ((-1144605600), (-18000));
      ((-1125853201), (-18000)); ((-1125853200), (-14400)); ((-1112551201), (-14400));
      ((-1112551200), (-18000)); ((-1094403601), (-18000)); ((-1094403600), (-14400));
      ((-1081101601), (-14400)); ((-1081101600), (-18000)); ((-1062954001), (-18000));
      ((-1062954000), (-14400)); ((-1049652001), (-14400)); ((-1049652000), (-18000));
      ((-1031504401), (-18000)); ((-1031504400), (-14400)); ((-1018202401), (-14400));
      ((-1018202400), (-18000)); ((-1000054801), (-18000)); ((-1000054800), (-14400));
      ((-986752801), (-14400)); ((-986752800), (-18000)); ((-968000401), (-18000));
      ((-968000400), (-14400)); ((-955303201), (-14400)); ((-955303200), (-18000));
      ((-936550801), (-18000)); ((-936550800), (-14400)); ((-923248801), (-14400));
      ((-923248800), (-18000)); ((-905101201), (-18000)); ((-905101200), (-14400));
      ((-891799201), (-14400)); ((-891799200), (-18000)); ((-880218001), (-18000));
      ((-880218000), (-14400)); ((-769395601), (-14400)); ((-769395600), (-14400));
      ((-765396001), (-14400)); ((-765396000), (-18000)); ((-747248401), (-18000));
      ((-747248400), (-14400)); ((-733946401), (-14400)); ((-733946400), (-18000));
      ((-715798801), (-18000)); ((-715798800), (-14400)); ((-702496801), (-14400));
      ((-702496800), (-18000)); ((-684349201), (-18000)); ((-684349200), (-14400));
      ((-671047201), (-14400)); ((-671047200), (-18000)); ((-652899601), (-18000));
      ((-652899600), (-14400)); ((-639597601), (-14400)); ((-639597600), (-18000));
      ((-620845201), (-18000)); ((-620845200), (-14400)); ((-608148001), (-14400));
      ((-608148000), (-18000)); ((-589395601), (-18000)); ((-589395600), (-14400));
      ((-576093601), (-14400)); ((-576093600), (-18000)); ((-557946001), (-18000));
      ((-557946000), (-14400)); ((-544644001), (-14400)); ((-544644000), (-18000));
      ((-526496401), (-18000)); ((-526496400), (-14400)); ((-513194401), (-14400));
      ((-513194400), (-18000)); ((-495046801), (-18000)); ((-495046800), (-14400));
      ((-481744801), (-14400)); ((-481744800), (-18000)); ((-463597201), (-18000));
      ((-463597200), (-14400)); ((-447271201), (-14400)); ((-447271200), (-18000));
      ((-431542801), (-18000)); ((-431542800), (-14400)); ((-415821601), (-14400));
      ((-415821600), (-18000)); ((-400093201), (-18000)); ((-400093200), (-14400));
      ((-384372001), (-14400)); ((-384372000), (-18000)); ((-368643601), (-18000));
      ((-368643600), (-14400)); ((-352922401), (-14400)); ((-352922400), (-18000));
      ((-337194001), (-18000)); ((-337194000), (-14400)); ((-321472801), (-14400));
      ((-321472800), (-18000)); ((-305744401), (-18000)); ((-305744400), (-14400));
      ((-289418401), (-14400)); ((-289418400), (-18000)); ((-273690001), (-18000));
      ((-273690000), (-14400)); ((-257968801), (-14400)); ((-257968800), (-18000));
      ((-242240401), (-18000)); ((-242240400), (-14400)); ((-226519201), (-14400));
      ((-226519200), (-18000)); ((-210790801), (-18000)); ((-210790800), (-14400));
      ((-195069601), (-14400)); ((-195069600), (-18000)); ((-179341201), (-18000));
      ((-179341200), (-14400)); ((-163620001), (-14400)); ((-163620000), (-18000));
      ((-147891601), (-18000)); ((-147891600), (-14400)); ((-131565601), (-14400));
      ((-131565600), (-18000)); ((-116442001), (-18000)); ((-116442000), (-14400));
      ((-100116001), (-14400)); ((-100116000), (-18000)); ((-84387601), (-18000));
      ((-84387600), (-14400)); ((-68666401), (-14400)); ((-68666400), (-18000));
      ((-52938001), (-18000)); ((-52938000), (-14400)); ((-37216801), (-14400));
      ((-37216800), (-18000)); ((-21488401), (-18000)); ((-21488400), (-14400));
      ((-5767201), (-14400)); ((-5767200), (-18000)); (9961199, (-18000));
      (9961200, (-14400)); (25682399, (-14400)); (25682400, (-18000));
      (41410799, (-18000)); (41410800, (-14400)); (57736799, (-14400));
      (57736800, (-18000)); (73465199, (-18000)); (73465200, (-14400));
      (89186399, (-14400)); (89186400, (-18000)); (104914799, (-18000));
      (104914800, (-14400)); (120635999, (-14400)); (120636000, (-18000));
      (126687599, (-18000)); (126687600, (-14400)); (152085599, (-14400));
      (152085600, (-18000)); (162370799, (-18000)); (162370800, (-14400));
      (183535199, (-14400)); (183535200, (-18000)); (199263599, (-18000));
      (199263600, (-14400)); (215589599, (-14400)); (215589600, (-18000));
      (230713199, (-18000)); (230713200, (-14400)); (247039199, (-14400));
      (247039200, (-18000)); (262767599, (-18000)); (262767600, (-14400));
      (278488799, (-14400)); (278488800, (-18000)); (294217199, (-18000));
      (294217200, (-14400)); (309938399, (-14400)); (309938400, (-18000));
      (325666799, (-18000)); (325666800, (-14400)); (341387999, (-14400));
      (341388000, (-18000)); (357116399, (-18000)); (357116400, (-14400));
      (372837599, (-14400)); (372837600, (-18000)); (388565999, (-18000));
      (388566000, (-14400)); (404891999, (-14400)); (404892000, (-18000));
      (420015599, (-18000)); (420015600, (-14400)); (436341599, (-14400));
      (436341600, (-18000)); (452069999, (-18000)); (452070000, (-14400));
      (467791199, (-14400)); (467791200, (-18000)); (483519599, (-18000));
      (483519600, (-14400)); (499240799, (-14400)); (499240800, (-18000));
      (514969199, (-18000)); (514969200, (-14400)); (530690399, (-14400));
      (530690400, (-18000)); (544604399, (-18000)); (544604400, (-14400));
      (562139999, (-14400)); (562140000, (-18000)); (576053999, (-18000));
      (576054000, (-14400)); (594194399, (-14400)); (594194400, (-18000));
      (607503599, (-18000)); (607503600, (-14400)); (625643999, (-14400));
      (625644000, (-18000)); (638953199, (-18000)); (638953200, (-14400));
      (657093599, (-14400)); (657093600, (-18000)); (671007599, (-18000));
      (671007600, (-14400)); (688543199, (-14400)); (688543200, (-18000));
      (702457199, (-18000)); (702457200, (-14400)); (719992799, (-14400));
      (719992800, (-18000)); (733906799, (-18000)); (733906800, (-14400));
      (752047199, (-14400)); (752047200, (-18000)); (765356399, (-18000));
      (765356400, (-14400)); (783496799, (-14400)); (783496800, (-18000));
      (796805999, (-18000)); (796806000, (-14400)); (814946399, (-14400));
      (814946400, (-18000)); (828860399, (-18000)); (828860400, (-14400));
      (846395999, (-14400)); (846396000, (-18000)); (860309999, (-18000));
      (860310000, (-14400)); (877845599, (-14400)); (877845600, (-18000));
      (891759599, (-18000)); (891759600, (-14400)); (909295199, (-14400));
      (909295200, (-18000)); (923209199, (-18000)); (923209200, (-14400));
      (941349599, (-14400)); (941349600, (-18000)); (954658799, (-18000));
      (954658800, (-14400)); (972799199, (-14400)); (972799200, (-18000));
      (986108399, (-18000)); (986108400, (-14400)); (1004248799, (-14400));
      (1004248800, (-18000)); (1018162799, (-18000)); (1018162800, (-14400));
      (1035698399, (-14400)); (1035698400, (-18000)); (1049612399, (-18000));
      (1049612400, (-14400)); (1067147999, (-14400)); (1067148000, (-18000));
      (1081061999, (-18000)); (1081062000, (-14400)); (1099202399, (-14400));
      (1099202400, (-18000)); (1112511599, (-18000)); (1112511600, (-14400));
      (1130651999, (-14400)); (1130652000, (-18000)); (1143961199, (-18000));
      (1143961200, (-14400)); (1162101599, (-14400)); (1162101600, (-18000));
      (1173596399, (-18000)); (1173596400, (-14400)); (1194155999, (-14400));
      (1194156000, (-18000)); (1205045999, (-18000)); (1205046000, (-14400));
      (1225605599, (-14400)); (1225605600, (-18000)); (1236495599, (-18000));
      (1236495600, (-14400)); (1257055199, (-14400)); (1257055200, (-18000));
      (1268549999, (-18000)); (1268550000, (-14400)); (1289109599, (-14400));
      (1289109600, (-18000)); (1299999599, (-18000)); (1299999600, (-14400));
      (1320559199, (-14400)); (1320559200, (-18000)); (1331449199, (-18000));
      (1331449200, (-14400)); (1352008799, (-14400)); (1352008800, (-18000));
      (1362898799, (-18000)); (1362898800, (-14400)); (1383458399, (-14400));
      (1383458400, (-18000)); (1394348399, (-18000)); (1394348400, (-14400));
      (1414907999, (-14400)); (1414908000, (-18000)); (1425797999, (-18000));
      (1425798000, (-14400)); (1446357599, (-14400)); (1446357600, (-18000));
      (1457852399, (-18000)); (1457852400, (-14400)); (1478411999, (-14400));
      (1478412000, (-18000)); (1489301999, (-18000)); (1489302000, (-14400));
      (1509861599, (-14400)); (1509861600, (-18000)); (1520751599, (-18000));
      (1520751600, (-14400)); (1541311199, (-14400)); (1541311200, (-18000));
      (1552201199, (-18000)); (1552201200, (-14400)); (1572760799, (-14400));
      (1572760800, (-18000)); (1583650799, (-18000)); (1583650800, (-14400));
      (1604210399, (-14400)); (1604210400, (-18000)); (1615705199, (-18000));
      (1615705200, (-14400)); (1636264799, (-14400)); (1636264800, (-18000));
      (1647154799, (-18000)); (1647154800, (-14400)); (1667714399, (-14400));
      (1667714400, (-18000)); (1678604399, (-18000)); (1678604400, (-14400));
      (1699163999, (-14400)); (1699164000, (-18000)); (1710053999, (-18000));
      (1710054000, (-14400)); (1730613599, (-14400)); (1730613600, (-18000));
      (1741503599, (-18000)); (1741503600, (-14400)); (1762063199, (-14400));
      (1762063200, (-18000)); (1772953199, (-18000)); (1772953200, (-14400));
      (1793512799, (-14400)); (1793512800, (-18000)); (1805007599, (-18000));
      (1805007600, (-14400)); (1825567199, (-14400)); (1825567200, (-18000));
      (1836457199, (-18000)); (1836457200, (-14400)); (1857016799, (-14400));
      (1857016800, (-18000)); (1867906799, (-18000)); (1867906800, (-14400));
      (1888466399, (-14400)); (1888466400, (-18000)); (1899356399, (-18000));
      (1899356400, (-14400)); (1919915999, (-14400)); (1919916000, (-18000));
      (1930805999, (-18000)); (1930806000, (-14400)); (1951365599, (-14400));
      (1951365600, (-18000)); (1962860399, (-18000)); (1962860400, (-14400));
      (1983419999, (-14400)); (1983420000, (-18000)); (1994309999, (-18000));
      (1994310000, (-14400)); (2014869599, (-14400)); (2014869600, (-18000));
      (2025759599, (-18000)); (2025759600, (-14400)); (2046319199, (-14400));
      (2046319200, (-18000)); (2057209199, (-18000)); (2057209200, (-14400));
      (2077768799, (-14400)); (2077768800, (-18000)); (2088658799, (-18000));
      (2088658800, (-14400)); (2109218399, (-14400)); (2109218400, (-18000));
      (2120108399, (-18000)); (2120108400, (-14400)); (2140667999, (-14400));
      (2140668000, (-18000)) ]
  = true.
Proof. vm_compute. reflexivity. Qed.

(** Midnight in the zone before the rule of 2007, and around the day on
    which standard time began. *)
Example zone_midnight_ex :
  Fidelity.fidelityDate Temporal.americaNewYork (JsDate.DateOf (13227 * JsDate.msPerDay))
    = Return "1142830800" /\
  Fidelity.fidelityDate Temporal.americaNewYork (JsDate.DateOf (-31455 * JsDate.msPerDay))
    = Return "-2717694238" /\
  Fidelity.fidelityDate Temporal.americaNewYork (JsDate.DateOf (-31454 * JsDate.msPerDay))
    = Return "-2717607600".
Proof. vm_compute. repeat split. Qed.

Example json_ex :
  Json.stringify (Json.JObj [("a", Json.JArr [Json.JNum 1; Json.JNull]); ("b", Json.JStr (JsString.quoted "x'y"))])
    = JsString.quoted "{'a':[1,null],'b':'x\'y'}" /\
  Json.parse (JsString.quoted " { 'a' : [1, null ,true], 'b':'x\'A\nA' } ")
    = Some (Json.JObj [("a", Json.JArr [Json.JNum 1; Json.JNull; Json.JBool true]);
                       ("b", Json.JStr (String "x" (String JsString.dquote
                                (String "A" (String (JsString.chr 10) "A")))))]) /\
  Json.parse "[1,]" = None /\ Json.parse "{}" = Some (Json.JObj []) /\ Json.parse "01" = None /\
  Json.parse "[[[]]]" = Some (Json.JArr [Json.JArr [Json.JArr []]]) /\
  Json.parse "-12" = Some (Json.JNum (-12)) /\ Json.parse "1 2" = None /\
  Json.parse "1.5" = None.
Proof. vm_compute. repeat split. Qed.

Example base64_ex :
  Buffer.base64 (Buffer.utf8 "Brokerage") = "QnJva2VyYWdl" /\
  Buffer.base64 (Buffer.utf8 "A") = "QQ==" /\
  Buffer.base64 (Buffer.utf8 "AB") = "QUI=" /\
  Buffer.base64 (Buffer.utf8 "") = "".
Proof. vm_compute. repeat split. Qed.

Example mustache_ex :
  Mustache.render
    [Mustache.Text "["; Mustache.Section "xs" [Mustache.Var "n"; Mustache.Inverted "last" [Mustache.Text ","]];
     Mustache.Text "]"; Mustache.Raw "q"; Mustache.Var "q"]
    [("xs", Mustache.VList [[("n", Mustache.VStr "1"); ("last", Mustache.VBool false)];
                            [("n", Mustache.VStr "2"); ("last", Mustache.VBool true)]]);
     ("q", Mustache.VStr "a=b")]
  = "[1,2]a=ba&#x3D;b".
Proof. vm_compute. reflexivity. Qed.

(** The scenario of the repository's test: both accounts, 2025-11-28
    to 2025-12-02, on a new instance.  The two transactions of the response
    are returned in its order, the settled one with its amount and order
    number, the pending one without; the account list is cached; and the
    two calls are the request of the account list and the transaction
    request from 1764306000 to 1764651600. *)
Example getTransactions_ex :
  Fidelity.getTransactions Temporal.americaNewYork Mock.host Json.JNull (Mock.evaluator "ok")
    ["1234"; "5678"] Mock.nov28 Mock.dec02 Fidelity.newInstance
  = (Return
       [ {| Fidelity.acct_num := "1234";
            Fidelity.date := JsDate.DateOf (20420 * JsDate.msPerDay);
            Fidelity.description := "DIVIDEND RECEIVED";
            Fidelity.amount := Some 1234.56%float;
            Fidelity.order_number := Some "24332-AB1CD";
            Fidelity.pending := false |};
         {| Fidelity.acct_num := "1234";
            Fidelity.date := JsDate.DateOf (20423 * JsDate.msPerDay);
            Fidelity.description := "DEBIT CARD PURCHASE";
            Fidelity.amount := None;
            Fidelity.order_number := None;
            Fidelity.pending := true |} ],
     {| Fidelity.accounts := Some Mock.accountMap;
        Fidelity.calls :=
          [ {| Fidelity.url := Fidelity.accountsUrl; Fidelity.options := Json.JNull |};
            {| Fidelity.url := Fidelity.transactionsUrl;
               Fidelity.options :=
                 Json.JObj
                   [ ("method", Json.JStr "POST"); ("headers", Json.JObj []);
                     ("body", Json.JStr (JsString.quoted
  "{'operationName':'','variables':{'isNewOrderApi':false,'isSupportCrypto':false,'hideDCOrders':false,'acctIdList':'','acctDetailList':[{'acctNum':'1234','acctType':'','name':'QnJva2VyYWdl'},{'acctNum':'5678','acctType':'','name':'SVJB'}],'searchCriteriaDetail':{'timePeriod':0,'txnCat':null,'viewType':'','histSortDir':'','acctHistSort':'','hasBasketName':false,'txnFromDate':'1764306000','txnToDate':'1764651600'}},'query':''}")) ] |} ] |}).
Proof. vm_compute. reflexivity. Qed.

(** Dates with a time of day: the message names both. *)
Example getTransactions_invalid_dates_ex :
  Fidelity.getTransactions Temporal.americaNewYork Mock.host Json.JNull (Mock.evaluator "ok")
    ["1234"] (JsDate.DateOf (20420 * JsDate.msPerDay + 1))
    (JsDate.DateOf (20424 * JsDate.msPerDay + 45000)) Fidelity.newInstance
  = (Throw (FidelityError
       "Invalid date(s): not exact day: 2.7777777777777776e-7 hours; not exact day: 0.0125 hours"),
     Fidelity.newInstance).
Proof. vm_compute. reflexivity. Qed.

Example checkDate_invalid_ex :
  Fidelity.checkDate JsDate.InvalidDate = "not exact day: NaN hours".
Proof. vm_compute. reflexivity. Qed.

(* ------------------------------------------------------------------------- *)
(** * Properties of the run-time model *)

(** ** The calendar *)

Module CalendarFacts.

Import JsDate CalendarSpec.

Lemma allFrom_spec (p : Z -> bool) (fuel : nat) :
  forall z, allFrom fuel z p = true ->
  forall x, z <= x < z + Z.of_nat fuel -> p x = true.
Proof.
  induction fuel as [|f IH]; intros z H x Hx.
  - simpl in Hx. lia.
  - simpl in H. destruct (p z) eqn:Hz; [|discriminate].
    destruct (Z.eq_dec x z) as [->|Hne]; [exact Hz|].
    apply (IH (z + 1) H). lia.
Qed.

Lemma dayOk_era : allFrom (Z.to_nat daysPerEra) 0 dayOk = true.
Proof. vm_cast_no_check (eq_refl true). Qed.

(** Both directions repeat every 400 years. *)
Lemma civilFromDays_shift (z k : Z) :
  civilFromDays (z + daysPerEra * k) =
  let '(y, m, d) := civilFromDays z in (y + 400 * k, m, d).
Proof.
  unfold civilFromDays, daysPerEra.
  replace (z + 146097 * k + eraShift) with (z + eraShift + k * 146097) by lia.
  rewrite Z.div_add by lia.
  replace (z + eraShift + k * 146097 - ((z + eraShift) / 146097 + k) * 146097)
    with (z + eraShift - (z + eraShift) / 146097 * 146097) by lia.
  destruct (civilOfEraDay _) as [[yoe m] d].
  destruct (m <=? 2); f_equal; f_equal; lia.
Qed.

Lemma daysFromCivil_shift (y m d k : Z) :
  daysFromCivil (y + 400 * k) m d = daysFromCivil y m d + daysPerEra * k.
Proof.
  unfold daysFromCivil, daysPerEra.
  set (y' := if m <=? 2 then y - 1 else y).
  replace (if m <=? 2 then y + 400 * k - 1 else y + 400 * k) with (y' + k * 400)
    by (unfold y'; destruct (m <=? 2); lia).
  rewrite Z.div_add by lia.
  replace (y' + k * 400 - (y' / 400 + k) * 400) with (y' - y' / 400 * 400) by lia.
  lia.
Qed.

Lemma DaysInMonth_shift (y m k : Z) :
  DaysInMonth (y + 400 * k) m = DaysInMonth y m.
Proof.
  unfold DaysInMonth.
  replace (y + 400 * k + m / 12) with (y + m / 12 + 400 * k) by lia.
  rewrite !daysFromCivil_shift. lia.
Qed.

Lemma dayOk_all (z : Z) : dayOk z = true.
Proof.
  pose proof (Z.div_mod z daysPerEra ltac:(unfold daysPerEra; lia)) as Hz.
  pose proof (Z.mod_pos_bound z daysPerEra ltac:(unfold daysPerEra; lia)) as Hr.
  assert (Hr' : dayOk (z mod daysPerEra) = true).
  { apply (allFrom_spec dayOk _ 0 dayOk_era).
    rewrite Z2Nat.id by (unfold daysPerEra; lia). lia. }
  rewrite Hz at 1. unfold dayOk in *.
  rewrite Z.add_comm, civilFromDays_shift.
  destruct (civilFromDays (z mod daysPerEra)) as [[y m] d].
  rewrite DaysInMonth_shift, daysFromCivil_shift.
  repeat (apply andb_prop in Hr'; destruct Hr' as [Hr' ?]).
  repeat (apply andb_true_intro; split); try assumption.
  apply Z.eqb_eq. apply Z.eqb_eq in H. lia.
Qed.

(** The date of a day number is a date of the calendar. *)
Lemma civilFromDays_valid (z y m d : Z) :
  civilFromDays z = (y, m, d) ->
  1 <= m <= 12 /\ 1 <= d <= DaysInMonth y m.
Proof.
  intros E. pose proof (dayOk_all z) as H. unfold dayOk in H. rewrite E in H.
  repeat (apply andb_prop in H; destruct H as [H ?]).
  repeat match goal with
         | H : (_ <=? _) = true |- _ => apply Z.leb_le in H
         end.
  lia.
Qed.

(** The day number of the date of a day number is that day number. *)
Lemma daysFromCivil_civilFromDays (z y m d : Z) :
  civilFromDays z = (y, m, d) -> daysFromCivil y m d = z.
Proof.
  intros E. pose proof (dayOk_all z) as H. unfold dayOk in H. rewrite E in H.
  apply andb_prop in H. destruct H as [_ H]. now apply Z.eqb_eq.
Qed.

End CalendarFacts.

(* ------------------------------------------------------------------------- *)
(** ** Decimal digits *)

Module DigitFacts.

Import JsString.

Lemma natValue_app (a : Z) (s t : string) :
  natValue a (s ++ t) = natValue (natValue a s) t.
Proof. revert a. induction s as [|c s IH]; intros a; simpl; [reflexivity|apply IH]. Qed.

Lemma forallb_app (p : ascii -> bool) (s t : string) :
  forallb p (s ++ t) = forallb p s && forallb p t.
Proof. induction s as [|c s IH]; simpl; [reflexivity|]. now rewrite IH, andb_assoc. Qed.

Lemma append_assoc (s t u : string) : (s ++ t) ++ u = s ++ (t ++ u).
Proof. induction s as [|c s IH]; simpl; [reflexivity|now rewrite IH]. Qed.

Lemma append_nil_r (s : string) : s ++ "" = s.
Proof. induction s as [|c s IH]; simpl; [reflexivity|now rewrite IH]. Qed.

Lemma digitChar_spec (d : Z) :
  0 <= d < 10 -> isDigit (digitChar d) = true /\ digitValue (digitChar d) = d.
Proof.
  intros H.
  assert (C : d = 0 \/ d = 1 \/ d = 2 \/ d = 3 \/ d = 4 \/ d = 5 \/ d = 6 \/ d = 7 \/ d = 8 \/ d = 9) by lia.
  repeat (destruct C as [->|C]; [split; reflexivity|]). subst. split; reflexivity.
Qed.

(** What [digitsAux] puts before the accumulator. *)
Lemma digitsAux_spec (fuel : nat) :
  forall n acc, 0 <= n < 10 ^ Z.of_nat (S fuel) ->
  exists ds, digitsAux (S fuel) n acc = ds ++ acc /\
             forallb isDigit ds = true /\
             natValue 0 ds = n /\
             (exists c r, ds = String c r /\ (r <> "" -> digitValue c <> 0)).
Proof.
  assert (Small : forall f n acc, 0 <= n < 10 ->
    exists ds, digitsAux (S f) n acc = ds ++ acc /\
               forallb isDigit ds = true /\
               natValue 0 ds = n /\
               (exists c r, ds = String c r /\ (r <> "" -> digitValue c <> 0))).
  { intros f n acc Hn. simpl digitsAux.
    replace (n <? 10) with true by (symmetry; apply Z.ltb_lt; lia).
    destruct (digitChar_spec (n mod 10)) as [Hd Hv]; [apply Z.mod_pos_bound; lia|].
    exists (String (digitChar (n mod 10)) ""). simpl. rewrite Hd, Hv.
    split; [reflexivity|]. split; [reflexivity|]. split.
    - rewrite Z.mod_small; lia.
    - eexists _, _. split; [reflexivity|]. intros C. now elim C. }
  induction fuel as [|f IH]; intros n acc Hn.
  - apply Small. simpl in Hn. lia.
  - destruct (Z.lt_ge_cases n 10) as [E|E]; [apply Small; lia|].
    change (digitsAux (S (S f)) n acc)
      with (let acc' := String (digitChar (n mod 10)) acc in
            if n <? 10 then acc' else digitsAux (S f) (n / 10) acc').
    cbv zeta. replace (n <? 10) with false by (symmetry; apply Z.ltb_ge; lia).
    assert (Hq : 0 <= n / 10 < 10 ^ Z.of_nat (S f)).
    { split; [apply Z.div_pos; lia|].
      apply Z.div_lt_upper_bound; [lia|].
      rewrite (Nat2Z.inj_succ (S f)), Z.pow_succ_r in Hn by apply Nat2Z.is_nonneg.
      apply Hn. }
    destruct (IH (n / 10) (String (digitChar (n mod 10)) acc) Hq)
      as [ds [E1 [Hd [Hv [c [r [Hc Hz]]]]]]].
    destruct (digitChar_spec (n mod 10)) as [Hd' Hv']; [apply Z.mod_pos_bound; lia|].
    exists (ds ++ String (digitChar (n mod 10)) "").
    rewrite E1, append_assoc. simpl append at 2. split; [reflexivity|].
    rewrite forallb_app, natValue_app, Hd, Hv. cbn [forallb natValue andb].
    rewrite Hd', Hv'.
    split; [reflexivity|]. split.
    + pose proof (Z.div_mod n 10). lia.
    + subst ds. exists c, (r ++ String (digitChar (n mod 10)) ""). split; [reflexivity|].
      intros _. destruct r as [|c' r'].
      * cbn [natValue] in Hv.
        assert (1 <= n / 10) by (apply Z.div_le_lower_bound; lia). lia.
      * apply Hz. discriminate.
Qed.

Lemma digits_spec (n : Z) :
  0 <= n ->
  forallb isDigit (digits n) = true /\
  natValue 0 (digits n) = n /\
  (exists c r, digits n = String c r /\ (r <> "" -> digitValue c <> 0)).
Proof.
  intros Hn. unfold digits.
  assert (Hb : 0 <= n < 10 ^ Z.of_nat (S (Z.to_nat (Z.log2 n)))).
  { split; [exact Hn|].
    rewrite Nat2Z.inj_succ, Z2Nat.id by apply Z.log2_nonneg.
    destruct (Z.eq_dec n 0) as [->|Hne]; [reflexivity|].
    pose proof (Z.log2_spec n ltac:(lia)) as [_ H2].
    apply Z.lt_le_trans with (1 := H2).
    apply Z.pow_le_mono_l. pose proof (Z.log2_nonneg n). lia. }
  destruct (digitsAux_spec _ n "" Hb) as [ds [E H]].
  rewrite E, append_nil_r. exact H.
Qed.

Lemma spanDigits_app (ds rest : string) :
  forallb isDigit ds = true ->
  match rest with String c _ => isDigit c = false | EmptyString => True end ->
  spanDigits (ds ++ rest) = (ds, rest).
Proof.
  intros Hd Hr. induction ds as [|c ds IH]; simpl in *.
  - destruct rest as [|c r]; [reflexivity|]. simpl. now rewrite Hr.
  - apply andb_prop in Hd. destruct Hd as [Hc Hd]. rewrite Hc, (IH Hd). reflexivity.
Qed.

End DigitFacts.

(* ------------------------------------------------------------------------- *)
(** ** JSON: [parse] reads back what [stringify] writes *)

Module JsonFacts.

Import Json JsString DigitFacts JsonSpec.

Lemma stringify_arr (items : list json) :
  stringify (JArr items) = "[" ++ join "," (List.map stringify items) ++ "]".
Proof.
  cbn [stringify]. do 2 f_equal.
  induction items as [|x items IH]; [reflexivity|].
  destruct items as [|y items]; [reflexivity|].
  cbn [List.map join]. cbn [List.map join] in IH. now rewrite <- IH.
Qed.

Lemma stringify_obj (members : list (string * json)) :
  stringify (JObj members) = "{" ++ join "," (List.map member members) ++ "}".
Proof.
  cbn [stringify]. do 2 f_equal.
  induction members as [|[k x] members IH]; [reflexivity|].
  destruct members as [|[k' y] members]; [reflexivity|].
  cbn [List.map join]. cbn [List.map join] in IH. rewrite <- IH.
  unfold member. cbn [fst snd]. now rewrite !append_assoc.
Qed.

Lemma parseStringBody_escapeChar (c : ascii) (tail : string) :
  parseStringBody (escapeChar c ++ tail) = consFst c (parseStringBody tail).
Proof. destruct c as [[] [] [] [] [] [] [] []]; reflexivity. Qed.

(** A string literal is read back. *)
Lemma parseStringBody_escape (s rest : string) :
  parseStringBody (escape s ++ String dquote rest) = Some (s, rest).
Proof.
  induction s as [|c s IH].
  - reflexivity.
  - cbn [escape]. rewrite append_assoc, parseStringBody_escapeChar, IH. reflexivity.
Qed.

Lemma substring_all (s : string) : substring 0 (String.length s) s = s.
Proof. induction s as [|c s IH]; [reflexivity|]. cbn. now rewrite IH. Qed.

Lemma prefix_app (s t : string) : prefix s (s ++ t) = true.
Proof.
  induction s as [|c s IH]; [destruct t; reflexivity|].
  cbn. destruct (ascii_dec c c); [exact IH|congruence].
Qed.

Lemma drop_app (s t : string) : drop (String.length s) (s ++ t) = t.
Proof.
  unfold drop. induction s as [|c s IH].
  - cbn. rewrite Nat.sub_0_r. apply substring_all.
  - cbn [append String.length substring Nat.sub]. exact IH.
Qed.

Lemma parseLiteral_app (tail : string) (v : json) (rest : string) :
  parseLiteral tail v (tail ++ rest) = Some (v, rest).
Proof. unfold parseLiteral. now rewrite prefix_app, drop_app. Qed.

Lemma skipWs_head (c : ascii) (r : string) :
  isJsonSpace c = false -> skipWs (String c r) = String c r.
Proof. intros H. cbn [skipWs]. now rewrite H. Qed.

Ltac code_tests c :=
  repeat match goal with
         | |- context [code c =? ?k] =>
             replace (code c =? k) with false by (symmetry; apply Z.eqb_neq; lia)
         end.

(** An integer is read back. *)
Lemma parseNumber_ofZ (n : Z) (rest : string) :
  delimited rest -> parseNumber (ofZ n ++ rest) = Some (JNum n, rest).
Proof.
  intros Hrest.
  assert (Hspan : forall m, 0 <= m ->
    exists c r, digits m = String c r /\ isDigit c = true /\
                spanDigits (digits m ++ rest) = (digits m, rest) /\
                natValue 0 (digits m) = m /\
                (r <> "" -> digitValue c <> 0)).
  { intros m Hm. destruct (digits_spec m Hm) as [Hd [Hv [c [r [E Hz]]]]].
    exists c, r. repeat split; try assumption.
    - rewrite E in Hd. cbn in Hd. now apply andb_prop in Hd.
    - apply spanDigits_app; [exact Hd|]. destruct rest; [exact I|apply Hrest]. }
  assert (Hfrac : match rest with
                  | String c _ => (code c =? 46) || (code c =? 101) || (code c =? 69)
                  | EmptyString => false
                  end = false).
  { destruct rest as [|c r]; [reflexivity|]. destruct Hrest as [_ [H1 [H2 H3]]].
    code_tests c. reflexivity. }
  unfold ofZ, parseNumber. destruct (n <? 0) eqn:En.
  - apply Z.ltb_lt in En.
    destruct (Hspan (- n) ltac:(lia)) as [c [r [E [Hc [Hs [Hv Hz]]]]]].
    change ("-" ++ digits (- n)) with (String "-" (digits (- n))).
    cbn [append]. change (code "-" =? 45) with true. cbv iota.
    rewrite Hs, Hfrac, Hv. rewrite E.
    replace (match r with String _ _ => digitValue c =? 0 | EmptyString => false end)
      with false.
    + cbn. do 3 f_equal. lia.
    + destruct r; [reflexivity|]. symmetry. apply Z.eqb_neq, Hz. discriminate.
  - apply Z.ltb_ge in En.
    destruct (Hspan n En) as [c [r [E [Hc [Hs [Hv Hz]]]]]].
    rewrite E in *. cbn [append].
    unfold isDigit in Hc. apply andb_prop in Hc. destruct Hc as [Hc1 Hc2].
    apply Z.leb_le in Hc1, Hc2. code_tests c.
    change (String c (r ++ rest)) with (String c r ++ rest).
    rewrite Hs, Hfrac, Hv.
    replace (match r with String _ _ => digitValue c =? 0 | EmptyString => false end)
      with false; [reflexivity|].
    destruct r; [reflexivity|]. symmetry. apply Z.eqb_neq, Hz. discriminate.
Qed.

Lemma parseValue_S (f : nat) (s : string) :
  parseValue (S f) s =
  match skipWs s with
  | EmptyString => None
  | String c r =>
      let n := code c in
      if n =? 110 then parseLiteral "ull" JNull r
      else if n =? 116 then parseLiteral "rue" (JBool true) r
      else if n =? 102 then parseLiteral "alse" (JBool false) r
      else if n =? 34 then
        match parseStringBody r with
        | Some (str, r') => Some (JStr str, r')
        | None => None
        end
      else if n =? 91 then
        match skipWs r with
        | EmptyString => None
        | String c' r' =>
            if code c' =? 93 then Some (JArr [], r')
            else
              match parseItems (parseValue f) (String.length r) r with
              | Some (vs, r'') => Some (JArr vs, r'')
              | None => None
              end
        end
      else if n =? 123 then
        match skipWs r with
        | EmptyString => None
        | String c' r' =>
            if code c' =? 125 then Some (JObj [], r')
            else
              match parseMembers (parseValue f) (String.length r) r with
              | Some (ms, r'') => Some (JObj ms, r'')
              | None => None
              end
        end
      else parseNumber (String c r)
  end.
Proof. reflexivity. Qed.

Lemma ofZ_head (n : Z) :
  exists c r, ofZ n = String c r /\ (isDigit c = true \/ code c = 45).
Proof.
  unfold ofZ. destruct (n <? 0) eqn:E.
  - eexists _, _. split; [reflexivity|]. now right.
  - apply Z.ltb_ge in E. destruct (digits_spec n E) as [Hd [_ [c [r [Ec _]]]]].
    exists c, r. split; [exact Ec|]. left. rewrite Ec in Hd. cbn in Hd.
    now apply andb_prop in Hd.
Qed.

Lemma number_head_opens (c : ascii) :
  isDigit c = true \/ code c = 45 -> opens c /\ 45 <= code c <= 57.
Proof.
  intros H. assert (B : 45 <= code c <= 57).
  { destruct H as [H|H]; [|lia]. unfold isDigit in H. apply andb_prop in H.
    destruct H as [H1 H2]. apply Z.leb_le in H1, H2. lia. }
  split; [|exact B]. unfold opens, isJsonSpace. code_tests c.
  repeat split; try reflexivity; lia.
Qed.

Lemma stringify_head (v : json) :
  exists c r, stringify v = String c r /\ opens c.
Proof.
  assert (O : forall c, isJsonSpace c = false -> code c <> 93 -> code c <> 125 -> opens c)
    by (intros; repeat split; assumption).
  destruct v as [|[]|n|s|items|members].
  - eexists _, _. split; [reflexivity|]. apply O; [reflexivity|discriminate..].
  - eexists _, _. split; [reflexivity|]. apply O; [reflexivity|discriminate..].
  - eexists _, _. split; [reflexivity|]. apply O; [reflexivity|discriminate..].
  - destruct (ofZ_head n) as [c [r [E H]]]. exists c, r. split; [exact E|].
    apply number_head_opens, H.
  - eexists _, _. split; [reflexivity|]. apply O; [reflexivity|discriminate..].
  - rewrite stringify_arr. eexists _, _. split; [reflexivity|].
    apply O; [reflexivity|discriminate..].
  - rewrite stringify_obj. eexists _, _. split; [reflexivity|].
    apply O; [reflexivity|discriminate..].
Qed.

Lemma delimited_comma (r : string) : delimited (String "," r).
Proof. repeat split; discriminate. Qed.

Lemma delimited_bracket (r : string) : delimited (String "]" r).
Proof. repeat split; discriminate. Qed.

Lemma delimited_brace (r : string) : delimited (String "}" r).
Proof. repeat split; discriminate. Qed.

Section Compound.
Variable pv : string -> option (json * string).

(** The elements of an array are read back, if each one is. *)
Lemma parseItems_join (items : list json) :
  forall (n : nat) (rest : string),
  items <> [] -> (List.length items <= n)%nat ->
  (forall x rest', In x items -> delimited rest' -> pv (stringify x ++ rest') = Some (x, rest')) ->
  parseItems pv n (join "," (List.map stringify items) ++ String "]" rest) = Some (items, rest).
Proof.
  induction items as [|x items IH]; intros n rest Hne Hn Hpv; [congruence|].
  destruct n as [|n]; [cbn in Hn; lia|].
  destruct items as [|y items].
  - cbn [List.map join parseItems].
    rewrite (Hpv x _ (or_introl eq_refl) (delimited_bracket rest)).
    reflexivity.
  - change (join "," (List.map stringify (x :: y :: items)))
      with (stringify x ++ "," ++ join "," (List.map stringify (y :: items))).
    rewrite !append_assoc. cbn [parseItems].
    change ("," ++ ?a) with (String "," a).
    rewrite (Hpv x _ (or_introl eq_refl) (delimited_comma _)).
    cbn [skipWs]. change (isJsonSpace ",") with false. cbv iota.
    change (code "," =? 44) with true. cbv iota.
    rewrite (IH n rest); [reflexivity|discriminate|cbn in *; lia|].
    intros x' rest' Hin. apply Hpv. now right.
Qed.

(** The members of an object are read back, if each value is. *)
Lemma parseMembers_join (members : list (string * json)) :
  forall (n : nat) (rest : string),
  members <> [] -> (List.length members <= n)%nat ->
  (forall kx rest', In kx members -> delimited rest' ->
     pv (stringify (snd kx) ++ rest') = Some (snd kx, rest')) ->
  parseMembers pv n (join "," (List.map member members) ++ String "}" rest)
  = Some (members, rest).
Proof.
  induction members as [|[k x] members IH]; intros n rest Hne Hn Hpv; [congruence|].
  destruct n as [|n]; [cbn in Hn; lia|].
  assert (Hkey : forall tail,
    parseMembers pv (S n) (member (k, x) ++ tail) =
    match pv (stringify x ++ tail) with
    | Some (v, r3) =>
        match skipWs r3 with
        | String c r4 =>
            if code c =? 44 then
              match parseMembers pv n r4 with
              | Some (ms, r5) => Some ((k, v) :: ms, r5)
              | None => None
              end
            else if code c =? 125 then Some ([(k, v)], r4)
            else None
        | EmptyString => None
        end
    | None => None
    end).
  { intros tail. unfold member, quote. cbn [fst snd].
    rewrite !append_assoc. cbn [append parseMembers skipWs].
    change (isJsonSpace dquote) with false. cbv iota.
    change (code dquote =? 34) with true. cbv iota.
    rewrite append_assoc. cbn [append].
    rewrite parseStringBody_escape. cbn [skipWs].
    change (isJsonSpace ":") with false. cbv iota.
    change (code ":" =? 58) with true. cbv iota. reflexivity. }
  destruct members as [|[k' y] members].
  - cbn [List.map join]. rewrite Hkey.
    pose proof (Hpv (k, x) _ (or_introl eq_refl) (delimited_brace rest)) as Hx.
    cbn [snd] in Hx. rewrite Hx. reflexivity.
  - change (join "," (List.map member ((k, x) :: (k', y) :: members)))
      with (member (k, x) ++ "," ++ join "," (List.map member ((k', y) :: members))).
    rewrite !append_assoc. rewrite Hkey.
    change ("," ++ ?a) with (String "," a).
    match goal with
    | |- context [pv (stringify x ++ String "," ?t)] =>
        pose proof (Hpv (k, x) _ (or_introl eq_refl) (delimited_comma t)) as Hx
    end.
    cbn [snd] in Hx. rewrite Hx.
    cbn [skipWs]. change (isJsonSpace ",") with false. cbv iota.
    change (code "," =? 44) with true. cbv iota.
    rewrite (IH n rest); [reflexivity|discriminate|cbn in *; lia|].
    intros kx rest' Hin. apply Hpv. now right.
Qed.
End Compound.

Lemma length_app (s t : string) :
  String.length (s ++ t) = (String.length s + String.length t)%nat.
Proof. induction s as [|c s IH]; cbn; [reflexivity|now rewrite IH]. Qed.

(** A list of n values is written with n characters or more. *)
Lemma length_join (l : list string) :
  (forall s, In s l -> (1 <= String.length s)%nat) ->
  (List.length l <= String.length (join "," l))%nat.
Proof.
  induction l as [|x l IH]; intros H; [cbn; lia|].
  destruct l as [|y l].
  - cbn. apply (H x). now left.
  - change (join "," (x :: y :: l)) with (x ++ "," ++ join "," (y :: l)).
    rewrite !length_app.
    assert (List.length (y :: l) <= String.length (join "," (y :: l)))%nat
      by (apply IH; intros s Hs; apply H; now right).
    cbn [List.length String.length] in *. lia.
Qed.

Lemma length_stringify (v : json) : (1 <= String.length (stringify v))%nat.
Proof.
  destruct (stringify_head v) as [c [r [E _]]]. rewrite E. cbn. lia.
Qed.

Lemma depth_in (x : json) (items : list json) :
  In x items ->
  (depth x <= List.fold_right (fun x d => Nat.max (depth x) d) O items)%nat.
Proof.
  induction items as [|y items IH]; intros H; [destruct H|].
  cbn [List.fold_right]. destruct H as [->|H]; [lia|]. specialize (IH H). lia.
Qed.

Lemma depth_in_members (kx : string * json) (members : list (string * json)) :
  In kx members ->
  (depth (snd kx) <= List.fold_right (fun kx d => Nat.max (depth (snd kx)) d) O members)%nat.
Proof.
  induction members as [|y members IH]; intros H; [destruct H|].
  cbn [List.fold_right]. destruct H as [->|H]; [lia|]. specialize (IH H). lia.
Qed.

(** A written value is read back, whatever follows it. *)
Lemma parseValue_stringify (fuel : nat) :
  forall (v : json) (rest : string),
  (depth v <= fuel)%nat -> delimited rest ->
  parseValue fuel (stringify v ++ rest) = Some (v, rest).
Proof.
  induction fuel as [|f IH]; intros v rest Hd Hrest.
  - destruct v; cbn in Hd; lia.
  - rewrite parseValue_S. destruct v as [|b|n|s|items|members].
    + exact (parseLiteral_app "ull" JNull rest).
    + destruct b.
      * exact (parseLiteral_app "rue" (JBool true) rest).
      * exact (parseLiteral_app "alse" (JBool false) rest).
    + destruct (ofZ_head n) as [c [r [E H]]].
      destruct (number_head_opens c H) as [[Hs _] B].
      cbn [stringify]. rewrite E. cbn [append]. rewrite (skipWs_head _ _ Hs).
      cbv zeta. code_tests c.
      change (String c (r ++ rest)) with (String c r ++ rest). rewrite <- E.
      apply parseNumber_ofZ, Hrest.
    + cbn [stringify]. unfold quote. cbn [append]. rewrite append_assoc. cbn [append].
      cbn [skipWs]. change (isJsonSpace dquote) with false. cbv iota zeta.
      change (code dquote =? 110) with false. change (code dquote =? 116) with false.
      change (code dquote =? 102) with false. change (code dquote =? 34) with true.
      cbv iota. now rewrite parseStringBody_escape.
    + rewrite stringify_arr. rewrite !append_assoc. cbn [append skipWs].
      change (isJsonSpace "[") with false. cbv iota zeta.
      change (code "[" =? 110) with false. change (code "[" =? 116) with false.
      change (code "[" =? 102) with false. change (code "[" =? 34) with false.
      change (code "[" =? 91) with true. cbv iota.
      destruct items as [|x items].
      * reflexivity.
      * set (text := join "," (List.map stringify (x :: items)) ++ String "]" rest).
        assert (Hhead : exists c r, text = String c r /\ opens c).
        { destruct (stringify_head x) as [c [r [E Ho]]].
          unfold text. destruct items as [|y items].
          - cbn [List.map join]. rewrite E. eexists _, _. split; [reflexivity|exact Ho].
          - change (join "," (List.map stringify (x :: y :: items)))
              with (stringify x ++ "," ++ join "," (List.map stringify (y :: items))).
            rewrite E. eexists _, _. split; [reflexivity|exact Ho]. }
        destruct Hhead as [c [r [E [Hs [Hb _]]]]].
        rewrite E at 1. rewrite (skipWs_head _ _ Hs).
        replace (code c =? 93) with false by (symmetry; apply Z.eqb_neq; exact Hb).
        unfold text. rewrite (parseItems_join (parseValue f)); [reflexivity|discriminate| |].
        -- rewrite length_app.
           pose proof (length_join (List.map stringify (x :: items))) as L.
           rewrite List.length_map in L.
           assert (forall s, In s (List.map stringify (x :: items)) -> (1 <= String.length s)%nat).
           { intros s Hs'. apply in_map_iff in Hs'. destruct Hs' as [v [<- _]].
             apply length_stringify. }
           specialize (L H). lia.
        -- intros y rest' Hin Hr'. apply IH; [|exact Hr'].
           cbn [depth] in Hd. pose proof (depth_in y _ Hin). lia.
    + rewrite stringify_obj. rewrite !append_assoc. cbn [append skipWs].
      change (isJsonSpace "{") with false. cbv iota zeta.
      change (code "{" =? 110) with false. change (code "{" =? 116) with false.
      change (code "{" =? 102) with false. change (code "{" =? 34) with false.
      change (code "{" =? 91) with false. change (code "{" =? 123) with true. cbv iota.
      destruct members as [|kx members].
      * reflexivity.
      * set (text := join "," (List.map member (kx :: members)) ++ String "}" rest).
        assert (Hhead : exists r, text = String dquote r).
        { unfold text. destruct members as [|ky members].
          - cbn [List.map join]. unfold member, quote. cbn [append]. eexists. reflexivity.
          - change (join "," (List.map member (kx :: ky :: members)))
              with (member kx ++ "," ++ join "," (List.map member (ky :: members))).
            unfold member at 1, quote. cbn [append]. eexists. reflexivity. }
        destruct Hhead as [r E].
        rewrite E at 1. cbn [skipWs]. change (isJsonSpace dquote) with false. cbv iota.
        change (code dquote =? 125) with false. cbv iota.
        unfold text. rewrite (parseMembers_join (parseValue f)); [reflexivity|discriminate| |].
        -- rewrite length_app.
           pose proof (length_join (List.map member (kx :: members))) as L.
           rewrite List.length_map in L.
           assert (forall s, In s (List.map member (kx :: members)) -> (1 <= String.length s)%nat).
           { intros s Hs'. apply in_map_iff in Hs'. destruct Hs' as [v [<- _]].
             unfold member, quote. cbn. lia. }
           specialize (L H). lia.
        -- intros ky rest' Hin Hr'. apply IH; [|exact Hr'].
           cbn [depth] in Hd. pose proof (depth_in_members ky _ Hin). lia.
Qed.

(** Depth is bounded by the length of the text. *)
Lemma depth_le_length (n : nat) :
  forall v, (depth v <= n)%nat -> (depth v <= String.length (stringify v))%nat.
Proof.
  induction n as [|n IH]; intros v Hv; [destruct v; cbn in Hv; lia|].
  destruct v as [|b|z|s|items|members];
    [apply length_stringify | apply length_stringify | apply length_stringify
     | apply length_stringify | | ].
  - rewrite stringify_arr. cbn [depth append String.length] in *. rewrite length_app.
    apply le_n_S.
    assert (H : forall l, (forall x, In x l -> (depth x <= n)%nat) ->
              (List.fold_right (fun x d => Nat.max (depth x) d) O l
               <= String.length (join "," (List.map stringify l)))%nat).
    { induction l as [|x l IHl]; intros Hl; [cbn; lia|].
      assert (Hx : (depth x <= String.length (stringify x))%nat)
        by (apply IH, Hl; now left).
      assert (Hr : (List.fold_right (fun x d => Nat.max (depth x) d) O l
                    <= String.length (join "," (List.map stringify l)))%nat)
        by (apply IHl; intros y Hy; apply Hl; now right).
      destruct l as [|y l].
      - cbn in *. lia.
      - change (join "," (List.map stringify (x :: y :: l)))
          with (stringify x ++ "," ++ join "," (List.map stringify (y :: l))).
        rewrite !length_app. cbn [List.fold_right] in *. lia. }
    specialize (H items). cbn [String.length]. 
    assert (forall x, In x items -> (depth x <= n)%nat).
    { intros x Hx. pose proof (depth_in x _ Hx). lia. }
    specialize (H H0). lia.
  - rewrite stringify_obj. cbn [depth append String.length] in *. rewrite length_app.
    apply le_n_S.
    assert (H : forall l, (forall kx, In kx l -> (depth (snd kx) <= n)%nat) ->
              (List.fold_right (fun kx d => Nat.max (depth (snd kx)) d) O l
               <= String.length (join "," (List.map member l)))%nat).
    { induction l as [|x l IHl]; intros Hl; [cbn; lia|].
      assert (Hx : (depth (snd x) <= String.length (member x))%nat).
      { unfold member. rewrite !length_app.
        assert (depth (snd x) <= String.length (stringify (snd x)))%nat
          by (apply IH, Hl; now left). lia. }
      assert (Hr : (List.fold_right (fun kx d => Nat.max (depth (snd kx)) d) O l
                    <= String.length (join "," (List.map member l)))%nat)
        by (apply IHl; intros y Hy; apply Hl; now right).
      destruct l as [|y l].
      - cbn in *. lia.
      - change (join "," (List.map member (x :: y :: l)))
          with (member x ++ "," ++ join "," (List.map member (y :: l))).
        rewrite !length_app. cbn [List.fold_right] in *. lia. }
    specialize (H members). cbn [String.length].
    assert (forall kx, In kx members -> (depth (snd kx) <= n)%nat).
    { intros x Hx. pose proof (depth_in_members x _ Hx). lia. }
    specialize (H H0). lia.
Qed.

(** [JSON.parse(JSON.stringify(v))] is [v]. *)
Theorem parse_stringify (v : json) : parse (stringify v) = Some v.
Proof.
  unfold parse.
  rewrite <- (append_nil_r (stringify v)) at 2.
  rewrite parseValue_stringify; [reflexivity| |exact I].
  pose proof (depth_le_length (depth v) v (le_n _)). lia.
Qed.

End JsonFacts.

(* ------------------------------------------------------------------------- *)
(** ** Rendering the request templates *)

Module RenderFacts.

Import Json JsString DigitFacts JsonSpec JsonFacts Fidelity RequestSpec.

Lemma plainChar_literal (c : ascii) : plainChar c = true -> literalChar c = true.
Proof. destruct c as [[] [] [] [] [] [] [] []]; cbv; congruence. Qed.

Lemma plain_literal (s : string) : plain s = true -> literal s = true.
Proof.
  unfold plain, literal. induction s as [|c s IH]; [reflexivity|]. cbn.
  intros H. apply andb_prop in H. destruct H as [H1 H2].
  now rewrite (plainChar_literal c H1), (IH H2).
Qed.

Lemma escapeHtmlChar_plain (c : ascii) :
  plainChar c = true -> Mustache.escapeHtmlChar c = String c "".
Proof. destruct c as [[] [] [] [] [] [] [] []]; cbv; congruence. Qed.

Lemma escapeHtml_plain (s : string) : plain s = true -> Mustache.escapeHtml s = s.
Proof.
  unfold plain. induction s as [|c s IH]; [reflexivity|]. cbn [forallb Mustache.escapeHtml].
  intros H. apply andb_prop in H. destruct H as [H1 H2].
  now rewrite (escapeHtmlChar_plain c H1), (IH H2).
Qed.

Lemma escapeChar_literal (c : ascii) : literalChar c = true -> escapeChar c = String c "".
Proof. destruct c as [[] [] [] [] [] [] [] []]; cbv; congruence. Qed.

Lemma escape_literal (s : string) : literal s = true -> escape s = s.
Proof.
  unfold literal. induction s as [|c s IH]; [reflexivity|]. cbn [forallb escape].
  intros H. apply andb_prop in H. destruct H as [H1 H2].
  now rewrite (escapeChar_literal c H1), (IH H2).
Qed.

Lemma digit_plain (c : ascii) : isDigit c = true -> plainChar c = true.
Proof. destruct c as [[] [] [] [] [] [] [] []]; cbv; congruence. Qed.

Lemma ofZ_plain (n : Z) : plain (ofZ n) = true.
Proof.
  assert (D : forall m, 0 <= m -> plain (digits m) = true).
  { intros m Hm. destruct (digits_spec m Hm) as [Hd _]. unfold plain.
    induction (digits m) as [|c s IH]; [reflexivity|]. cbn in *.
    apply andb_prop in Hd. destruct Hd as [H1 H2].
    now rewrite (digit_plain c H1), (IH H2). }
  unfold ofZ. destruct (n <? 0) eqn:E.
  - apply Z.ltb_lt in E. unfold plain. cbn [append forallb].
    change (plainChar "-") with true. apply D. lia.
  - apply Z.ltb_ge in E. now apply D.
Qed.

Lemma sextet_literal (n : Z) : literalChar (Buffer.sextet n) = true.
Proof.
  unfold Buffer.sextet. generalize (Z.to_nat n). intros k.
  do 64 (destruct k as [|k]; [reflexivity|]). reflexivity.
Qed.

Lemma base64_literal (bytes : list Z) : literal (Buffer.base64 bytes) = true.
Proof.
  assert (H : forall n bytes, (List.length bytes <= n)%nat -> literal (Buffer.base64 bytes) = true).
  { clear bytes. induction n as [|n IH]; intros bytes Hn.
    - destruct bytes; [reflexivity|cbn in Hn; lia].
    - destruct bytes as [|a [|b [|c r]]]; unfold literal; cbn [Buffer.base64 forallb];
        rewrite ?sextet_literal; try reflexivity.
      cbn [andb]. apply IH. cbn [List.length] in Hn. lia. }
  apply (H (List.length bytes)). lia.
Qed.

Lemma stringify_acctDetail (a : Account) :
  plain (number a) = true ->
  stringify (acctDetail a) =
  quoted "{'acctNum':'" ++ number a ++ quoted "','acctType':'','name':'"
  ++ encodeAccountName (name a) ++ quoted "'}".
Proof.
  intros Hp. unfold acctDetail. cbn [stringify]. unfold quote.
  rewrite (escape_literal (number a)) by now apply plain_literal.
  rewrite (escape_literal (encodeAccountName (name a))) by apply base64_literal.
  repeat first [rewrite append_assoc | progress cbn [append]]. reflexivity.
Qed.

Ltac norm_append := repeat first [rewrite append_assoc | progress cbn [append]].

(** One account of the list, rendered: its entry, and a comma unless it
    is the last. *)
Lemma render_accountEntry (a : Account) (isLast : bool) (stack : list Mustache.view) :
  plain (number a) = true ->
  Mustache.renderAll Templates.accountEntry
    ([ ("number", Mustache.VStr (number a));
       ("name", Mustache.VStr (encodeAccountName (name a)));
       ("last", Mustache.VBool isLast) ] :: stack)
  = stringify (acctDetail a) ++ (if isLast then "" else ",").
Proof.
  intros Hp. rewrite (stringify_acctDetail a Hp).
  unfold Templates.accountEntry.
  destruct isLast; cbn; rewrite (escapeHtml_plain _ Hp); norm_append; reflexivity.
Qed.

(** The accounts section, rendered: the entries, separated by commas. *)
Lemma render_accounts (stack : list Mustache.view) (len : Z) (accounts : list Account) :
  forall i, i + Z.of_nat (List.length accounts) = len ->
  plainNumbers accounts ->
  Mustache.concat
    (List.map (fun item => Mustache.renderAll Templates.accountEntry (item :: stack))
              (accountDicts i len accounts))
  = join "," (List.map stringify (List.map acctDetail accounts)).
Proof.
  induction accounts as [|a accounts IH]; intros i Hi Hp; [reflexivity|].
  pose proof (Forall_inv Hp) as Ha. pose proof (Forall_inv_tail Hp) as Hp'.
  cbn beta in Ha.
  cbn [accountDicts List.map Mustache.concat List.fold_right].
  rewrite (render_accountEntry a _ stack Ha).
  change (List.fold_right append "" ?l) with (Mustache.concat l).
  rewrite (IH (i + 1)); [|cbn [List.length] in Hi; lia|exact Hp'].
  destruct accounts as [|b accounts].
  - cbn [List.length] in Hi.
    replace (i =? len - 1) with true by (symmetry; apply Z.eqb_eq; lia).
    cbn [List.map join]. now rewrite !append_nil_r.
  - replace (i =? len - 1) with false
      by (symmetry; apply Z.eqb_neq; cbn [List.length] in Hi; lia).
    cbn [List.map join]. now rewrite append_assoc.
Qed.

(** The body template, rendered: the text of the request document. *)
Lemma render_body (accounts : list Account) (start end_ : string) :
  plainNumbers accounts -> plain start = true -> plain end_ = true ->
  Mustache.render Templates.getTransactionsBody
    [ ("accounts",
       Mustache.VList (accountDicts 0 (Z.of_nat (List.length accounts)) accounts));
      ("start", Mustache.VStr start);
      ("end", Mustache.VStr end_) ]
  = stringify (requestDocument accounts start end_).
Proof.
  intros Hp Hs He.
  unfold requestDocument.
  rewrite stringify_obj. cbn [List.map join]. unfold member; cbn [fst snd].
  rewrite stringify_obj. cbn [List.map join]. unfold member; cbn [fst snd].
  rewrite stringify_obj. cbn [List.map join]. unfold member; cbn [fst snd].
  rewrite stringify_arr.
  rewrite <- (render_accounts
                [[ ("accounts",
                    Mustache.VList (accountDicts 0 (Z.of_nat (List.length accounts)) accounts));
                   ("start", Mustache.VStr start);
                   ("end", Mustache.VStr end_) ]]
                (Z.of_nat (List.length accounts)) accounts 0 ltac:(lia) Hp).
  cbn [stringify]. unfold quote.
  rewrite (escape_literal start) by now apply plain_literal.
  rewrite (escape_literal end_) by now apply plain_literal.
  unfold Mustache.render, Templates.getTransactionsBody.
  cbn [Mustache.renderAll Mustache.renderNode Mustache.lookup Mustache.find Mustache.show
       String.eqb Ascii.eqb Bool.eqb].
  rewrite (escapeHtml_plain _ Hs), (escapeHtml_plain _ He).
  change ((fix renderAll (l : list Mustache.node) (stack : list Mustache.view) {struct l} : string :=
             match l with
             | [] => ""
             | x :: r => Mustache.renderNode x stack ++ renderAll r stack
             end)) with Mustache.renderAll.
  cbn [escape]. norm_append. reflexivity.
Qed.

End RenderFacts.

Module RequestFacts.

Import Json JsString DigitFacts JsonSpec JsonFacts RequestSpec RenderFacts.

(** What [fidelityDate] returns is the decimal string of an integer. *)
Lemma fidelityDate_ofZ (zone : Temporal.TimeZone) (d : JsDate.Date) (s : string) :
  Fidelity.fidelityDate zone d = Return s -> exists n, s = ofZ n.
Proof.
  unfold Fidelity.fidelityDate.
  destruct (Temporal.zonedMidnightEpochMilliseconds _ _ _ _) as [ms|e]; cbn [bindC];
    intros H; [|discriminate].
  injection H as <-. eexists. reflexivity.
Qed.

Lemma fidelityDate_plain (zone : Temporal.TimeZone) (d : JsDate.Date) (s : string) :
  Fidelity.fidelityDate zone d = Return s -> plain s = true.
Proof. intros H. destruct (fidelityDate_ofZ _ _ _ H) as [n ->]. apply ofZ_plain. Qed.

Lemma parseC_stringify (v : Json.json) : parseC (stringify v) = Return v.
Proof. unfold parseC. now rewrite parse_stringify. Qed.

(** The document that [getTransactionsBody] returns. *)
Lemma getTransactionsBody_value
  (zone : Temporal.TimeZone) (accounts : list Fidelity.Account)
  (start end_ : JsDate.Date) (s e : string) :
  plainNumbers accounts ->
  Fidelity.fidelityDate zone start = Return s ->
  Fidelity.fidelityDate zone end_ = Return e ->
  Fidelity.getTransactionsBody zone accounts start end_
  = Return (requestDocument accounts s e).
Proof.
  intros Hp Hs He. unfold Fidelity.getTransactionsBody.
  rewrite Hs, He. cbn [bindC].
  rewrite (render_body accounts s e Hp (fidelityDate_plain _ _ _ Hs) (fidelityDate_plain _ _ _ He)).
  apply parseC_stringify.
Qed.

(** The options template, rendered around a JSON string literal. *)
Lemma render_options (body : string) :
  Mustache.render Templates.getTransactionsOptions
    [("body", Mustache.VStr (stringify (JStr body)))]
  = stringify (requestOptions body).
Proof.
  unfold requestOptions. rewrite stringify_obj.
  cbn [List.map join]. unfold member; cbn [fst snd].
  rewrite stringify_obj. cbn [List.map join].
  unfold Mustache.render, Templates.getTransactionsOptions.
  cbn [Mustache.renderAll Mustache.renderNode Mustache.lookup Mustache.find Mustache.show
       String.eqb Ascii.eqb Bool.eqb].
  cbn [stringify]. unfold quote. cbn [escape]. norm_append. reflexivity.
Qed.

(** The options that [getTransactionsOptions] returns. *)
Lemma getTransactionsOptions_value
  (zone : Temporal.TimeZone) (accounts : list Fidelity.Account)
  (start end_ : JsDate.Date) (s e : string) :
  plainNumbers accounts ->
  Fidelity.fidelityDate zone start = Return s ->
  Fidelity.fidelityDate zone end_ = Return e ->
  Fidelity.getTransactionsOptions zone accounts start end_
  = Return (requestOptions (stringify (requestDocument accounts s e))).
Proof.
  intros Hp Hs He. unfold Fidelity.getTransactionsOptions.
  rewrite (getTransactionsBody_value zone accounts start end_ s e Hp Hs He). cbn [bindC].
  rewrite render_options. apply parseC_stringify.
Qed.

(** The [last] flag of the i-th account of the view. *)
Lemma accountDicts_nth (len : Z) (accounts : list Fidelity.Account) :
  forall (i : Z) (k : nat) (a : Fidelity.Account),
  nth_error accounts k = Some a ->
  nth_error (Fidelity.accountDicts i len accounts) k
  = Some [ ("number", Mustache.VStr (Fidelity.number a));
           ("name", Mustache.VStr (Fidelity.encodeAccountName (Fidelity.name a)));
           ("last", Mustache.VBool (i + Z.of_nat k =? len - 1)) ].
Proof.
  induction accounts as [|b accounts IH]; intros i k a H.
  - destruct k; discriminate.
  - destruct k as [|k].
    + injection H as ->. cbn. now rewrite Z.add_0_r.
    + cbn [nth_error Fidelity.accountDicts]. rewrite (IH (i + 1) k a H).
      replace (i + Z.of_nat (S k)) with (i + 1 + Z.of_nat k) by lia. reflexivity.
Qed.

End RequestFacts.

(** C8 (amended).  For accounts whose numbers hold no character that
    Mustache or a JSON string literal escapes, and dates that
    [fidelityDate] encodes as [s] and [e]: the [body] of the request options
    is the text of the inner request document and parses back to it; the
    text put in the outer template is that text encoded again as a JSON
    string; in the document [variables.acctDetailList] has one entry per
    account in the order given, [txnFromDate] is [s] and [txnToDate] is [e];
    and in the view of the template the [last] flag of an account is true
    exactly at the final index. *)
Theorem getTransactionsOptions_body_parses_to_document
  (zone : Temporal.TimeZone) (accounts : list Fidelity.Account)
  (start end_ : JsDate.Date) (s e : string) :
  RequestSpec.plainNumbers accounts ->
  Fidelity.fidelityDate zone start = Return s ->
  Fidelity.fidelityDate zone end_ = Return e ->
  exists (doc : Json.json) (body : string),
    Fidelity.getTransactionsBody zone accounts start end_ = Return doc /\
    body = Json.stringify doc /\
    Mustache.render Templates.getTransactionsOptions
      [("body", Mustache.VStr (Json.stringify (Json.JStr body)))]
      = Json.stringify (RequestSpec.requestOptions body) /\
    Fidelity.getTransactionsOptions zone accounts start end_
      = Return (RequestSpec.requestOptions body) /\
    Json.lookup "body" [("method", Json.JStr "POST"); ("headers", Json.JObj []);
                        ("body", Json.JStr body)] = Some (Json.JStr body) /\
    Json.parse body = Some doc /\
    (let* variables := Json.getProp (Some doc) "variables" in
     Json.getProp variables "acctDetailList")
      = Return (Some (Json.JArr (List.map RequestSpec.acctDetail accounts))) /\
    (let* variables := Json.getProp (Some doc) "variables" in
     let* criteria := Json.getProp variables "searchCriteriaDetail" in
     Json.getProp criteria "txnFromDate") = Return (Some (Json.JStr s)) /\
    (let* variables := Json.getProp (Some doc) "variables" in
     let* criteria := Json.getProp variables "searchCriteriaDetail" in
     Json.getProp criteria "txnToDate") = Return (Some (Json.JStr e)) /\
    (forall (k : nat) (a : Fidelity.Account),
       nth_error accounts k = Some a ->
       nth_error (Fidelity.accountDicts 0 (Z.of_nat (List.length accounts)) accounts) k
       = Some [ ("number", Mustache.VStr (Fidelity.number a));
                ("name", Mustache.VStr (Fidelity.encodeAccountName (Fidelity.name a)));
                ("last", Mustache.VBool (Z.of_nat k =? Z.of_nat (List.length accounts) - 1)) ]).
Proof.
  intros Hp Hs He.
  exists (RequestSpec.requestDocument accounts s e),
         (Json.stringify (RequestSpec.requestDocument accounts s e)).
  split; [now apply RequestFacts.getTransactionsBody_value|].
  split; [reflexivity|].
  split; [apply RequestFacts.render_options|].
  split; [now apply RequestFacts.getTransactionsOptions_value|].
  split; [reflexivity|].
  split; [apply JsonFacts.parse_stringify|].
  split; [reflexivity|]. split; [reflexivity|]. split; [reflexivity|].
  intros k a H. exact (RequestFacts.accountDicts_nth _ accounts 0 k a H).
Qed.

(** The two accounts and the range of the spec's example. *)
Lemma getTransactionsOptions_body_parses_to_document_witness :
  exists (doc : Json.json) (body : string),
    Fidelity.getTransactionsBody Temporal.americaNewYork
      [ {| Fidelity.number := "111"; Fidelity.name := "A" |};
        {| Fidelity.number := "222"; Fidelity.name := "B" |} ]
      (JsDate.DateOf 1704067200000) (JsDate.DateOf 1706659200000) = Return doc /\
    body = Json.stringify doc /\
    Mustache.render Templates.getTransactionsOptions
      [("body", Mustache.VStr (Json.stringify (Json.JStr body)))]
      = Json.stringify (RequestSpec.requestOptions body) /\
    Fidelity.getTransactionsOptions Temporal.americaNewYork
      [ {| Fidelity.number := "111"; Fidelity.name := "A" |};
        {| Fidelity.number := "222"; Fidelity.name := "B" |} ]
      (JsDate.DateOf 1704067200000) (JsDate.DateOf 1706659200000)
      = Return (RequestSpec.requestOptions body) /\
    Json.lookup "body" [("method", Json.JStr "POST"); ("headers", Json.JObj []);
                        ("body", Json.JStr body)] = Some (Json.JStr body) /\
    Json.parse body = Some doc /\
    (let* variables := Json.getProp (Some doc) "variables" in
     Json.getProp variables "acctDetailList")
      = Return (Some (Json.JArr (List.map RequestSpec.acctDetail
          [ {| Fidelity.number := "111"; Fidelity.name := "A" |};
            {| Fidelity.number := "222"; Fidelity.name := "B" |} ]))) /\
    (let* variables := Json.getProp (Some doc) "variables" in
     let* criteria := Json.getProp variables "searchCriteriaDetail" in
     Json.getProp criteria "txnFromDate") = Return (Some (Json.JStr "1704085200")) /\
    (let* variables := Json.getProp (Some doc) "variables" in
     let* criteria := Json.getProp variables "searchCriteriaDetail" in
     Json.getProp criteria "txnToDate") = Return (Some (Json.JStr "1706677200")) /\
    (forall (k : nat) (a : Fidelity.Account),
       nth_error [ {| Fidelity.number := "111"; Fidelity.name := "A" |};
                   {| Fidelity.number := "222"; Fidelity.name := "B" |} ] k = Some a ->
       nth_error (Fidelity.accountDicts 0 (Z.of_nat (List.length
                    [ {| Fidelity.number := "111"; Fidelity.name := "A" |};
                      {| Fidelity.number := "222"; Fidelity.name := "B" |} ]))
                    [ {| Fidelity.number := "111"; Fidelity.name := "A" |};
                      {| Fidelity.number := "222"; Fidelity.name := "B" |} ]) k
       = Some [ ("number", Mustache.VStr (Fidelity.number a));
                ("name", Mustache.VStr (Fidelity.encodeAccountName (Fidelity.name a)));
                ("last", Mustache.VBool (Z.of_nat k =? Z.of_nat (List.length
                    [ {| Fidelity.number := "111"; Fidelity.name := "A" |};
                      {| Fidelity.number := "222"; Fidelity.name := "B" |} ]) - 1)) ]).
Proof.
  apply (getTransactionsOptions_body_parses_to_document Temporal.americaNewYork).
  - repeat constructor.
  - vm_compute. reflexivity.
  - vm_compute. reflexivity.
Defined.

(** C8 as stated fails on an account number that ends in a backslash: the
    rendered text is no JSON, and there are no request options. *)
Lemma getTransactionsOptions_backslash_number :
  let accounts := [ {| Fidelity.number := "1\"; Fidelity.name := "A" |} ] in
  Fidelity.fidelityDate Temporal.americaNewYork (JsDate.DateOf 1704067200000)
    = Return "1704085200" /\
  Fidelity.fidelityDate Temporal.americaNewYork (JsDate.DateOf 1706659200000)
    = Return "1706677200" /\
  Json.parse
    (Mustache.render Templates.getTransactionsBody
       [ ("accounts", Mustache.VList (Fidelity.accountDicts 0 1 accounts));
         ("start", Mustache.VStr "1704085200"); ("end", Mustache.VStr "1706677200") ])
    = None /\
  exists message : string,
    Fidelity.getTransactionsOptions Temporal.americaNewYork accounts
      (JsDate.DateOf 1704067200000) (JsDate.DateOf 1706659200000)
    = Throw (SyntaxError message).
Proof.
  cbv zeta. split; [vm_compute; reflexivity|]. split; [vm_compute; reflexivity|].
  split; [vm_compute; reflexivity|]. eexists. vm_compute. reflexivity.
Qed.

(* ------------------------------------------------------------------------- *)
(** * Properties of the client *)

Module MapFacts.

Import MapSpec.

Section Values.
Context {V : Type} (f : string -> V).

Lemma set_map (id : string) (ks : list string) :
  JsMap.set id (f id) (List.map (fun k => (k, f k)) ks)
  = List.map (fun k => (k, f k))
             (if List.existsb (String.eqb id) ks then ks else List.app ks [id]).
Proof.
  induction ks as [|k ks IH]; [reflexivity|].
  cbn [List.map JsMap.set List.existsb]. destruct (String.eqb id k) eqn:E.
  - apply String.eqb_eq in E. subst k. reflexivity.
  - cbn [orb]. rewrite IH. destruct (List.existsb (String.eqb id) ks); reflexivity.
Qed.

(** A map filled by [set] in a loop holds the distinct keys in the order
    of their first occurrence. *)
Lemma fold_set (ids ks : list string) :
  List.fold_left (fun d id => JsMap.set id (f id) d) ids (List.map (fun k => (k, f k)) ks)
  = List.map (fun k => (k, f k)) (appendNew ks ids).
Proof.
  revert ks. induction ids as [|id ids IH]; intros ks; [reflexivity|].
  cbn [List.fold_left appendNew]. rewrite set_map. apply IH.
Qed.
End Values.

Lemma in_appendNew (x : string) (ids : list string) :
  forall ks, In x (appendNew ks ids) <-> In x ks \/ In x ids.
Proof.
  induction ids as [|id ids IH]; intros ks; cbn [appendNew].
  - cbn. tauto.
  - rewrite IH. destruct (List.existsb (String.eqb id) ks) eqn:E.
    + apply List.existsb_exists in E. destruct E as [y [Hy Hid]].
      apply String.eqb_eq in Hid. subst y. cbn. intuition (subst; auto).
    + rewrite List.in_app_iff. cbn. tauto.
Qed.

Lemma in_firstOccurrences (x : string) (ids : list string) :
  In x (firstOccurrences ids) <-> In x ids.
Proof. unfold firstOccurrences. rewrite in_appendNew. cbn. tauto. Qed.

Lemma NoDup_appendNew (ids : list string) :
  forall ks, NoDup ks -> NoDup (appendNew ks ids).
Proof.
  induction ids as [|id ids IH]; intros ks H; [exact H|].
  cbn [appendNew]. apply IH. destruct (List.existsb (String.eqb id) ks) eqn:E; [exact H|].
  apply NoDup_app; [exact H|repeat constructor; intros []|].
  intros x Hx [Ex|[]]. subst x.
  assert (List.existsb (String.eqb id) ks = true); [|congruence].
  apply List.existsb_exists. exists id. split; [exact Hx|apply String.eqb_refl].
Qed.

Lemma NoDup_firstOccurrences (ids : list string) : NoDup (firstOccurrences ids).
Proof. apply NoDup_appendNew. constructor. Qed.

End MapFacts.

Module FidelityFacts.

Import Json Fidelity MapSpec MapFacts ClientSpec.

(** [checkDate] accepts an exact day. *)
Lemma checkDate_exactDay (d : JsDate.Date) : exactDay d -> checkDate d = "".
Proof.
  intros [n ->]. unfold checkDate, JsDate.msPerDay.
  unfold JsDate.getUTCHours, JsDate.getUTCMinutes, JsDate.getUTCSeconds,
    JsDate.getUTCMilliseconds, JsDate.getter,
    JsDate.HourFromTime, JsDate.MinFromTime, JsDate.SecFromTime, JsDate.msFromTime.
  replace (n * 86400000 / 3600000) with (n * 24)
    by (replace (n * 86400000) with (n * 24 * 3600000) by lia; now rewrite Z.div_mul).
  replace (n * 86400000 / 60000) with (n * 24 * 60)
    by (replace (n * 86400000) with (n * 24 * 60 * 60000) by lia; now rewrite Z.div_mul).
  replace (n * 86400000 / 1000) with (n * 1440 * 60)
    by (replace (n * 86400000) with (n * 1440 * 60 * 1000) by lia; now rewrite Z.div_mul).
  replace (n * 86400000) with (n * 86400 * 1000) by lia.
  rewrite !Z.mod_mul by lia. reflexivity.
Qed.

Section Client.
Variable zone : Temporal.TimeZone.
Variable host : JsDate.Host.
Variable accountsOptions : Json.json.
Variable evaluator : EvaluateFunc.

Local Abbreviation fetch := (Fidelity.fetch evaluator).
Local Abbreviation fetchAccounts := (Fidelity.fetchAccounts accountsOptions evaluator).
Local Abbreviation getAccounts := (Fidelity.getAccounts accountsOptions evaluator).
Local Abbreviation getAccount := (Fidelity.getAccount accountsOptions evaluator).
Local Abbreviation resolveAccounts := (Fidelity.resolveAccounts accountsOptions evaluator).
Local Abbreviation fetchTransactions := (Fidelity.fetchTransactions zone host evaluator).
Local Abbreviation getTransactions := (Fidelity.getTransactions zone host accountsOptions evaluator).
Local Abbreviation accountsRequest := (ClientSpec.accountsRequest accountsOptions).

(** A call of the evaluator is logged, whatever it gives, and leaves the
    cache as it is. *)
Lemma fetch_state (u : string) (o : Json.json) (st : State) :
  snd (fetch u o st)
  = {| accounts := accounts st; calls := List.app (calls st) [{| url := u; options := o |}] |}.
Proof.
  unfold Fidelity.fetch. destruct (evaluator _ _) as [resp|e]; [|reflexivity].
  destruct (negb _); reflexivity.
Qed.

Lemma fetchAccounts_state (st : State) :
  snd (fetchAccounts st)
  = {| accounts := accounts st; calls := List.app (calls st) [accountsRequest] |}.
Proof.
  unfold Fidelity.fetchAccounts, bind, lift.
  pose proof (fetch_state accountsUrl accountsOptions st) as H.
  unfold getAccountsOptions.
  destruct (fetch accountsUrl accountsOptions st) as [[r|e] st']; exact H.
Qed.

Lemma getAccounts_cached (m : JsMap.t Account) (st : State) :
  accounts st = Some m -> getAccounts st = (Return m, st).
Proof. intros H. unfold Fidelity.getAccounts. now rewrite H. Qed.

Lemma getAccounts_uncached (st : State) :
  accounts st = None ->
  getAccounts st =
  match fst (fetchAccounts st) with
  | Return m =>
      (Return m, {| accounts := Some m; calls := List.app (calls st) [accountsRequest] |})
  | Throw e =>
      (Throw e, {| accounts := None; calls := List.app (calls st) [accountsRequest] |})
  end.
Proof.
  intros H. unfold Fidelity.getAccounts. rewrite H.
  pose proof (fetchAccounts_state st) as Hs.
  destruct (fetchAccounts st) as [[m|e] st']; cbn [fst snd] in *; subst st'; cbn [calls].
  - reflexivity.
  - now rewrite H.
Qed.

(** After [getAccounts] has returned a map, the cache holds it, and at
    most the request of the account list was added to the calls. *)
Lemma getAccounts_returns (m : JsMap.t Account) (st st1 : State) :
  getAccounts st = (Return m, st1) ->
  accounts st1 = Some m /\
  (st1 = st \/ (accounts st = None /\ calls st1 = List.app (calls st) [accountsRequest])).
Proof.
  intros H. destruct (accounts st) as [m'|] eqn:E.
  - rewrite (getAccounts_cached m' st E) in H. injection H as <- <-. auto.
  - rewrite (getAccounts_uncached st E) in H.
    destruct (fst (fetchAccounts st)); [|discriminate].
    injection H as <- <-. cbn. auto.
Qed.

(** With the cache filled, the loop of [getTransactions] makes no call:
    it looks every identifier up, and keeps one entry for each distinct
    identifier, in the order of first occurrence. *)
Lemma resolveAccounts_cached (m : JsMap.t Account) (st : State) (ids : list string) :
  accounts st = Some m ->
  forall ks,
  forOf ids (fun acctDict acct => a <- getAccount acct ;; ret (JsMap.set acct a acctDict))
        (List.map (fun k => (k, JsMap.get k m)) ks) st
  = (Return (List.map (fun k => (k, JsMap.get k m)) (appendNew ks ids)), st).
Proof.
  intros H. induction ids as [|id ids IH]; intros ks; [reflexivity|].
  cbn [forOf appendNew]. unfold bind at 1. unfold bind at 1.
  unfold Fidelity.getAccount at 1. unfold bind at 1.
  rewrite (getAccounts_cached m st H). unfold ret at 1 2.
  rewrite (set_map (fun k => JsMap.get k m)). apply IH.
Qed.

Lemma resolveAccounts_cached' (m : JsMap.t Account) (st : State) (ids : list string) :
  accounts st = Some m ->
  resolveAccounts ids st
  = (Return (List.map (fun k => (k, JsMap.get k m)) (firstOccurrences ids)), st).
Proof. intros H. exact (resolveAccounts_cached m st ids H []). Qed.

(** The same when the first look-up fetches the account list. *)
Lemma resolveAccounts_after (m : JsMap.t Account) (st st1 : State) (ids : list string) :
  ids <> [] -> getAccounts st = (Return m, st1) ->
  resolveAccounts ids st
  = (Return (List.map (fun k => (k, JsMap.get k m)) (firstOccurrences ids)), st1).
Proof.
  intros Hne H. destruct ids as [|id ids]; [congruence|].
  destruct (getAccounts_returns m st st1 H) as [H1 _].
  unfold Fidelity.resolveAccounts, firstOccurrences.
  cbn [forOf appendNew List.existsb]. unfold bind at 1. unfold bind at 1.
  unfold Fidelity.getAccount at 1. unfold bind at 1.
  rewrite H. unfold ret at 1 2.
  exact (resolveAccounts_cached m st1 ids H1 [id]).
Qed.

(** A loop that fails has failed in [getAccounts], on an unset cache, and
    the cache is unset afterwards. *)
Lemma resolveAccounts_throws (st st1 : State) (ids : list string) (e : JsError) :
  resolveAccounts ids st = (Throw e, st1) ->
  accounts st = None /\ getAccounts st = (Throw e, st1) /\ accounts st1 = None.
Proof.
  intros H. destruct (accounts st) as [m|] eqn:E.
  - rewrite (resolveAccounts_cached' m st ids E) in H. discriminate.
  - split; [reflexivity|]. destruct ids as [|id ids]; [discriminate|].
    unfold Fidelity.resolveAccounts in H. cbn [forOf] in H.
    unfold bind at 1 in H. unfold bind at 1 in H.
    unfold Fidelity.getAccount at 1 in H. unfold bind at 1 in H.
    destruct (getAccounts st) as [[m|e'] st'] eqn:G.
    + exfalso. destruct (getAccounts_returns m st st' G) as [H1 _].
      unfold ret at 1 2 in H. cbn [JsMap.set JsMap.empty] in H.
      pose proof (resolveAccounts_cached m st' ids H1 [id]) as R.
      cbn [List.map] in R. rewrite R in H. discriminate.
    + injection H as <- <-. split; [reflexivity|].
      rewrite (getAccounts_uncached st E) in G.
      destruct (fst (fetchAccounts st)); [discriminate|]. now injection G as _ <-.
Qed.

Lemma missingAccounts_map (m : JsMap.t Account) (ks : list string) :
  missingAccounts (List.map (fun k => (k, JsMap.get k m)) ks)
  = List.filter (fun k => match JsMap.get k m with None => true | Some _ => false end) ks.
Proof.
  unfold missingAccounts, JsMap.entries.
  induction ks as [|k ks IH]; [reflexivity|].
  cbn [List.map List.filter snd fst]. destruct (JsMap.get k m); cbn [List.map fst]; now rewrite IH.
Qed.

Lemma presentAccounts_map (m : JsMap.t Account) (ks : list string) :
  presentAccounts (List.map (fun k => (k, JsMap.get k m)) ks)
  = List.flat_map (fun k => match JsMap.get k m with Some a => [a] | None => [] end) ks.
Proof.
  unfold presentAccounts, JsMap.values.
  induction ks as [|k ks IH]; [reflexivity|].
  cbn [List.map List.flat_map snd]. now rewrite IH.
Qed.

(** [getTransactions] on dates that [checkDate] accepts. *)
Lemma getTransactions_valid (ids : list string) (start end_ : JsDate.Date) (st : State) :
  checkDate start = "" -> checkDate end_ = "" ->
  getTransactions ids start end_ st
  = (acctDict <- resolveAccounts ids ;;
     if (0 <? List.length (missingAccounts acctDict))%nat then
       throw (FidelityError
                ("Account(s) not found: " ++ JsString.join ", " (missingAccounts acctDict)))
     else fetchTransactions (presentAccounts acctDict) start end_) st.
Proof.
  intros Hs He. unfold Fidelity.getTransactions. rewrite Hs, He. reflexivity.
Qed.

(** What [fetchTransactions] leaves: the cache as it was, and one call
    more if the request could be built. *)
Lemma fetchTransactions_state (accts : list Account) (start end_ : JsDate.Date) (st : State) :
  snd (fetchTransactions accts start end_ st)
  = match getTransactionsOptions zone accts start end_ with
    | Return o =>
        {| accounts := accounts st;
           calls := List.app (calls st) [{| url := transactionsUrl; options := o |}] |}
    | Throw _ => st
    end.
Proof.
  unfold Fidelity.fetchTransactions, bind, lift.
  destruct (getTransactionsOptions zone accts start end_) as [o|e]; [|reflexivity].
  pose proof (fetch_state transactionsUrl o st) as H.
  destruct (fetch transactionsUrl o st) as [[r|e] st']; exact H.
Qed.

End Client.

End FidelityFacts.

Module ClientFacts.

Import Json Fidelity MapSpec MapFacts ClientSpec FidelityFacts RequestSpec RenderFacts.

Section Client.
Variable zone : Temporal.TimeZone.
Variable host : JsDate.Host.
Variable accountsOptions : Json.json.
Variable evaluator : EvaluateFunc.

Local Abbreviation getAccounts := (Fidelity.getAccounts accountsOptions evaluator).
Local Abbreviation resolveAccounts := (Fidelity.resolveAccounts accountsOptions evaluator).
Local Abbreviation fetchTransactions := (Fidelity.fetchTransactions zone host evaluator).
Local Abbreviation getTransactions := (Fidelity.getTransactions zone host accountsOptions evaluator).

(** [getTransactions] once the identifiers are looked up in the account
    map [m]: it fails on the absent ones, or goes on with the accounts of
    the distinct identifiers. *)
Lemma getTransactions_resolved
  (ids : list string) (start end_ : JsDate.Date) (st st1 : State) (m : JsMap.t Account) :
  exactDay start -> exactDay end_ ->
  resolveAccounts ids st
    = (Return (List.map (fun k => (k, JsMap.get k m)) (firstOccurrences ids)), st1) ->
  getTransactions ids start end_ st =
  match List.filter (absent m) (firstOccurrences ids) with
  | [] => fetchTransactions (found m (firstOccurrences ids)) start end_ st1
  | missing =>
      (Throw (FidelityError ("Account(s) not found: " ++ JsString.join ", " missing)), st1)
  end.
Proof.
  intros Hs He Hr.
  rewrite (getTransactions_valid zone host accountsOptions evaluator ids start end_ st
             (checkDate_exactDay _ Hs) (checkDate_exactDay _ He)).
  unfold bind at 1. rewrite Hr.
  rewrite missingAccounts_map, presentAccounts_map.
  fold (absent m). fold (found m (firstOccurrences ids)).
  destruct (List.filter (absent m) (firstOccurrences ids)); reflexivity.
Qed.

(** Without identifiers nothing is looked up. *)
Lemma getTransactions_empty (start end_ : JsDate.Date) (st : State) :
  exactDay start -> exactDay end_ ->
  getTransactions [] start end_ st = fetchTransactions [] start end_ st.
Proof.
  intros Hs He.
  exact (getTransactions_resolved [] start end_ st st [] Hs He eq_refl).
Qed.

Lemma filter_absent_nil (m : JsMap.t Account) (ids : list string) :
  (forall id, In id ids -> JsMap.get id m <> None) ->
  List.filter (absent m) ids = [].
Proof.
  intros H. induction ids as [|id ids IH]; [reflexivity|].
  cbn [List.filter]. unfold absent at 1.
  destruct (JsMap.get id m) eqn:E.
  - apply IH. intros x Hx. apply H. now right.
  - exfalso. apply (H id); [now left|exact E].
Qed.

Lemma found_Forall2 (m : JsMap.t Account) (ids : list string) :
  (forall id, In id ids -> JsMap.get id m <> None) ->
  Forall2 (fun id a => JsMap.get id m = Some a) ids (found m ids).
Proof.
  intros H. induction ids as [|id ids IH]; [constructor|].
  unfold found. cbn [List.flat_map].
  destruct (JsMap.get id m) as [a|] eqn:E.
  - cbn [List.app]. constructor; [exact E|]. apply IH. intros x Hx. apply H. now right.
  - exfalso. apply (H id); [now left|exact E].
Qed.

End Client.

Lemma toLowerCase_ok (s : string) :
  String.eqb (JsString.toLowerCase s) "ok" = caseInsensitiveOk s.
Proof.
  assert (Ho : forall c, Ascii.eqb (JsString.lowerChar c) "o"
                         = (Ascii.eqb c "o" || Ascii.eqb c "O")%bool)
    by (intros c; destruct c as [[] [] [] [] [] [] [] []]; reflexivity).
  assert (Hk : forall c, Ascii.eqb (JsString.lowerChar c) "k"
                         = (Ascii.eqb c "k" || Ascii.eqb c "K")%bool)
    by (intros c; destruct c as [[] [] [] [] [] [] [] []]; reflexivity).
  destruct s as [|a [|b [|c r]]]; unfold JsString.toLowerCase;
    cbn [JsString.map String.eqb caseInsensitiveOk]; try reflexivity.
  - now destruct (Ascii.eqb (JsString.lowerChar a) "o").
  - rewrite Ho, Hk. now destruct (_ || _)%bool, (_ || _)%bool.
  - rewrite Ho, Hk. destruct (_ || _)%bool; [|reflexivity].
    destruct (_ || _)%bool; reflexivity.
Qed.

End ClientFacts.

(** C1 at identifiers 1234, start = 2025-12-02, end = 2025-11-28, with
    the mock evaluator.  The dates are exact days and [start > end]:
    [getTransactions] raises no validation error; it fetches the account
    list, sends the transaction request from 1764651600 to 1764306000, and
    returns the transactions of the response.  The other copy of the client
    rejects the same dates in [checkStartEnd]. *)
Theorem getTransactions_start_after_end :
  FidelityVariant.dateGt Mock.dec02 Mock.nov28 = true /\
  Fidelity.checkDate Mock.dec02 = "" /\ Fidelity.checkDate Mock.nov28 = "" /\
  (exists transactions : list Fidelity.Transaction,
     Fidelity.getTransactions Temporal.americaNewYork Mock.host Json.JNull (Mock.evaluator "ok")
       ["1234"] Mock.dec02 Mock.nov28 Fidelity.newInstance
     = (Return transactions,
        {| Fidelity.accounts := Some Mock.accountMap;
           Fidelity.calls :=
             [ {| Fidelity.url := Fidelity.accountsUrl; Fidelity.options := Json.JNull |};
               {| Fidelity.url := Fidelity.transactionsUrl;
                  Fidelity.options :=
                    RequestSpec.requestOptions
                      (Json.stringify
                         (RequestSpec.requestDocument [Mock.brokerage]
                            "1764651600" "1764306000")) |} ] |})) /\
  FidelityVariant.checkStartEnd Mock.dec02 Mock.nov28 = Some "Invalid date(s): start > end".
Proof.
  split; [reflexivity|]. split; [reflexivity|]. split; [reflexivity|]. split; [|reflexivity].
  eexists. vm_compute. reflexivity.
Qed.

(** C2 as stated fails on the identifiers 1234, 1234: the request is built
    from one account entry, not from one per occurrence. *)
Lemma getTransactions_duplicate_identifiers :
  let st := {| Fidelity.accounts := Some Mock.accountMap; Fidelity.calls := [] |} in
  fst (Fidelity.resolveAccounts Json.JNull Mock.offline ["1234"; "1234"] st)
    = Return [("1234", Some Mock.brokerage)] /\
  Fidelity.calls
    (snd (Fidelity.getTransactions Temporal.americaNewYork Mock.host Json.JNull Mock.offline
            ["1234"; "1234"] Mock.nov28 Mock.dec02 st))
  = [ {| Fidelity.url := Fidelity.transactionsUrl;
         Fidelity.options :=
           RequestSpec.requestOptions
             (Json.stringify
                (RequestSpec.requestDocument [Mock.brokerage] "1764306000" "1764651600")) |} ].
Proof. vm_compute. split; reflexivity. Qed.

(** C2 (amended).  When every identifier resolves, [getTransactions]
    builds the transaction request from one account entry per distinct
    identifier, in the order in which the identifiers first occur. *)
Theorem getTransactions_one_account_per_distinct_identifier
  (zone : Temporal.TimeZone) (host : JsDate.Host) (accountsOptions : Json.json)
  (evaluator : Fidelity.EvaluateFunc)
  (ids : list string) (start end_ : JsDate.Date) (st st1 : Fidelity.State)
  (m : JsMap.t Fidelity.Account) :
  ClientSpec.exactDay start -> ClientSpec.exactDay end_ ->
  ids <> [] ->
  Fidelity.getAccounts accountsOptions evaluator st = (Return m, st1) ->
  (forall id, In id ids -> JsMap.get id m <> None) ->
  exists accts : list Fidelity.Account,
    Forall2 (fun id a => JsMap.get id m = Some a) (MapSpec.firstOccurrences ids) accts /\
    NoDup (MapSpec.firstOccurrences ids) /\
    (forall id, In id (MapSpec.firstOccurrences ids) <-> In id ids) /\
    fst (Fidelity.resolveAccounts accountsOptions evaluator ids st)
      = Return (List.combine (MapSpec.firstOccurrences ids) (List.map Some accts)) /\
    Fidelity.getTransactions zone host accountsOptions evaluator ids start end_ st
      = Fidelity.fetchTransactions zone host evaluator accts start end_ st1.
Proof.
  intros Hs He Hne Hg Hall.
  pose proof (FidelityFacts.resolveAccounts_after accountsOptions evaluator m st st1 ids Hne Hg)
    as Hr.
  assert (Hall' : forall id, In id (MapSpec.firstOccurrences ids) -> JsMap.get id m <> None).
  { intros id Hid. apply Hall. now apply MapFacts.in_firstOccurrences. }
  exists (ClientSpec.found m (MapSpec.firstOccurrences ids)).
  split; [exact (ClientFacts.found_Forall2 m _ Hall')|].
  split; [apply MapFacts.NoDup_firstOccurrences|].
  split; [intros id; apply MapFacts.in_firstOccurrences|]. split.
  - rewrite Hr. cbn [fst]. f_equal.
    generalize (MapSpec.firstOccurrences ids) Hall'. clear.
    induction l as [|k l IH]; intros H; [reflexivity|].
    unfold ClientSpec.found. cbn [List.map List.flat_map].
    destruct (JsMap.get k m) as [a|] eqn:E.
    + cbn [List.app List.map List.combine]. f_equal. apply IH.
      intros x Hx. apply H. now right.
    + exfalso. apply (H k); [now left|exact E].
  - rewrite (ClientFacts.getTransactions_resolved zone host accountsOptions evaluator
               ids start end_ st st1 m Hs He Hr).
    now rewrite (ClientFacts.filter_absent_nil m _ Hall').
Qed.

(** Identifiers 5678, 1234, 5678 on a new instance, with the mock
    evaluator. *)
Lemma getTransactions_one_account_per_distinct_identifier_witness :
  exists accts : list Fidelity.Account,
    Forall2 (fun id a => JsMap.get id Mock.accountMap = Some a)
            (MapSpec.firstOccurrences ["5678"; "1234"; "5678"]) accts /\
    NoDup (MapSpec.firstOccurrences ["5678"; "1234"; "5678"]) /\
    (forall id, In id (MapSpec.firstOccurrences ["5678"; "1234"; "5678"])
                <-> In id ["5678"; "1234"; "5678"]) /\
    fst (Fidelity.resolveAccounts Json.JNull (Mock.evaluator "ok") ["5678"; "1234"; "5678"]
           Fidelity.newInstance)
      = Return (List.combine (MapSpec.firstOccurrences ["5678"; "1234"; "5678"])
                             (List.map Some accts)) /\
    Fidelity.getTransactions Temporal.americaNewYork Mock.host Json.JNull (Mock.evaluator "ok")
      ["5678"; "1234"; "5678"] Mock.nov28 Mock.dec02 Fidelity.newInstance
      = Fidelity.fetchTransactions Temporal.americaNewYork Mock.host (Mock.evaluator "ok")
          accts Mock.nov28 Mock.dec02
          {| Fidelity.accounts := Some Mock.accountMap;
             Fidelity.calls :=
               [ {| Fidelity.url := Fidelity.accountsUrl; Fidelity.options := Json.JNull |} ] |}.
Proof.
  apply (getTransactions_one_account_per_distinct_identifier
           Temporal.americaNewYork Mock.host Json.JNull (Mock.evaluator "ok")
           ["5678"; "1234"; "5678"] Mock.nov28 Mock.dec02 Fidelity.newInstance).
  - exists 20420. reflexivity.
  - exists 20424. reflexivity.
  - discriminate.
  - vm_compute. reflexivity.
  - intros id [<-|[<-|[<-|[]]]]; vm_compute; discriminate.
Defined.

(** C5.  On exact days, when the account list resolves to [m] and an
    identifier is absent from it, [getTransactions] fails with the error
    that names the absent identifiers, each once, in the order of first
    occurrence and joined by a comma and a space; the state is the one
    [getAccounts] left, so that at most the account list was fetched and
    the transactions were not. *)
Theorem getTransactions_accounts_not_found
  (zone : Temporal.TimeZone) (host : JsDate.Host) (accountsOptions : Json.json)
  (evaluator : Fidelity.EvaluateFunc)
  (ids : list string) (start end_ : JsDate.Date) (st st1 : Fidelity.State)
  (m : JsMap.t Fidelity.Account) :
  ClientSpec.exactDay start -> ClientSpec.exactDay end_ ->
  Fidelity.getAccounts accountsOptions evaluator st = (Return m, st1) ->
  (exists id, In id ids /\ JsMap.get id m = None) ->
  exists missing : list string,
    (forall id, In id missing <-> In id ids /\ JsMap.get id m = None) /\
    NoDup missing /\
    missing = List.filter (ClientSpec.absent m) (MapSpec.firstOccurrences ids) /\
    Fidelity.getTransactions zone host accountsOptions evaluator ids start end_ st
      = (Throw (FidelityError ("Account(s) not found: " ++ JsString.join ", " missing)), st1) /\
    (Fidelity.calls st1 = Fidelity.calls st \/
     Fidelity.calls st1
       = List.app (Fidelity.calls st)
           [ {| Fidelity.url := Fidelity.accountsUrl; Fidelity.options := accountsOptions |} ]).
Proof.
  intros Hs He Hg [x [Hx Hxm]].
  assert (Hne : ids <> []) by (intros ->; destruct Hx).
  pose proof (FidelityFacts.resolveAccounts_after accountsOptions evaluator m st st1 ids Hne Hg)
    as Hr.
  exists (List.filter (ClientSpec.absent m) (MapSpec.firstOccurrences ids)).
  assert (Hin : forall id, In id (List.filter (ClientSpec.absent m) (MapSpec.firstOccurrences ids))
                           <-> In id ids /\ JsMap.get id m = None).
  { intros id. rewrite List.filter_In, MapFacts.in_firstOccurrences.
    unfold ClientSpec.absent. destruct (JsMap.get id m); intuition congruence. }
  split; [exact Hin|].
  split; [apply List.NoDup_filter, MapFacts.NoDup_firstOccurrences|].
  split; [reflexivity|]. split.
  - rewrite (ClientFacts.getTransactions_resolved zone host accountsOptions evaluator
               ids start end_ st st1 m Hs He Hr).
    destruct (List.filter (ClientSpec.absent m) (MapSpec.firstOccurrences ids)) eqn:E.
    + exfalso. apply (proj2 (Hin x)). now split.
    + reflexivity.
  - destruct (FidelityFacts.getAccounts_returns accountsOptions evaluator m st st1 Hg)
      as [_ [->|[_ H]]]; [now left|now right].
Qed.

(** Identifiers 1234, x, y, x on a new instance, with the mock evaluator:
    x and y are not found. *)
Lemma getTransactions_accounts_not_found_witness :
  exists missing : list string,
    (forall id, In id missing <->
                In id ["1234"; "x"; "y"; "x"] /\ JsMap.get id Mock.accountMap = None) /\
    NoDup missing /\
    missing = List.filter (ClientSpec.absent Mock.accountMap)
                          (MapSpec.firstOccurrences ["1234"; "x"; "y"; "x"]) /\
    Fidelity.getTransactions Temporal.americaNewYork Mock.host Json.JNull (Mock.evaluator "ok")
      ["1234"; "x"; "y"; "x"] Mock.nov28 Mock.dec02 Fidelity.newInstance
      = (Throw (FidelityError ("Account(s) not found: " ++ JsString.join ", " missing)),
         {| Fidelity.accounts := Some Mock.accountMap;
            Fidelity.calls :=
              [ {| Fidelity.url := Fidelity.accountsUrl; Fidelity.options := Json.JNull |} ] |}) /\
    (Fidelity.calls
       {| Fidelity.accounts := Some Mock.accountMap;
          Fidelity.calls :=
            [ {| Fidelity.url := Fidelity.accountsUrl; Fidelity.options := Json.JNull |} ] |}
     = Fidelity.calls Fidelity.newInstance \/
     Fidelity.calls
       {| Fidelity.accounts := Some Mock.accountMap;
          Fidelity.calls :=
            [ {| Fidelity.url := Fidelity.accountsUrl; Fidelity.options := Json.JNull |} ] |}
     = List.app (Fidelity.calls Fidelity.newInstance)
         [ {| Fidelity.url := Fidelity.accountsUrl; Fidelity.options := Json.JNull |} ]).
Proof.
  apply (getTransactions_accounts_not_found
           Temporal.americaNewYork Mock.host Json.JNull (Mock.evaluator "ok")
           ["1234"; "x"; "y"; "x"] Mock.nov28 Mock.dec02 Fidelity.newInstance).
  - exists 20420. reflexivity.
  - exists 20424. reflexivity.
  - vm_compute. reflexivity.
  - exists "x". split; [right; left; reflexivity|reflexivity].
Defined.

(** C6.  With the cache set, [getAccounts] returns it and calls nothing,
    and so do the look-ups of any identifiers; [getTransactions] then
    leaves the cache as it is and adds at most the transaction request.
    With the cache unset, [getAccounts] makes one call, the request of the
    account list: if it returns a map the cache holds that map, the next
    [getAccounts] returns it without a call, and the look-ups of any
    identifiers from the unset cache make that one call and no other; if
    it fails the cache is still unset and the next [getAccounts] makes the
    call again. *)
Theorem getAccounts_fetches_once
  (zone : Temporal.TimeZone) (host : JsDate.Host) (accountsOptions : Json.json)
  (evaluator : Fidelity.EvaluateFunc) (st : Fidelity.State) :
  let request :=
    {| Fidelity.url := Fidelity.accountsUrl; Fidelity.options := accountsOptions |} in
  match Fidelity.accounts st with
  | Some m =>
      Fidelity.getAccounts accountsOptions evaluator st = (Return m, st) /\
      (forall ids,
         Fidelity.resolveAccounts accountsOptions evaluator ids st
         = (Return (List.map (fun id => (id, JsMap.get id m)) (MapSpec.firstOccurrences ids)),
            st)) /\
      (forall ids start end_,
         let st' := snd (Fidelity.getTransactions zone host accountsOptions evaluator
                           ids start end_ st) in
         Fidelity.accounts st' = Some m /\
         (Fidelity.calls st' = Fidelity.calls st \/
          exists o, Fidelity.calls st'
                    = List.app (Fidelity.calls st)
                        [ {| Fidelity.url := Fidelity.transactionsUrl;
                             Fidelity.options := o |} ]))
  | None =>
      let st' := snd (Fidelity.getAccounts accountsOptions evaluator st) in
      Fidelity.calls st' = List.app (Fidelity.calls st) [request] /\
      match fst (Fidelity.getAccounts accountsOptions evaluator st) with
      | Return m =>
          Fidelity.accounts st' = Some m /\
          Fidelity.getAccounts accountsOptions evaluator st' = (Return m, st') /\
          (forall ids, ids <> [] ->
             Fidelity.resolveAccounts accountsOptions evaluator ids st
             = (Return (List.map (fun id => (id, JsMap.get id m))
                                 (MapSpec.firstOccurrences ids)),
                st'))
      | Throw _ =>
          Fidelity.accounts st' = None /\
          Fidelity.calls (snd (Fidelity.getAccounts accountsOptions evaluator st'))
          = List.app (Fidelity.calls st') [request]
      end
  end.
Proof.
  cbv zeta. destruct (Fidelity.accounts st) as [m|] eqn:E.
  - split; [now apply FidelityFacts.getAccounts_cached|].
    split; [intros ids; now apply FidelityFacts.resolveAccounts_cached'|].
    intros ids start end_. cbv zeta. unfold Fidelity.getTransactions. cbv zeta.
    destruct (0 <? String.length _)%nat.
    + unfold Fidelity.throw; cbn [snd]. split; [exact E|left; reflexivity].
    + unfold Fidelity.bind.
      rewrite (FidelityFacts.resolveAccounts_cached' accountsOptions evaluator m st ids E).
      destruct (0 <? List.length _)%nat.
      * unfold Fidelity.throw; cbn [snd]. split; [exact E|left; reflexivity].
      * rewrite FidelityFacts.fetchTransactions_state.
        destruct (Fidelity.getTransactionsOptions _ _ _ _) as [o|e];
          cbn [Fidelity.accounts Fidelity.calls].
        -- split; [exact E|]. right. exists o. reflexivity.
        -- split; [exact E|left; reflexivity].
  - pose proof (FidelityFacts.resolveAccounts_after accountsOptions evaluator) as Hr.
    specialize (fun m st1 ids H G => Hr m st st1 ids H G).
    rewrite (FidelityFacts.getAccounts_uncached accountsOptions evaluator st E) in Hr |- *.
    destruct (fst (Fidelity.fetchAccounts accountsOptions evaluator st)) as [m|e];
      cbn [fst snd Fidelity.accounts Fidelity.calls].
    + split; [reflexivity|]. split; [reflexivity|].
      split; [now apply FidelityFacts.getAccounts_cached|].
      intros ids Hne. now apply Hr.
    + split; [reflexivity|]. split; [reflexivity|].
      rewrite FidelityFacts.getAccounts_uncached by reflexivity.
      destruct (fst (Fidelity.fetchAccounts _ _ _)); reflexivity.
Qed.

Module StatusFacts.

Import Json Fidelity.

(** [fetchAccounts] on a response with status 200. *)
Lemma fetchAccounts_200
  (accountsOptions : Json.json) (evaluator : EvaluateFunc) (st : State) (resp : FetchResp) :
  evaluator (calls st) {| url := accountsUrl; options := accountsOptions |} = Return resp ->
  status resp = 200 ->
  fst (fetchAccounts accountsOptions evaluator st)
  = parseGuard "get_accounts" (readAccounts (json resp)).
Proof.
  intros He Hs. unfold fetchAccounts, bind, lift, fetch, getAccountsOptions.
  rewrite He, Hs. reflexivity.
Qed.

End StatusFacts.

(** C9.  On a new fetch of the account list whose response has the status
    string [status]: if [status] is not ok in any letter case,
    [getAccounts] fails with a FidelityError whose message ends in
    [Fidelity backend not ok] and the status, and the cache stays unset; if
    it is, the outcome is that of reading the accounts, and no such error. *)
Theorem getAccounts_backend_status
  (accountsOptions : Json.json) (evaluator : Fidelity.EvaluateFunc) (st : Fidelity.State)
  (resp : Fidelity.FetchResp) (context : option Json.json) (status : string) :
  Fidelity.accounts st = None ->
  evaluator (Fidelity.calls st)
    {| Fidelity.url := Fidelity.accountsUrl; Fidelity.options := accountsOptions |}
    = Return resp ->
  Fidelity.status resp = 200 ->
  Fidelity.contextOf (Fidelity.json resp) = Return context ->
  Fidelity.statusOf context = Return status ->
  let st' :=
    {| Fidelity.accounts := None;
       Fidelity.calls :=
         List.app (Fidelity.calls st)
           [ {| Fidelity.url := Fidelity.accountsUrl; Fidelity.options := accountsOptions |} ] |} in
  String.eqb (JsString.toLowerCase status) "ok" = ClientSpec.caseInsensitiveOk status /\
  if ClientSpec.caseInsensitiveOk status then
    Fidelity.getAccounts accountsOptions evaluator st
    = match Fidelity.parseGuard "get_accounts" (Fidelity.accountMapOf context) with
      | Return m =>
          (Return m, {| Fidelity.accounts := Some m; Fidelity.calls := Fidelity.calls st' |})
      | Throw e => (Throw e, st')
      end
  else
    Fidelity.getAccounts accountsOptions evaluator st
    = (Throw (FidelityError
                ("Failed to parse get_accounts response: Fidelity backend not ok " ++ status)),
       st').
Proof.
  intros Hc He Hs Hx Hst. cbv zeta.
  split; [apply ClientFacts.toLowerCase_ok|].
  rewrite (FidelityFacts.getAccounts_uncached accountsOptions evaluator st Hc).
  rewrite (StatusFacts.fetchAccounts_200 accountsOptions evaluator st resp He Hs).
  unfold Fidelity.readAccounts. rewrite Hx. cbn [bindC]. rewrite Hst. cbn [bindC].
  rewrite ClientFacts.toLowerCase_ok.
  destruct (ClientSpec.caseInsensitiveOk status); cbn [negb].
  - unfold ClientSpec.accountsRequest.
    destruct (Fidelity.parseGuard "get_accounts" (Fidelity.accountMapOf context)); reflexivity.
  - reflexivity.
Qed.

(** The mock evaluator reporting the status [Down]. *)
Lemma getAccounts_backend_status_witness :
  let st' :=
    {| Fidelity.accounts := None;
       Fidelity.calls :=
         List.app (Fidelity.calls Fidelity.newInstance)
           [ {| Fidelity.url := Fidelity.accountsUrl; Fidelity.options := Json.JNull |} ] |} in
  String.eqb (JsString.toLowerCase "Down") "ok" = ClientSpec.caseInsensitiveOk "Down" /\
  if ClientSpec.caseInsensitiveOk "Down" then
    Fidelity.getAccounts Json.JNull (Mock.evaluator "Down") Fidelity.newInstance
    = match Fidelity.parseGuard "get_accounts"
              (Fidelity.accountMapOf
                 (Json.lookup "getContext"
                    [("getContext", Json.JObj
                        [ ("sysStatus", Json.JObj [("backend", Json.JObj [("account", Json.JStr "Down")])]);
                          ("person", Json.JObj [("assets", Json.JArr
                             [ Mock.asset "1234" "Brokerage"; Mock.asset "5678" "IRA" ])]) ])])) with
      | Return m =>
          (Return m, {| Fidelity.accounts := Some m; Fidelity.calls := Fidelity.calls st' |})
      | Throw e => (Throw e, st')
      end
  else
    Fidelity.getAccounts Json.JNull (Mock.evaluator "Down") Fidelity.newInstance
    = (Throw (FidelityError
                ("Failed to parse get_accounts response: Fidelity backend not ok " ++ "Down")),
       st').
Proof.
  apply (getAccounts_backend_status Json.JNull (Mock.evaluator "Down") Fidelity.newInstance
           {| Fidelity.status := 200; Fidelity.text := None;
              Fidelity.json := Some (Mock.accountsResponse "Down") |}).
  - reflexivity.
  - reflexivity.
  - reflexivity.
  - reflexivity.
  - reflexivity.
Defined.

(** C10.  Without identifiers, on exact days that [fidelityDate] encodes
    as [s] and [e]: [getTransactions] is the fetch of the transactions of
    no account, so that no error of accounts not found is raised; the
    cache is left as it was, and the one call added is the transaction
    request, whose [acctDetailList] is empty. *)
Theorem getTransactions_no_identifiers
  (zone : Temporal.TimeZone) (host : JsDate.Host) (accountsOptions : Json.json)
  (evaluator : Fidelity.EvaluateFunc)
  (start end_ : JsDate.Date) (s e : string) (st : Fidelity.State) :
  ClientSpec.exactDay start -> ClientSpec.exactDay end_ ->
  Fidelity.fidelityDate zone start = Return s ->
  Fidelity.fidelityDate zone end_ = Return e ->
  let doc := RequestSpec.requestDocument [] s e in
  let request :=
    {| Fidelity.url := Fidelity.transactionsUrl;
       Fidelity.options := RequestSpec.requestOptions (Json.stringify doc) |} in
  Fidelity.resolveAccounts accountsOptions evaluator [] st = (Return [], st) /\
  Fidelity.missingAccounts [] = [] /\
  Fidelity.getTransactions zone host accountsOptions evaluator [] start end_ st
    = Fidelity.fetchTransactions zone host evaluator [] start end_ st /\
  snd (Fidelity.getTransactions zone host accountsOptions evaluator [] start end_ st)
    = {| Fidelity.accounts := Fidelity.accounts st;
         Fidelity.calls := List.app (Fidelity.calls st) [request] |} /\
  fst (Fidelity.getTransactions zone host accountsOptions evaluator [] start end_ st)
    = match evaluator (Fidelity.calls st) request with
      | Return resp =>
          if Fidelity.status resp =? 200 then
            Fidelity.parseGuard "get_transactions"
              (Fidelity.readTransactions host (Fidelity.json resp))
          else
            Throw (FidelityError
                     ("get_transactions fetch failed, code: "
                      ++ JsString.ofZ (Fidelity.status resp) ++ ", text: "
                      ++ match Fidelity.text resp with Some t => t | None => "undefined" end))
      | Throw err => Throw err
      end /\
  Json.parse (Json.stringify doc) = Some doc /\
  (let* variables := Json.getProp (Some doc) "variables" in
   Json.getProp variables "acctDetailList") = Return (Some (Json.JArr [])).
Proof.
  intros Hs He Es Ee. cbv zeta.
  pose proof (RequestFacts.getTransactionsOptions_value zone [] start end_ s e
                (Forall_nil _) Es Ee) as Ho.
  split; [reflexivity|]. split; [reflexivity|].
  split; [now apply ClientFacts.getTransactions_empty|].
  rewrite (ClientFacts.getTransactions_empty zone host accountsOptions evaluator
             start end_ st Hs He).
  split; [rewrite FidelityFacts.fetchTransactions_state, Ho; reflexivity|].
  split.
  - unfold Fidelity.fetchTransactions, Fidelity.bind, Fidelity.lift. rewrite Ho.
    unfold Fidelity.fetch.
    destruct (evaluator _ _) as [resp|err]; [|reflexivity].
    destruct (Fidelity.status resp =? 200); reflexivity.
  - split; [apply JsonFacts.parse_stringify|reflexivity].
Qed.

(** A new instance and the mock evaluator, 2025-11-28 to 2025-12-02. *)
Lemma getTransactions_no_identifiers_witness :
  let doc := RequestSpec.requestDocument [] "1764306000" "1764651600" in
  let request :=
    {| Fidelity.url := Fidelity.transactionsUrl;
       Fidelity.options := RequestSpec.requestOptions (Json.stringify doc) |} in
  Fidelity.resolveAccounts Json.JNull (Mock.evaluator "ok") [] Fidelity.newInstance
    = (Return [], Fidelity.newInstance) /\
  Fidelity.missingAccounts [] = [] /\
  Fidelity.getTransactions Temporal.americaNewYork Mock.host Json.JNull (Mock.evaluator "ok")
      [] Mock.nov28 Mock.dec02 Fidelity.newInstance
    = Fidelity.fetchTransactions Temporal.americaNewYork Mock.host (Mock.evaluator "ok")
        [] Mock.nov28 Mock.dec02 Fidelity.newInstance /\
  snd (Fidelity.getTransactions Temporal.americaNewYork Mock.host Json.JNull (Mock.evaluator "ok")
         [] Mock.nov28 Mock.dec02 Fidelity.newInstance)
    = {| Fidelity.accounts := Fidelity.accounts Fidelity.newInstance;
         Fidelity.calls := List.app (Fidelity.calls Fidelity.newInstance) [request] |} /\
  fst (Fidelity.getTransactions Temporal.americaNewYork Mock.host Json.JNull (Mock.evaluator "ok")
         [] Mock.nov28 Mock.dec02 Fidelity.newInstance)
    = match Mock.evaluator "ok" (Fidelity.calls Fidelity.newInstance) request with
      | Return resp =>
          if Fidelity.status resp =? 200 then
            Fidelity.parseGuard "get_transactions"
              (Fidelity.readTransactions Mock.host (Fidelity.json resp))
          else
            Throw (FidelityError
                     ("get_transactions fetch failed, code: "
                      ++ JsString.ofZ (Fidelity.status resp) ++ ", text: "
                      ++ match Fidelity.text resp with Some t => t | None => "undefined" end))
      | Throw err => Throw err
      end /\
  Json.parse (Json.stringify doc) = Some doc /\
  (let* variables := Json.getProp (Some doc) "variables" in
   Json.getProp variables "acctDetailList") = Return (Some (Json.JArr [])).
Proof.
  apply (getTransactions_no_identifiers Temporal.americaNewYork Mock.host Json.JNull
           (Mock.evaluator "ok") Mock.nov28 Mock.dec02 "1764306000" "1764651600"
           Fidelity.newInstance).
  - exists 20420. reflexivity.
  - exists 20424. reflexivity.
  - vm_compute. reflexivity.
  - vm_compute. reflexivity.
Defined.

(* ------------------------------------------------------------------------- *)
(** ** A history entry as a transaction *)

Module StringFacts.

Import JsString.


Lemma forallb_list (p : ascii -> bool) (s : string) :
  forallb p s = List.forallb p (list_ascii_of_string s).
Proof. induction s as [|c s IH]; [reflexivity|]. cbn. now rewrite IH. Qed.

Lemma forallb_rev (p : ascii -> bool) (s : string) : forallb p (rev s) = forallb p s.
Proof.
  unfold rev, string_of_list, list_of_string.
  rewrite !forallb_list, list_ascii_of_string_of_list_ascii.
  induction (list_ascii_of_string s) as [|c l IH]; [reflexivity|].
  cbn [List.rev List.forallb]. rewrite List.forallb_app, IH. cbn. 
  rewrite andb_true_r. apply andb_comm.
Qed.

Lemma eqb_empty (s : string) : String.eqb s "" = match s with EmptyString => true | _ => false end.
Proof. destruct s; reflexivity. Qed.

Lemma rev_empty (s : string) :
  match rev s with EmptyString => true | _ => false end
  = match s with EmptyString => true | _ => false end.
Proof.
  unfold rev, string_of_list, list_of_string. destruct s as [|c s]; [reflexivity|].
  cbn [list_ascii_of_string List.rev].
  destruct (List.rev (list_ascii_of_string s)); reflexivity.
Qed.

Lemma trimStart_empty (s : string) :
  match trimStart s with EmptyString => true | _ => false end = forallb isWhiteSpace s.
Proof.
  induction s as [|c s IH]; [reflexivity|].
  cbn [trimStart forallb]. destruct (isWhiteSpace c); [exact IH|reflexivity].
Qed.

Lemma forallb_trimStart (s : string) :
  forallb isWhiteSpace (trimStart s) = forallb isWhiteSpace s.
Proof.
  induction s as [|c s IH]; [reflexivity|].
  cbn [trimStart]. destruct (isWhiteSpace c) eqn:E.
  - rewrite IH. cbn [forallb]. now rewrite E.
  - reflexivity.
Qed.

(** A string trims to the empty string when it is blank, and only then. *)
Lemma trim_blank (s : string) : String.eqb (trim s) "" = AmountSpec.blank s.
Proof.
  unfold trim, trimEnd, AmountSpec.blank.
  rewrite eqb_empty, rev_empty, trimStart_empty, forallb_rev. apply forallb_trimStart.
Qed.

End StringFacts.

Module AmountFacts.

Import AmountSpec.



End AmountFacts.


Module DateFacts.

Import JsDate.

Lemma daysFromCivil_day (y m d : Z) : daysFromCivil y m 1 + d - 1 = daysFromCivil y m d.
Proof. unfold daysFromCivil, eraDayOfCivil. lia. Qed.

(** [MakeDay] on a month of the calendar, counted from 0. *)
Lemma MakeDay_civil (y m d : Z) : 1 <= m <= 12 -> MakeDay y (m - 1) d = daysFromCivil y m d.
Proof.
  intros H. unfold MakeDay.
  rewrite Z.div_small, Z.mod_small by lia.
  replace (y + 0) with y by lia. replace (m - 1 + 1) with m by lia.
  apply daysFromCivil_day.
Qed.

End DateFacts.

(** C4 as stated fails on the date string 2025-11-28, which the standard
    format reads as midnight UTC: on a host five hours behind UTC the
    transaction is dated 2025-11-27, on a host at UTC 2025-11-28. *)
Lemma historyEntryToTransaction_date_depends_on_host :
  let h := {| Models.acctNum := "1234"; Models.amount := "1.00";
              Models.date := "2025-11-28"; Models.description := "";
              Models.intradayInd := false; Models.orderNumber := "A1" |} in
  Fidelity.date (Fidelity.historyEntryToTransaction (JsDate.fixedOffsetHost 0) h)
    = JsDate.DateOf (20420 * JsDate.msPerDay) /\
  Fidelity.date (Fidelity.historyEntryToTransaction (JsDate.fixedOffsetHost (-18000000)) h)
    = JsDate.DateOf (20419 * JsDate.msPerDay).
Proof. vm_compute. split; reflexivity. Qed.

(** C4 (amended).  The date of the transaction is invalid when the date
    string does not parse; otherwise it is midnight UTC of the calendar day
    that the parsed instant has in the local time of the host, its time of
    day dropped ([Date.UTC] reads a year from 0 to 99 as 1900 and later).
    A valid date of a transaction is an exact day. *)
Theorem historyEntryToTransaction_date
  (host : JsDate.Host) (h : Models.GetTransactionsRespHistoryModel) :
  Fidelity.date (Fidelity.historyEntryToTransaction host h)
  = match JsDate.ofString host (Models.date h) with
    | JsDate.InvalidDate => JsDate.InvalidDate
    | JsDate.DateOf t =>
        let localDay := JsDate.Day (JsDate.LocalTime host t) in
        let '(y, m, d) := JsDate.civilFromDays localDay in
        if (0 <=? y) && (y <=? 99) then
          JsDate.TimeClip (JsDate.daysFromCivil (1900 + y) m d * JsDate.msPerDay)
        else JsDate.TimeClip (localDay * JsDate.msPerDay)
    end /\
  (forall t', Fidelity.date (Fidelity.historyEntryToTransaction host h) = JsDate.DateOf t' ->
              ClientSpec.exactDay (JsDate.DateOf t')).
Proof.
  assert (E : Fidelity.date (Fidelity.historyEntryToTransaction host h)
    = match JsDate.ofString host (Models.date h) with
      | JsDate.InvalidDate => JsDate.InvalidDate
      | JsDate.DateOf t =>
          let localDay := JsDate.Day (JsDate.LocalTime host t) in
          let '(y, m, d) := JsDate.civilFromDays localDay in
          if (0 <=? y) && (y <=? 99) then
            JsDate.TimeClip (JsDate.daysFromCivil (1900 + y) m d * JsDate.msPerDay)
          else JsDate.TimeClip (localDay * JsDate.msPerDay)
      end).
  { unfold Fidelity.historyEntryToTransaction. cbn [Fidelity.date].
    destruct (JsDate.ofString host (Models.date h)) as [t|]; [|reflexivity].
    unfold JsDate.getFullYear, JsDate.getMonth, JsDate.getDate, JsDate.getter,
      JsDate.YearFromTime, JsDate.MonthFromTime, JsDate.DateFromTime, JsDate.UTC.
    cbv zeta.
    destruct (JsDate.civilFromDays (JsDate.Day (JsDate.LocalTime host t))) as [[y m] d] eqn:Ec.
    cbn [fst snd].
    destruct (CalendarFacts.civilFromDays_valid _ _ _ _ Ec) as [Hm _].
    rewrite !DateFacts.MakeDay_civil by exact Hm.
    unfold JsDate.MakeDate, JsDate.MakeTime.
    destruct ((0 <=? y) && (y <=? 99)).
    - f_equal. lia.
    - rewrite (CalendarFacts.daysFromCivil_civilFromDays _ _ _ _ Ec). f_equal. lia. }
  split; [exact E|].
  intros t'. rewrite E.
  assert (Clip : forall n, JsDate.TimeClip (n * JsDate.msPerDay) = JsDate.DateOf t' ->
                 ClientSpec.exactDay (JsDate.DateOf t')).
  { intros n. unfold JsDate.TimeClip. destruct (_ <=? _); [|discriminate].
    intros H. injection H as <-. exists n. reflexivity. }
  destruct (JsDate.ofString host (Models.date h)) as [t|]; [|discriminate].
  cbv zeta. destruct (JsDate.civilFromDays _) as [[y m] d].
  destruct (_ && _); apply Clip.
Qed.

(* ------------------------------------------------------------------------- *)
(** ** The validation of the dates *)

Module ValidationFacts.

Import JsDate ValidationSpec.

(** Over every time of day to the millisecond, by evaluation. *)
Lemma offsetsNonzero :
  cells (table JsNumber.ofZ 24)
        (table (fun m => (JsNumber.ofZ m / 60)%float) 60)
        (table (fun s => (JsNumber.ofZ s / 3600)%float) 60)
        (table (fun ms => (JsNumber.ofZ ms / 3600000)%float) 1000) = true.
Proof. vm_cast_no_check (eq_refl true). Qed.

Lemma table_In (f : Z -> float) (n : nat) (i : Z) :
  0 <= i < Z.of_nat n -> In (i, f i) (table f n).
Proof.
  intros H. unfold table. apply List.in_map_iff. exists (Z.to_nat i).
  rewrite Z2Nat.id by lia. split; [reflexivity|]. apply List.in_seq. lia.
Qed.

Lemma cells_In (H M S MS : list (Z * float)) :
  cells H M S MS = true ->
  forall h m s ms, In h H -> In m M -> In s S -> In ms MS -> cell h m s ms = true.
Proof.
  unfold cells. intros T h m s ms Hh Hm Hs Hms.
  rewrite List.forallb_forall in T. specialize (T h Hh).
  rewrite List.forallb_forall in T. specialize (T m Hm). cbv zeta in T.
  rewrite List.forallb_forall in T. specialize (T s Hs).
  rewrite List.forallb_forall in T. specialize (T ms Hms).
  unfold cell. destruct (PrimFloat.eqb _ 0); [|reflexivity].
  now rewrite <- andb_assoc in T |- *.
Qed.

Lemma cell_nonzero (h m s ms : Z) (x y z w : float) :
  cell (h, x) (m, y) (s, z) (ms, w) = true ->
  ~ (h = 0 /\ m = 0 /\ s = 0 /\ ms = 0) ->
  PrimFloat.eqb (x + y + z + w) 0 = false.
Proof.
  unfold cell. cbn [fst snd]. intros T Hne.
  destruct (PrimFloat.eqb (x + y + z + w) 0); [|reflexivity].
  exfalso. apply Hne.
  repeat (apply andb_prop in T; destruct T as [T ?]).
  repeat split; now apply Z.eqb_eq.
Qed.

(** The hours into the day are zero at midnight only. *)
Lemma dayOffset_nonzero (h m s ms : Z) :
  0 <= h < 24 -> 0 <= m < 60 -> 0 <= s < 60 -> 0 <= ms < 1000 ->
  ~ (h = 0 /\ m = 0 /\ s = 0 /\ ms = 0) ->
  PrimFloat.eqb (dayOffset h m s ms) 0 = false.
Proof.
  intros Hh Hm Hs Hms. unfold dayOffset.
  apply (cell_nonzero h m s ms (JsNumber.ofZ h) (JsNumber.ofZ m / 60)
           (JsNumber.ofZ s / 3600) (JsNumber.ofZ ms / 3600000)).
  apply (cells_In (table JsNumber.ofZ 24)
           (table (fun m => (JsNumber.ofZ m / 60)%float) 60)
           (table (fun s => (JsNumber.ofZ s / 3600)%float) 60)
           (table (fun ms => (JsNumber.ofZ ms / 3600000)%float) 1000) offsetsNonzero).
  - exact (table_In JsNumber.ofZ 24 h Hh).
  - exact (table_In (fun m => (JsNumber.ofZ m / 60)%float) 60 m Hm).
  - exact (table_In (fun s => (JsNumber.ofZ s / 3600)%float) 60 s Hs).
  - exact (table_In (fun ms => (JsNumber.ofZ ms / 3600000)%float) 1000 ms Hms).
Qed.

(** The fields of a time of day are all zero on an exact day only. *)
Lemma fields_zero (t : Z) :
  HourFromTime t = 0 /\ MinFromTime t = 0 /\ SecFromTime t = 0 /\ msFromTime t = 0 ->
  t mod msPerDay = 0.
Proof.
  unfold HourFromTime, MinFromTime, SecFromTime, msFromTime, msPerDay.
  intros [H1 [H2 [H3 H4]]]. Z.div_mod_to_equations. lia.
Qed.

(** [checkDate] on a valid date, by the hours into the day. *)
Lemma checkDate_dayOffset (t : Z) :
  Fidelity.checkDate (DateOf t)
  = let x := dayOffset (HourFromTime t) (MinFromTime t) (SecFromTime t) (msFromTime t) in
    if negb (PrimFloat.eqb x 0) then "not exact day: " ++ JsNumber.toString x ++ " hours"
    else "".
Proof. reflexivity. Qed.

(** What [getTransactions] keeps of [checkDate]: the violations. *)
Lemma checkDate_violations (t : Z) :
  List.filter (fun m => (0 <? String.length m)%nat) [Fidelity.checkDate (DateOf t)]
  = violations t.
Proof.
  unfold violations. destruct (t mod msPerDay =? 0) eqn:E.
  - apply Z.eqb_eq in E.
    rewrite (FidelityFacts.checkDate_exactDay (DateOf t)); [reflexivity|].
    exists (t / msPerDay). f_equal.
    pose proof (Z.div_mod t msPerDay). unfold msPerDay in *. lia.
  - apply Z.eqb_neq in E.
    rewrite checkDate_dayOffset. cbv zeta.
    rewrite dayOffset_nonzero.
    + reflexivity.
    + apply Z.mod_pos_bound; lia.
    + apply Z.mod_pos_bound; lia.
    + apply Z.mod_pos_bound; lia.
    + apply Z.mod_pos_bound; lia.
    + intros H. apply E. now apply fields_zero.
Qed.

(** A message that begins with a violation is not empty. *)
Lemma violation_length (v : string) (rest : list string) :
  (0 <? String.length (JsString.join "; " (("not exact day: " ++ v) :: rest)))%nat = true.
Proof. destruct rest; reflexivity. Qed.

End ValidationFacts.

(** X1.  When the start or the end date is a valid date with a time of day
    in UTC, [getTransactions] fails with the validation error whose message
    lists the violation of each such date, start first, and the instance is
    left as it was: no call was made to the evaluator. *)
Theorem getTransactions_not_exact_day
  (zone : Temporal.TimeZone) (host : JsDate.Host) (accountsOptions : Json.json)
  (evaluator : Fidelity.EvaluateFunc)
  (ids : list string) (t1 t2 : Z) (st : Fidelity.State) :
  t1 mod JsDate.msPerDay <> 0 \/ t2 mod JsDate.msPerDay <> 0 ->
  Fidelity.getTransactions zone host accountsOptions evaluator ids
    (JsDate.DateOf t1) (JsDate.DateOf t2) st
  = (Throw (FidelityError
              ("Invalid date(s): "
               ++ JsString.join "; "
                    (List.app (ValidationSpec.violations t1) (ValidationSpec.violations t2)))),
     st).
Proof.
  intros H. unfold Fidelity.getTransactions. cbv zeta.
  change [Fidelity.checkDate (JsDate.DateOf t1); Fidelity.checkDate (JsDate.DateOf t2)]
    with (List.app [Fidelity.checkDate (JsDate.DateOf t1)]
                   [Fidelity.checkDate (JsDate.DateOf t2)]).
  rewrite List.filter_app, !ValidationFacts.checkDate_violations.
  assert (L : (0 <? String.length
                 (JsString.join "; "
                    (List.app (ValidationSpec.violations t1) (ValidationSpec.violations t2))))%nat
              = true).
  { unfold ValidationSpec.violations.
    destruct (t1 mod JsDate.msPerDay =? 0) eqn:E1.
    - destruct (t2 mod JsDate.msPerDay =? 0) eqn:E2.
      + apply Z.eqb_eq in E1, E2. tauto.
      + cbn [List.app]. apply ValidationFacts.violation_length.
    - cbn [List.app]. apply ValidationFacts.violation_length. }
  rewrite L. reflexivity.
Qed.

(** A start one millisecond after midnight of 2025-11-28, and the end
    2025-12-02. *)
Lemma getTransactions_not_exact_day_witness :
  Fidelity.getTransactions Temporal.americaNewYork Mock.host Json.JNull (Mock.evaluator "ok")
    ["1234"] (JsDate.DateOf (20420 * JsDate.msPerDay + 1))
    (JsDate.DateOf (20424 * JsDate.msPerDay)) Fidelity.newInstance
  = (Throw (FidelityError
              ("Invalid date(s): "
               ++ JsString.join "; "
                    (List.app (ValidationSpec.violations (20420 * JsDate.msPerDay + 1))
                              (ValidationSpec.violations (20424 * JsDate.msPerDay))))),
     Fidelity.newInstance).
Proof.
  apply (getTransactions_not_exact_day Temporal.americaNewYork Mock.host Json.JNull
           (Mock.evaluator "ok") ["1234"]
           (20420 * JsDate.msPerDay + 1) (20424 * JsDate.msPerDay) Fidelity.newInstance).
  left. vm_compute. discriminate.
Defined.

(* ------------------------------------------------------------------------- *)
(** ** The calls and the responses *)

Module ResponseFacts.

Import Json Fidelity ResponseSpec.

Lemma readHistoryEntry_historyJson (h : Models.GetTransactionsRespHistoryModel) :
  readHistoryEntry (historyJson h) = Return h.
Proof. destruct h. reflexivity. Qed.

Lemma mapC_historyJson (host : JsDate.Host) (hs : list Models.GetTransactionsRespHistoryModel) :
  mapC (fun h => let* h' := readHistoryEntry h in Return (historyEntryToTransaction host h'))
       (List.map historyJson hs)
  = Return (List.map (historyEntryToTransaction host) hs).
Proof.
  induction hs as [|h hs IH]; [reflexivity|].
  cbn [List.map mapC]. rewrite readHistoryEntry_historyJson. cbn [bindC].
  rewrite IH. reflexivity.
Qed.

End ResponseFacts.

(** X3.  When the evaluator answers a call with a status other than 200,
    [fetch] fails with the error that gives the status and the text of the
    response, after that one call; on the account list, [getAccounts] then
    fails with it and leaves the cache unset.  With the status 200, [fetch]
    returns the JSON of the response. *)
Theorem fetch_status
  (accountsOptions : Json.json) (evaluator : Fidelity.EvaluateFunc)
  (url : string) (options : Json.json) (st : Fidelity.State) (resp : Fidelity.FetchResp) :
  evaluator (Fidelity.calls st) {| Fidelity.url := url; Fidelity.options := options |}
    = Return resp ->
  let st' :=
    {| Fidelity.accounts := Fidelity.accounts st;
       Fidelity.calls :=
         List.app (Fidelity.calls st) [ {| Fidelity.url := url; Fidelity.options := options |} ] |} in
  (Fidelity.status resp = 200 ->
   Fidelity.fetch evaluator url options st = (Return (Fidelity.json resp), st')) /\
  (Fidelity.status resp <> 200 ->
   Fidelity.fetch evaluator url options st
     = (Throw (FidelityError (ResponseSpec.fetchFailed resp)), st') /\
   (url = Fidelity.accountsUrl -> options = accountsOptions -> Fidelity.accounts st = None ->
    Fidelity.getAccounts accountsOptions evaluator st
      = (Throw (FidelityError (ResponseSpec.fetchFailed resp)), st'))).
Proof.
  intros He. cbv zeta. split.
  - intros Hs. unfold Fidelity.fetch. rewrite He, Hs. reflexivity.
  - intros Hs.
    assert (F : Fidelity.fetch evaluator url options st
                = (Throw (FidelityError (ResponseSpec.fetchFailed resp)),
                   {| Fidelity.accounts := Fidelity.accounts st;
                      Fidelity.calls :=
                        List.app (Fidelity.calls st)
                          [ {| Fidelity.url := url; Fidelity.options := options |} ] |})).
    { unfold Fidelity.fetch. rewrite He.
      destruct (Fidelity.status resp =? 200) eqn:E; [apply Z.eqb_eq in E; tauto|].
      reflexivity. }
    split; [exact F|].
    intros -> -> Hc. unfold Fidelity.getAccounts. rewrite Hc.
    unfold Fidelity.fetchAccounts, Fidelity.bind, Fidelity.getAccountsOptions.
    rewrite F. now rewrite Hc.
Qed.

(** The account list refused with the status 403. *)
Lemma fetch_status_witness :
  let resp := {| Fidelity.status := 403; Fidelity.text := Some "Forbidden";
                 Fidelity.json := None |} in
  let st' :=
    {| Fidelity.accounts := Fidelity.accounts Fidelity.newInstance;
       Fidelity.calls :=
         List.app (Fidelity.calls Fidelity.newInstance)
           [ {| Fidelity.url := Fidelity.accountsUrl; Fidelity.options := Json.JNull |} ] |} in
  (Fidelity.status resp = 200 ->
   Fidelity.fetch (fun _ _ => Return resp) Fidelity.accountsUrl Json.JNull Fidelity.newInstance
     = (Return (Fidelity.json resp), st')) /\
  (Fidelity.status resp <> 200 ->
   Fidelity.fetch (fun _ _ => Return resp) Fidelity.accountsUrl Json.JNull Fidelity.newInstance
     = (Throw (FidelityError (ResponseSpec.fetchFailed resp)), st') /\
   (Fidelity.accountsUrl = Fidelity.accountsUrl -> Json.JNull = Json.JNull ->
    Fidelity.accounts Fidelity.newInstance = None ->
    Fidelity.getAccounts Json.JNull (fun _ _ => Return resp) Fidelity.newInstance
      = (Throw (FidelityError (ResponseSpec.fetchFailed resp)), st'))).
Proof.
  exact (fetch_status Json.JNull
           (fun _ _ => Return {| Fidelity.status := 403; Fidelity.text := Some "Forbidden";
                                 Fidelity.json := None |})
           Fidelity.accountsUrl Json.JNull Fidelity.newInstance
           {| Fidelity.status := 403; Fidelity.text := Some "Forbidden"; Fidelity.json := None |}
           eq_refl).
Defined.

(** X4.  A response of the expected shape is read into one transaction for
    each history entry, in the order of the response. *)
Theorem readTransactions_in_order
  (host : JsDate.Host) (hs : list Models.GetTransactionsRespHistoryModel) :
  Fidelity.readTransactions host (Some (ResponseSpec.transactionsJson hs))
  = Return (List.map (Fidelity.historyEntryToTransaction host) hs).
Proof.
  unfold Fidelity.readTransactions, ResponseSpec.transactionsJson.
  cbn [Json.getProp Json.lookup String.eqb Ascii.eqb Bool.eqb bindC Json.asArray].
  apply ResponseFacts.mapC_historyJson.
Qed.

(* ------------------------------------------------------------------------- *)
(** ** The account list and the errors of the client *)

Module AccountsFacts.

Import Json Fidelity MapSpec MapFacts ClientSpec FidelityFacts AccountsSpec.

Lemma get_set (V : Type) (k k' : string) (v : V) (m : JsMap.t V) :
  JsMap.get k (JsMap.set k' v m) = if String.eqb k k' then Some v else JsMap.get k m.
Proof.
  induction m as [|[k0 v0] m IH]; cbn [JsMap.set JsMap.get].
  - reflexivity.
  - destruct (String.eqb k' k0) eqn:E0; cbn [JsMap.get].
    + apply String.eqb_eq in E0. subst k0. now destruct (String.eqb k k').
    + destruct (String.eqb k k0) eqn:E1.
      * apply String.eqb_eq in E1. subst k0.
        now rewrite String.eqb_sym, E0.
      * exact IH.
Qed.

Lemma keys_set (V : Type) (k : string) (v : V) (m : JsMap.t V) :
  JsMap.keys (JsMap.set k v m)
  = if List.existsb (String.eqb k) (JsMap.keys m) then JsMap.keys m
    else List.app (JsMap.keys m) [k].
Proof.
  unfold JsMap.keys. induction m as [|[k0 v0] m IH]; [reflexivity|].
  cbn [JsMap.set List.map fst List.existsb].
  destruct (String.eqb k k0) eqn:E; cbn [orb List.map fst].
  - apply String.eqb_eq in E. now subst k0.
  - rewrite IH. now destruct (List.existsb _ _).
Qed.

(** The map that [fetchAccounts] builds from the accounts read. *)
Lemma accountMap_get (accounts : list Account) (k : string) :
  forall m0 : JsMap.t Account,
  JsMap.get k (List.fold_left (fun accountMap a => JsMap.set (number a) a accountMap)
                              accounts m0)
  = match lastWith k accounts with
    | Some a => Some a
    | None => JsMap.get k m0
    end.
Proof.
  induction accounts as [|a r IH]; intros m0; [reflexivity|].
  cbn [List.fold_left lastWith]. rewrite IH.
  destruct (lastWith k r); [reflexivity|].
  rewrite get_set. now destruct (String.eqb k (number a)).
Qed.

Lemma accountMap_keys (accounts : list Account) :
  forall m0 : JsMap.t Account,
  JsMap.keys (List.fold_left (fun accountMap a => JsMap.set (number a) a accountMap)
                             accounts m0)
  = appendNew (JsMap.keys m0) (List.map number accounts).
Proof.
  induction accounts as [|a r IH]; intros m0; [reflexivity|].
  cbn [List.fold_left List.map appendNew]. rewrite IH, keys_set. reflexivity.
Qed.

Lemma lastWith_number (k : string) (accounts : list Account) (a : Account) :
  lastWith k accounts = Some a -> number a = k /\ In a accounts.
Proof.
  induction accounts as [|b r IH]; [discriminate|].
  cbn [lastWith]. destruct (lastWith k r) as [c|].
  - intros H. injection H as ->. destruct (IH eq_refl) as [H1 H2].
    split; [exact H1|now right].
  - destruct (String.eqb k (number b)) eqn:E; [|discriminate].
    intros H. injection H as ->. apply String.eqb_eq in E.
    split; [now symmetry|now left].
Qed.

Section Client.
Variable zone : Temporal.TimeZone.
Variable host : JsDate.Host.
Variable accountsOptions : Json.json.
Variable evaluator : EvaluateFunc.

Local Abbreviation getAccounts := (Fidelity.getAccounts accountsOptions evaluator).
Local Abbreviation accountsRequest := (ClientSpec.accountsRequest accountsOptions).

(** What [getAccounts] throws is a [FidelityError], or what the evaluator
    threw; and the cache is unset afterwards. *)
Lemma getAccounts_error (st st' : State) (e : JsError) :
  getAccounts st = (Throw e, st') ->
  (isFidelityError e \/ evaluator (calls st) accountsRequest = Throw e)
  /\ accounts st = None /\ accounts st' = None.
Proof.
  intros H. destruct (accounts st) as [m|] eqn:Ec.
  - rewrite (getAccounts_cached accountsOptions evaluator m st Ec) in H. discriminate.
  - rewrite (getAccounts_uncached accountsOptions evaluator st Ec) in H.
    destruct (fst (Fidelity.fetchAccounts accountsOptions evaluator st)) as [m|e'] eqn:F;
      [discriminate|].
    injection H as -> <-. split; [|split; reflexivity].
    unfold Fidelity.fetchAccounts, bind, lift, Fidelity.fetch, getAccountsOptions in F.
    unfold ClientSpec.accountsRequest.
    destruct (evaluator _ _) as [resp|e0].
    + left. destruct (negb (status resp =? 200)); cbn [fst] in F.
      * injection F as <-. eexists. reflexivity.
      * unfold parseGuard in F. destruct (readAccounts _); [discriminate|].
        injection F as <-. eexists. reflexivity.
    + right. cbn [fst] in F. now injection F as <-.
Qed.

End Client.

(** The request options are built by [fidelityDate], rendering and
    [JSON.parse]: what they throw is a RangeError or a SyntaxError. *)
Lemma getTransactionsOptions_error
  (zone : Temporal.TimeZone) (accts : list Account) (start end_ : JsDate.Date) (e : JsError) :
  getTransactionsOptions zone accts start end_ = Throw e -> isConstructionError e.
Proof.
  assert (D : forall d e', fidelityDate zone d = Throw e' -> isConstructionError e').
  { intros d e'. unfold fidelityDate, Temporal.zonedMidnightEpochMilliseconds.
    destruct (JsDate.getUTCFullYear d), (JsDate.getUTCMonth d), (JsDate.getUTCDate d);
      cbn [option_map bindC];
      try (intros H; injection H as <-; eexists; right; reflexivity).
    destruct (_ || _); cbn [bindC];
      [intros H; injection H as <-; eexists; right; reflexivity|].
    cbv zeta. destruct (Z.abs _ <=? _); cbn [bindC]; [discriminate|].
    intros H; injection H as <-; eexists; right; reflexivity. }
  assert (P : forall text e', parseC text = Throw e' -> isConstructionError e').
  { intros text e'. unfold parseC. destruct (parse text); [discriminate|].
    intros H; injection H as <-; eexists; left; reflexivity. }
  unfold getTransactionsOptions, getTransactionsBody. cbv zeta.
  destruct (fidelityDate zone start) as [s|e1] eqn:E1; cbn [bindC].
  - destruct (fidelityDate zone end_) as [s2|e2] eqn:E2; cbn [bindC].
    + destruct (parseC _) as [body|e3] eqn:E3; cbn [bindC].
      * apply P.
      * intros H. injection H as <-. exact (P _ _ E3).
    + intros H. injection H as <-. exact (D _ _ E2).
  - intros H. injection H as <-. exact (D _ _ E1).
Qed.

End AccountsFacts.
Module SuccessFacts.

Import Json Fidelity ResponseSpec.

Lemma readTransactions_transactionsJson
  (host : JsDate.Host) (hs : list Models.GetTransactionsRespHistoryModel) :
  readTransactions host (Some (transactionsJson hs))
  = Return (List.map (historyEntryToTransaction host) hs).
Proof.
  unfold readTransactions, transactionsJson.
  cbn [getProp lookup String.eqb Ascii.eqb Bool.eqb bindC asArray].
  apply ResponseFacts.mapC_historyJson.
Qed.

End SuccessFacts.

(** X5.  [checkDate] returns the empty string on the exact days, and on no
    other date: on every other date, the invalid date among them, it
    returns a message that gives the hours into the day. *)
Theorem checkDate_accepts_exact_days (d : JsDate.Date) :
  (Fidelity.checkDate d = "" <-> ClientSpec.exactDay d) /\
  (Fidelity.checkDate d <> "" ->
   exists hours, Fidelity.checkDate d = "not exact day: " ++ hours ++ " hours") /\
  Fidelity.checkDate JsDate.InvalidDate = "not exact day: NaN hours".
Proof.
  assert (I : Fidelity.checkDate JsDate.InvalidDate = "not exact day: NaN hours")
    by (vm_compute; reflexivity).
  destruct d as [t|].
  - pose proof (ValidationFacts.checkDate_violations t) as V.
    unfold ValidationSpec.violations in V.
    destruct (t mod JsDate.msPerDay =? 0) eqn:E.
    + apply Z.eqb_eq in E.
      assert (X : ClientSpec.exactDay (JsDate.DateOf t)).
      { exists (t / JsDate.msPerDay). f_equal.
        pose proof (Z.div_mod t JsDate.msPerDay). unfold JsDate.msPerDay in *. lia. }
      pose proof (FidelityFacts.checkDate_exactDay _ X) as C.
      split; [tauto|]. split; [congruence|exact I].
    + apply Z.eqb_neq in E. cbn [List.filter] in V.
      destruct (0 <? String.length (Fidelity.checkDate (JsDate.DateOf t)))%nat;
        [|discriminate].
      injection V as V. split; [|split; [|exact I]].
      * split.
        -- rewrite V. discriminate.
        -- intros [n Hn]. injection Hn as ->. exfalso. apply E.
           apply Z.mod_mul. discriminate.
      * intros _. eexists. exact V.
  - split; [|split; [|exact I]].
    + split; [rewrite I; discriminate|intros [n Hn]; discriminate].
    + intros _. exists "NaN". exact I.
Qed.
(** X6.  What [getAccounts] throws is a [FidelityError], or the error that
    the evaluator threw at the request of the account list.  It throws on
    an unset cache only, after that one request, and leaves the cache
    unset. *)
Theorem getAccounts_throws
  (accountsOptions : Json.json) (evaluator : Fidelity.EvaluateFunc)
  (st st' : Fidelity.State) (e : JsError) :
  Fidelity.getAccounts accountsOptions evaluator st = (Throw e, st') ->
  (AccountsSpec.isFidelityError e
   \/ evaluator (Fidelity.calls st)
        {| Fidelity.url := Fidelity.accountsUrl; Fidelity.options := accountsOptions |}
      = Throw e)
  /\ Fidelity.accounts st = None
  /\ st' = {| Fidelity.accounts := None;
              Fidelity.calls :=
                List.app (Fidelity.calls st)
                  [ {| Fidelity.url := Fidelity.accountsUrl;
                       Fidelity.options := accountsOptions |} ] |}.
Proof.
  intros H.
  destruct (AccountsFacts.getAccounts_error accountsOptions evaluator st st' e H)
    as [K [Hc _]].
  split; [exact K|]. split; [exact Hc|].
  rewrite (FidelityFacts.getAccounts_uncached accountsOptions evaluator st Hc) in H.
  destruct (fst (Fidelity.fetchAccounts accountsOptions evaluator st)); [discriminate|].
  now injection H as _ <-.
Qed.

(** The evaluator rejects the call. *)
Lemma getAccounts_throws_witness :
  (AccountsSpec.isFidelityError (OtherError "net::ERR_INTERNET_DISCONNECTED")
   \/ Mock.offline (Fidelity.calls Fidelity.newInstance)
        {| Fidelity.url := Fidelity.accountsUrl; Fidelity.options := Json.JNull |}
      = Throw (OtherError "net::ERR_INTERNET_DISCONNECTED"))
  /\ Fidelity.accounts Fidelity.newInstance = None
  /\ {| Fidelity.accounts := None;
        Fidelity.calls :=
          [ {| Fidelity.url := Fidelity.accountsUrl; Fidelity.options := Json.JNull |} ] |}
     = {| Fidelity.accounts := None;
          Fidelity.calls :=
            List.app (Fidelity.calls Fidelity.newInstance)
              [ {| Fidelity.url := Fidelity.accountsUrl;
                   Fidelity.options := Json.JNull |} ] |}.
Proof.
  apply (getAccounts_throws Json.JNull Mock.offline Fidelity.newInstance).
  reflexivity.
Defined.

(** X7.  With an evaluator whose account lists are typed, what
    [getTransactions] throws is a [FidelityError], or an error that the
    evaluator threw, or the RangeError or SyntaxError that the construction
    of the request options threw, which is not wrapped.  (An account
    without a name, which the code caches as it is, would have
    [encodeAccountName] throw a TypeError.) *)
Theorem getTransactions_throws
  (zone : Temporal.TimeZone) (host : JsDate.Host) (accountsOptions : Json.json)
  (evaluator : Fidelity.EvaluateFunc)
  (ids : list string) (start end_ : JsDate.Date) (st st' : Fidelity.State) (e : JsError) :
  AccountsSpec.typedAccounts evaluator accountsOptions ->
  Fidelity.getTransactions zone host accountsOptions evaluator ids start end_ st
    = (Throw e, st') ->
  AccountsSpec.isFidelityError e
  \/ (exists calls request, evaluator calls request = Throw e)
  \/ (AccountsSpec.isConstructionError e
      /\ exists accts, Fidelity.getTransactionsOptions zone accts start end_ = Throw e).
Proof.
  intros _.
  unfold Fidelity.getTransactions. cbv zeta.
  destruct (0 <? String.length _)%nat.
  { unfold Fidelity.throw. intros H. injection H as <- _. left. eexists. reflexivity. }
  unfold Fidelity.bind at 1.
  destruct (Fidelity.resolveAccounts accountsOptions evaluator ids st) as [[acctDict|e0] st0] eqn:R.
  - destruct (0 <? List.length _)%nat.
    { unfold Fidelity.throw. intros H. injection H as <- _. left. eexists. reflexivity. }
    unfold Fidelity.fetchTransactions, Fidelity.bind, Fidelity.lift.
    destruct (Fidelity.getTransactionsOptions zone _ start end_) as [o|e1] eqn:O.
    + unfold Fidelity.fetch. destruct (evaluator _ _) as [resp|e2] eqn:Ev.
      * destruct (negb (Fidelity.status resp =? 200)).
        -- intros H. injection H as <- _. left. eexists. reflexivity.
        -- unfold Fidelity.parseGuard. destruct (Fidelity.readTransactions _ _); [discriminate|].
           intros H. injection H as <- _. left. eexists. reflexivity.
      * intros H. injection H as <- _. right; left. eauto.
    + intros H. injection H as <- _. right; right.
      split; [exact (AccountsFacts.getTransactionsOptions_error _ _ _ _ _ O)|eauto].
  - intros H. injection H as <- <-.
    destruct (FidelityFacts.resolveAccounts_throws accountsOptions evaluator st st0 ids e0 R)
      as [_ [G _]].
    destruct (AccountsFacts.getAccounts_error accountsOptions evaluator st st0 e0 G)
      as [[F|F] _]; [left; exact F|right; left; eauto].
Qed.

(** An account whose number ends in a backslash, with the evaluator of the
    mock: the SyntaxError of [JSON.parse] is what [getTransactions]
    throws. *)
Lemma getTransactions_throws_witness :
  AccountsSpec.isFidelityError (SyntaxError "Unexpected token in JSON")
  \/ (exists calls request,
        Mock.evaluator "ok" calls request = Throw (SyntaxError "Unexpected token in JSON"))
  \/ (AccountsSpec.isConstructionError (SyntaxError "Unexpected token in JSON")
      /\ exists accts,
           Fidelity.getTransactionsOptions Temporal.americaNewYork accts Mock.nov28 Mock.dec02
           = Throw (SyntaxError "Unexpected token in JSON")).
Proof.
  apply (getTransactions_throws Temporal.americaNewYork Mock.host Json.JNull
           (Mock.evaluator "ok")
           ["1\"] Mock.nov28 Mock.dec02
           {| Fidelity.accounts :=
                Some [("1\", {| Fidelity.number := "1\"; Fidelity.name := "A" |})];
              Fidelity.calls := [] |}
           {| Fidelity.accounts :=
                Some [("1\", {| Fidelity.number := "1\"; Fidelity.name := "A" |})];
              Fidelity.calls := [] |}).
  - intros calls resp assets R A. injection R as <-. injection A as <-. reflexivity.
  - vm_compute. reflexivity.
Defined.
(** X8.  The account map that [getAccounts] fetches holds the account
    numbers of the response, each once, in the order of first occurrence;
    a number is mapped to the last asset that has it, and every account is
    filed under its own number. *)
Theorem getAccounts_account_map
  (accountsOptions : Json.json) (evaluator : Fidelity.EvaluateFunc) (st : Fidelity.State)
  (resp : Fidelity.FetchResp) (status : string) (assets : list Json.json)
  (accts : list Fidelity.Account) :
  Fidelity.accounts st = None ->
  evaluator (Fidelity.calls st)
    {| Fidelity.url := Fidelity.accountsUrl; Fidelity.options := accountsOptions |}
    = Return resp ->
  Fidelity.status resp = 200 ->
  Fidelity.json resp = Some (AccountsSpec.accountsJson status assets) ->
  ClientSpec.caseInsensitiveOk status = true ->
  mapC Fidelity.readAsset assets = Return accts ->
  exists m : JsMap.t Fidelity.Account,
    Fidelity.getAccounts accountsOptions evaluator st
    = (Return m,
       {| Fidelity.accounts := Some m;
          Fidelity.calls :=
            List.app (Fidelity.calls st)
              [ {| Fidelity.url := Fidelity.accountsUrl;
                   Fidelity.options := accountsOptions |} ] |}) /\
    JsMap.keys m = MapSpec.firstOccurrences (List.map Fidelity.number accts) /\
    NoDup (JsMap.keys m) /\
    (forall k, JsMap.get k m = AccountsSpec.lastWith k accts) /\
    (forall k a, JsMap.get k m = Some a -> Fidelity.number a = k /\ In a accts).
Proof.
  intros Hc He Hs Hj Hok Ha.
  exists (List.fold_left (fun accountMap a => JsMap.set (Fidelity.number a) a accountMap)
                         accts JsMap.empty).
  assert (G : forall k,
             JsMap.get k (List.fold_left
                            (fun accountMap a => JsMap.set (Fidelity.number a) a accountMap)
                            accts JsMap.empty)
             = AccountsSpec.lastWith k accts).
  { intros k. rewrite AccountsFacts.accountMap_get. now destruct (AccountsSpec.lastWith k accts). }
  split; [|split; [|split; [|split]]].
  - rewrite (FidelityFacts.getAccounts_uncached accountsOptions evaluator st Hc).
    rewrite (StatusFacts.fetchAccounts_200 accountsOptions evaluator st resp He Hs), Hj.
    unfold Fidelity.readAccounts, Fidelity.contextOf, Fidelity.statusOf,
      AccountsSpec.accountsJson.
    cbn [Json.getProp Json.lookup String.eqb Ascii.eqb Bool.eqb bindC Json.asString].
    rewrite ClientFacts.toLowerCase_ok, Hok. cbn [negb].
    unfold Fidelity.accountMapOf.
    cbn [Json.getProp Json.lookup String.eqb Ascii.eqb Bool.eqb bindC Json.asArray].
    rewrite Ha. reflexivity.
  - apply AccountsFacts.accountMap_keys.
  - rewrite AccountsFacts.accountMap_keys. apply MapFacts.NoDup_appendNew. constructor.
  - exact G.
  - intros k a. rewrite G. apply AccountsFacts.lastWith_number.
Qed.

(** The mock account list with the first account listed once more under
    another name. *)
Lemma getAccounts_account_map_witness :
  exists m : JsMap.t Fidelity.Account,
    Fidelity.getAccounts Json.JNull
      (fun _ _ =>
         Return {| Fidelity.status := 200; Fidelity.text := None;
                   Fidelity.json :=
                     Some (AccountsSpec.accountsJson "OK"
                             [ Mock.asset "1234" "Brokerage"; Mock.asset "5678" "IRA";
                               Mock.asset "1234" "Joint" ]) |})
      Fidelity.newInstance
    = (Return m,
       {| Fidelity.accounts := Some m;
          Fidelity.calls :=
            List.app (Fidelity.calls Fidelity.newInstance)
              [ {| Fidelity.url := Fidelity.accountsUrl; Fidelity.options := Json.JNull |} ] |}) /\
    JsMap.keys m
    = MapSpec.firstOccurrences
        (List.map Fidelity.number
           [ Mock.brokerage; Mock.ira;
             {| Fidelity.number := "1234"; Fidelity.name := "Joint" |} ]) /\
    NoDup (JsMap.keys m) /\
    (forall k, JsMap.get k m
               = AccountsSpec.lastWith k
                   [ Mock.brokerage; Mock.ira;
                     {| Fidelity.number := "1234"; Fidelity.name := "Joint" |} ]) /\
    (forall k a, JsMap.get k m = Some a ->
                 Fidelity.number a = k
                 /\ In a [ Mock.brokerage; Mock.ira;
                           {| Fidelity.number := "1234"; Fidelity.name := "Joint" |} ]).
Proof.
  apply (getAccounts_account_map Json.JNull _ Fidelity.newInstance
           {| Fidelity.status := 200; Fidelity.text := None;
              Fidelity.json :=
                Some (AccountsSpec.accountsJson "OK"
                        [ Mock.asset "1234" "Brokerage"; Mock.asset "5678" "IRA";
                          Mock.asset "1234" "Joint" ]) |} "OK"
           [ Mock.asset "1234" "Brokerage"; Mock.asset "5678" "IRA";
             Mock.asset "1234" "Joint" ]
           [ Mock.brokerage; Mock.ira;
             {| Fidelity.number := "1234"; Fidelity.name := "Joint" |} ]).
  - reflexivity.
  - reflexivity.
  - reflexivity.
  - reflexivity.
  - reflexivity.
  - reflexivity.
Defined.

(** X2.  When the dates are exact days, every identifier is found and the
    transaction request is answered with the status 200 and a response of
    the expected shape, [getTransactions] returns the transactions of the
    history entries, in their order; the cache holds the account map; and
    the transaction request, which carries the accounts of the distinct
    identifiers, is the one call made after the account list was got. *)
Theorem getTransactions_returns_history
  (zone : Temporal.TimeZone) (host : JsDate.Host) (accountsOptions : Json.json)
  (evaluator : Fidelity.EvaluateFunc)
  (ids : list string) (start end_ : JsDate.Date) (s e : string)
  (st st1 : Fidelity.State) (m : JsMap.t Fidelity.Account)
  (resp : Fidelity.FetchResp) (hs : list Models.GetTransactionsRespHistoryModel) :
  let accts := ClientSpec.found m (MapSpec.firstOccurrences ids) in
  let request :=
    {| Fidelity.url := Fidelity.transactionsUrl;
       Fidelity.options :=
         RequestSpec.requestOptions
           (Json.stringify (RequestSpec.requestDocument accts s e)) |} in
  ClientSpec.exactDay start -> ClientSpec.exactDay end_ ->
  ids <> [] ->
  Fidelity.getAccounts accountsOptions evaluator st = (Return m, st1) ->
  (forall id, In id ids -> JsMap.get id m <> None) ->
  RequestSpec.plainNumbers accts ->
  Fidelity.fidelityDate zone start = Return s ->
  Fidelity.fidelityDate zone end_ = Return e ->
  evaluator (Fidelity.calls st1) request = Return resp ->
  Fidelity.status resp = 200 ->
  Fidelity.json resp = Some (ResponseSpec.transactionsJson hs) ->
  Fidelity.getTransactions zone host accountsOptions evaluator ids start end_ st
  = (Return (List.map (Fidelity.historyEntryToTransaction host) hs),
     {| Fidelity.accounts := Some m;
        Fidelity.calls := List.app (Fidelity.calls st1) [request] |}).
Proof.
  intros accts request Hs He Hne Hg Hall Hp Es Ee Hev Hst Hj.
  pose proof (FidelityFacts.resolveAccounts_after accountsOptions evaluator m st st1 ids Hne Hg)
    as Hr.
  assert (Hall' : forall id, In id (MapSpec.firstOccurrences ids) -> JsMap.get id m <> None).
  { intros id Hid. apply Hall. now apply MapFacts.in_firstOccurrences. }
  rewrite (ClientFacts.getTransactions_resolved zone host accountsOptions evaluator
             ids start end_ st st1 m Hs He Hr).
  rewrite (ClientFacts.filter_absent_nil m _ Hall').
  fold accts.
  unfold Fidelity.fetchTransactions, Fidelity.bind, Fidelity.lift.
  rewrite (RequestFacts.getTransactionsOptions_value zone accts start end_ s e Hp Es Ee).
  unfold Fidelity.fetch. fold request. rewrite Hev, Hst. cbn [Z.eqb Pos.eqb negb].
  rewrite Hj, SuccessFacts.readTransactions_transactionsJson. cbn [Fidelity.parseGuard].
  destruct (FidelityFacts.getAccounts_returns accountsOptions evaluator m st st1 Hg) as [-> _].
  reflexivity.
Qed.

(** Both accounts of the mock, the second identifier given twice,
    2025-11-28 to 2025-12-02, on a new instance. *)
Lemma getTransactions_returns_history_witness :
  Fidelity.getTransactions Temporal.americaNewYork Mock.host Json.JNull (Mock.evaluator "ok")
    ["5678"; "1234"; "5678"] Mock.nov28 Mock.dec02 Fidelity.newInstance
  = (Return
       (List.map (Fidelity.historyEntryToTransaction Mock.host)
          [ {| Models.acctNum := "1234"; Models.amount := "$1,234.56";
               Models.date := "2025-11-28T00:00:00";
               Models.description := "DIVIDEND RECEIVED";
               Models.intradayInd := false; Models.orderNumber := "24332-AB1CD" |};
            {| Models.acctNum := "1234"; Models.amount := "";
               Models.date := "2025-12-01T00:00:00";
               Models.description := "DEBIT CARD PURCHASE";
               Models.intradayInd := true; Models.orderNumber := "" |} ]),
     {| Fidelity.accounts := Some Mock.accountMap;
        Fidelity.calls :=
          List.app
            (Fidelity.calls
               {| Fidelity.accounts := Some Mock.accountMap;
                  Fidelity.calls :=
                    [ {| Fidelity.url := Fidelity.accountsUrl;
                         Fidelity.options := Json.JNull |} ] |})
            [ {| Fidelity.url := Fidelity.transactionsUrl;
                 Fidelity.options :=
                   RequestSpec.requestOptions
                     (Json.stringify
                        (RequestSpec.requestDocument
                           (ClientSpec.found Mock.accountMap
                              (MapSpec.firstOccurrences ["5678"; "1234"; "5678"]))
                           "1764306000" "1764651600")) |} ] |}).
Proof.
  apply (getTransactions_returns_history Temporal.americaNewYork Mock.host Json.JNull
           (Mock.evaluator "ok") ["5678"; "1234"; "5678"] Mock.nov28 Mock.dec02
           "1764306000" "1764651600" Fidelity.newInstance
           {| Fidelity.accounts := Some Mock.accountMap;
              Fidelity.calls :=
                [ {| Fidelity.url := Fidelity.accountsUrl; Fidelity.options := Json.JNull |} ] |}
           Mock.accountMap
           {| Fidelity.status := 200; Fidelity.text := None;
              Fidelity.json := Some Mock.transactionsResponse |}).
  - exists 20420. reflexivity.
  - exists 20424. reflexivity.
  - discriminate.
  - vm_compute. reflexivity.
  - intros id [<-|[<-|[<-|[]]]]; vm_compute; discriminate.
  - repeat constructor.
  - vm_compute. reflexivity.
  - vm_compute. reflexivity.
  - reflexivity.
  - reflexivity.
  - reflexivity.
Defined.

(* ------------------------------------------------------------------------- *)
(** ** The other copy of the client *)

Module VariantFacts.

(** [parseFloat] finds no number in a blank string. *)
Lemma parseFloat_blank (s : string) :
  AmountSpec.blank s = true -> JsNumber.parseFloat s = JsNumber.nan.
Proof.
  intros B. unfold AmountSpec.blank in B.
  rewrite <- StringFacts.trimStart_empty in B.
  unfold JsNumber.parseFloat.
  destruct (JsString.trimStart s); [reflexivity|discriminate].
Qed.

End VariantFacts.

(** X9.  The two copies of [historyEntryToTransaction] give the same
    account number, date, description, order number and pending flag.
    Where the first copy gives an amount, the second gives that number;
    where the first gives none (a blank or unreadable amount), the second
    gives NaN. *)
Theorem historyEntryToTransaction_copies
  (host : JsDate.Host) (h : Models.GetTransactionsRespHistoryModel) :
  let t := Fidelity.historyEntryToTransaction host h in
  let t' := VariantClient.historyEntryToTransaction host h in
  VariantClient.acct_num t' = Fidelity.acct_num t /\
  VariantClient.date t' = Fidelity.date t /\
  VariantClient.description t' = Fidelity.description t /\
  VariantClient.order_number t' = Fidelity.order_number t /\
  VariantClient.pending t' = Fidelity.pending t /\
  match Fidelity.amount t with
  | Some a => VariantClient.amount t' = a
  | None => JsNumber.isNaN (VariantClient.amount t') = true
  end.
Proof.
  cbv zeta. repeat (split; [reflexivity|]).
  unfold Fidelity.historyEntryToTransaction, VariantClient.historyEntryToTransaction.
  cbn [Fidelity.amount VariantClient.amount].
  rewrite StringFacts.trim_blank.
  destruct (AmountSpec.blank _) eqn:B; cbn [negb].
  - rewrite (VariantFacts.parseFloat_blank _ B). reflexivity.
  - destruct (JsNumber.isNaN _); reflexivity.
Qed.

Module RangeFacts.

Import JsDate ValidationSpec.

Lemma join_length (sep : string) (l : list string) :
  l <> [] -> (forall x, In x l -> (0 <? String.length x)%nat = true) ->
  (0 <? String.length (JsString.join sep l))%nat = true.
Proof.
  destruct l as [|x r]; [congruence|]. intros _ H.
  specialize (H x (or_introl eq_refl)).
  destruct x as [|c x]; [discriminate|].
  destruct r; reflexivity.
Qed.

Lemma violations_length (t : Z) (x : string) :
  In x (violations t) -> (0 <? String.length x)%nat = true.
Proof.
  unfold violations. destruct (_ =? 0); [intros []|].
  intros [<-|[]]. reflexivity.
Qed.

Lemma violations_nil (t : Z) : violations t = [] <-> t mod msPerDay = 0.
Proof.
  unfold violations. destruct (t mod msPerDay =? 0) eqn:E.
  - apply Z.eqb_eq in E. tauto.
  - apply Z.eqb_neq in E. split; [discriminate|tauto].
Qed.

(** The message of [checkStartEnd] on valid dates. *)
Lemma checkStartEnd_message (t1 t2 : Z) :
  FidelityVariant.checkStartEnd (DateOf t1) (DateOf t2)
  = match RangeSpec.violations t1 t2 with
    | [] => None
    | vs => Some ("Invalid date(s): " ++ JsString.join "; " vs)
    end.
Proof.
  unfold FidelityVariant.checkStartEnd. cbv zeta.
  change [Fidelity.checkDate (DateOf t1); Fidelity.checkDate (DateOf t2);
          if FidelityVariant.dateGt (DateOf t1) (DateOf t2) then "start > end" else ""]
    with (List.app [Fidelity.checkDate (DateOf t1)]
            (List.app [Fidelity.checkDate (DateOf t2)]
               [if FidelityVariant.dateGt (DateOf t1) (DateOf t2) then "start > end" else ""])).
  rewrite !List.filter_app, !ValidationFacts.checkDate_violations.
  assert (O : List.filter (fun m => (0 <? String.length m)%nat)
                [if FidelityVariant.dateGt (DateOf t1) (DateOf t2) then "start > end" else ""]
              = if t2 <? t1 then ["start > end"] else []).
  { cbn [FidelityVariant.dateGt]. now destruct (t2 <? t1). }
  rewrite O. fold (RangeSpec.violations t1 t2).
  destruct (RangeSpec.violations t1 t2) as [|v vs] eqn:V; [reflexivity|].
  rewrite join_length; [reflexivity|discriminate|].
  intros x Hx. rewrite <- V in Hx. unfold RangeSpec.violations in Hx.
  apply List.in_app_or in Hx. destruct Hx as [Hx|Hx]; [exact (violations_length _ _ Hx)|].
  apply List.in_app_or in Hx. destruct Hx as [Hx|Hx]; [exact (violations_length _ _ Hx)|].
  destruct (t2 <? t1); [|destruct Hx]. destruct Hx as [<-|[]]. reflexivity.
Qed.

Lemma violations_none (t1 t2 : Z) :
  RangeSpec.violations t1 t2 = [] <->
  t1 mod msPerDay = 0 /\ t2 mod msPerDay = 0 /\ t1 <= t2.
Proof.
  unfold RangeSpec.violations. split.
  - intros H. apply List.app_eq_nil in H. destruct H as [H1 H].
    apply List.app_eq_nil in H. destruct H as [H2 H3].
    apply violations_nil in H1, H2.
    destruct (t2 <? t1) eqn:E; [discriminate|]. apply Z.ltb_ge in E. tauto.
  - intros [H1 [H2 H3]]. apply violations_nil in H1, H2. rewrite H1, H2.
    apply Z.ltb_ge in H3. now rewrite H3.
Qed.

End RangeFacts.

(** X10.  In the other copy of the client, a range of valid dates passes
    [checkStartEnd] when both dates are exact days and the start is not
    after the end, and only then.  Otherwise [getTransactions] and
    [getTransactionsOptions] fail with the error that lists every
    violation: those of the start, those of the end, then the order; and
    [getTransactions] leaves the instance as it was, so that no call was
    made. *)
Theorem checkStartEnd_every_violation
  (zone : Temporal.TimeZone) (host : JsDate.Host) (accountsOptions : Json.json)
  (evaluator : Fidelity.EvaluateFunc)
  (ids : list string) (accounts : list Fidelity.Account) (t1 t2 : Z) (st : Fidelity.State) :
  let start := JsDate.DateOf t1 in
  let end_ := JsDate.DateOf t2 in
  let vs := RangeSpec.violations t1 t2 in
  let error := FidelityError ("Invalid date(s): " ++ JsString.join "; " vs) in
  (vs = [] <->
   t1 mod JsDate.msPerDay = 0 /\ t2 mod JsDate.msPerDay = 0 /\ t1 <= t2) /\
  (VariantClient.checkStartEnd start end_ = Return tt <-> vs = []) /\
  (vs <> [] ->
   VariantClient.checkStartEnd start end_ = Throw error /\
   VariantClient.getTransactionsOptions zone host accounts (inl start) (inl end_)
     = Throw error /\
   VariantClient.getTransactions zone host accountsOptions evaluator ids
     (inl start) (inl end_) st
     = (Throw error, st)).
Proof.
  cbv zeta. split; [apply RangeFacts.violations_none|].
  assert (C : VariantClient.checkStartEnd (JsDate.DateOf t1) (JsDate.DateOf t2)
              = match RangeSpec.violations t1 t2 with
                | [] => Return tt
                | vs => Throw (FidelityError ("Invalid date(s): " ++ JsString.join "; " vs))
                end).
  { unfold VariantClient.checkStartEnd. rewrite RangeFacts.checkStartEnd_message.
    now destruct (RangeSpec.violations t1 t2). }
  split.
  - rewrite C. destruct (RangeSpec.violations t1 t2); split; congruence.
  - intros Hne.
    assert (C' : VariantClient.checkStartEnd (JsDate.DateOf t1) (JsDate.DateOf t2)
                 = Throw (FidelityError
                            ("Invalid date(s): "
                             ++ JsString.join "; " (RangeSpec.violations t1 t2)))).
    { rewrite C. destruct (RangeSpec.violations t1 t2); [congruence|reflexivity]. }
    split; [exact C'|]. split.
    + unfold VariantClient.getTransactionsOptions. cbn [VariantClient.toDate].
      cbv zeta. rewrite C'. reflexivity.
    + unfold VariantClient.getTransactions. cbn [VariantClient.toDate]. cbv zeta.
      unfold Fidelity.bind at 1, Fidelity.lift at 1. rewrite C'. reflexivity.
Qed.

(* ------------------------------------------------------------------------- *)
(** ** The order of the dates of the calendar *)

Module MonthFacts.

Import JsDate MonthSpec.

Lemma DaysInMonth_bounds (y m : Z) : 1 <= m <= 12 -> 28 <= DaysInMonth y m <= 31.
Proof.
  intros H.
  assert (C : m = 1 \/ m = 2 \/ m = 3 \/ m = 4 \/ m = 5 \/ m = 6 \/ m = 7 \/ m = 8
              \/ m = 9 \/ m = 10 \/ m = 11 \/ m = 12) by lia.
  unfold DaysInMonth, daysFromCivil, eraDayOfCivil, daysPerEra, eraShift.
  repeat (destruct C as [->|C]); [..|subst m].
  all: match goal with
       | |- context [?a / 12] => let v := eval vm_compute in (a / 12) in change (a / 12) with v
       end.
  all: match goal with
       | |- context [?a mod 12 + 1] =>
           let v := eval vm_compute in (a mod 12 + 1) in change (a mod 12 + 1) with v
       end.
  all: cbn [Z.leb Z.ltb Z.compare Pos.compare Pos.compare_cont CompOpp].
  all: Z.div_mod_to_equations; lia.
Qed.


Lemma firstOfMonth_succ (k : Z) :
  firstOfMonth (k + 1) = firstOfMonth k + DaysInMonth (k / 12) (k mod 12 + 1).
Proof.
  unfold firstOfMonth, DaysInMonth.
  replace (k / 12 + (k mod 12 + 1) / 12) with ((k + 1) / 12)
    by (Z.div_mod_to_equations; lia).
  replace ((k mod 12 + 1) mod 12 + 1) with ((k + 1) mod 12 + 1)
    by (Z.div_mod_to_equations; lia).
  lia.
Qed.

Lemma firstOfMonth_add (n : nat) (k : Z) :
  firstOfMonth k + 28 * Z.of_nat n <= firstOfMonth (k + Z.of_nat n).
Proof.
  induction n as [|n IH].
  - replace (k + Z.of_nat 0) with k by lia. lia.
  - replace (k + Z.of_nat (S n)) with (k + Z.of_nat n + 1) by lia.
    rewrite firstOfMonth_succ.
    pose proof (DaysInMonth_bounds ((k + Z.of_nat n) / 12) ((k + Z.of_nat n) mod 12 + 1)
                  ltac:(pose proof (Z.mod_pos_bound (k + Z.of_nat n) 12); lia)).
    lia.
Qed.

Lemma firstOfMonth_le (k1 k2 : Z) :
  k1 <= k2 -> firstOfMonth k1 + 28 * (k2 - k1) <= firstOfMonth k2.
Proof.
  intros H. pose proof (firstOfMonth_add (Z.to_nat (k2 - k1)) k1) as A.
  rewrite Z2Nat.id in A by lia. now replace (k1 + (k2 - k1)) with k2 in A by lia.
Qed.

(** A date of the calendar, by the number of its month. *)
Lemma daysFromCivil_month (y m d : Z) :
  1 <= m <= 12 -> daysFromCivil y m d = firstOfMonth (12 * y + m - 1) + d - 1.
Proof.
  intros H. unfold firstOfMonth.
  replace ((12 * y + m - 1) / 12) with y by (Z.div_mod_to_equations; lia).
  replace ((12 * y + m - 1) mod 12 + 1) with m by (Z.div_mod_to_equations; lia).
  symmetry. apply DateFacts.daysFromCivil_day.
Qed.

Lemma DaysInMonth_month (y m : Z) :
  1 <= m <= 12 ->
  DaysInMonth y m = firstOfMonth (12 * y + m) - firstOfMonth (12 * y + m - 1).
Proof.
  intros H. replace (12 * y + m) with (12 * y + m - 1 + 1) at 1 by lia.
  rewrite firstOfMonth_succ.
  replace ((12 * y + m - 1) / 12) with y by (Z.div_mod_to_equations; lia).
  replace ((12 * y + m - 1) mod 12 + 1) with m by (Z.div_mod_to_equations; lia).
  lia.
Qed.

(** Later dates of the calendar have greater day numbers. *)
Lemma daysFromCivil_lt (y1 m1 d1 y2 m2 d2 : Z) :
  1 <= m1 <= 12 -> 1 <= d1 <= DaysInMonth y1 m1 ->
  1 <= m2 <= 12 -> 1 <= d2 <= DaysInMonth y2 m2 ->
  12 * y1 + m1 < 12 * y2 + m2 \/ (12 * y1 + m1 = 12 * y2 + m2 /\ d1 < d2) ->
  daysFromCivil y1 m1 d1 < daysFromCivil y2 m2 d2.
Proof.
  intros Hm1 Hd1 Hm2 Hd2 H.
  rewrite (daysFromCivil_month y1 m1 d1 Hm1), (daysFromCivil_month y2 m2 d2 Hm2).
  rewrite (DaysInMonth_month y1 m1 Hm1) in Hd1.
  destruct H as [H|[H Hd]].
  - pose proof (firstOfMonth_le (12 * y1 + m1) (12 * y2 + m2 - 1) ltac:(lia)). lia.
  - replace (12 * y2 + m2 - 1) with (12 * y1 + m1 - 1) by lia. lia.
Qed.

(** The date of the day number of a date of the calendar is that date. *)
Lemma civilFromDays_daysFromCivil (y m d : Z) :
  1 <= m <= 12 -> 1 <= d <= DaysInMonth y m ->
  civilFromDays (daysFromCivil y m d) = (y, m, d).
Proof.
  intros Hm Hd.
  destruct (civilFromDays (daysFromCivil y m d)) as [[y' m'] d'] eqn:E.
  destruct (CalendarFacts.civilFromDays_valid _ _ _ _ E) as [Hm' Hd'].
  pose proof (CalendarFacts.daysFromCivil_civilFromDays _ _ _ _ E) as R.
  assert (K : 12 * y' + m' = 12 * y + m /\ d' = d).
  { destruct (Z.lt_trichotomy (12 * y' + m') (12 * y + m)) as [L|[L|L]].
    - pose proof (daysFromCivil_lt y' m' d' y m d Hm' Hd' Hm Hd (or_introl L)). lia.
    - split; [exact L|].
      destruct (Z.lt_trichotomy d' d) as [D|[D|D]]; [|exact D|].
      + pose proof (daysFromCivil_lt y' m' d' y m d Hm' Hd' Hm Hd (or_intror (conj L D))). lia.
      + pose proof (daysFromCivil_lt y m d y' m' d' Hm Hd Hm' Hd'
                      (or_intror (conj (eq_sym L) D))). lia.
    - pose proof (daysFromCivil_lt y m d y' m' d' Hm Hd Hm' Hd' (or_introl L)). lia. }
  destruct K as [K ->]. assert (y' = y) by lia. assert (m' = m) by lia. now subst.
Qed.

End MonthFacts.

(* ------------------------------------------------------------------------- *)
(** ** Texts of dates *)

Module IsoFacts.

Import JsDate IsoSpec.

Lemma digitsN_app (n : nat) (t : string) :
  forall (acc : Z) (s : string) (v : Z) (r : string),
  digitsN n acc s = Some (v, r) -> digitsN n acc (s ++ t) = Some (v, r ++ t).
Proof.
  induction n as [|n IH]; intros acc s v r H.
  - cbn in *. now injection H as <- <-.
  - cbn [digitsN] in *. destruct s as [|c s]; [discriminate|].
    cbn [append]. destruct (JsString.isDigit c); [|discriminate].
    now apply IH.
Qed.


Lemma isDigit_value (c : ascii) :
  JsString.isDigit c = true ->
  0 <= JsString.digitValue c <= 9 /\ JsString.code c = 48 + JsString.digitValue c.
Proof.
  unfold JsString.isDigit, JsString.digitValue. cbv zeta.
  intros H. apply andb_prop in H. destruct H as [H1 H2].
  apply Z.leb_le in H1, H2. lia.
Qed.

Lemma digitsN_S (k : nat) (acc : Z) (s : string) (v : Z) (r : string) :
  digitsN (S k) acc s = Some (v, r) ->
  exists c s' acc', s = String c s' /\ JsString.isDigit c = true
               /\ acc' = 10 * acc + JsString.digitValue c
               /\ digitsN k acc' s' = Some (v, r).
Proof.
  cbn [digitsN]. destruct s as [|c s']; [discriminate|].
  destruct (JsString.isDigit c) eqn:E; [|discriminate]. eauto 10.
Qed.

Lemma digitsN_O (acc : Z) (s : string) (v : Z) (r : string) :
  digitsN 0 acc s = Some (v, r) -> v = acc /\ r = s.
Proof. cbn. intros H. now injection H as <- <-. Qed.

Lemma hyphen (A : Type) (r1 : string) (K : string -> option A) (x : A) :
  match r1 with String "-" r2 => K r2 | _ => None end = Some x ->
  exists r2, r1 = String "-" r2 /\ K r2 = Some x.
Proof.
  destruct r1 as [|c r2]; [discriminate|].
  destruct c as [[] [] [] [] [] [] [] []]; try discriminate. eauto.
Qed.

Lemma optBind_Some (A B : Type) (o : option A) (k : A -> option B) (x : B) :
  optBind o k = Some x -> exists a, o = Some a /\ k a = Some x.
Proof. destruct o as [a|]; [eauto|discriminate]. Qed.

Lemma isoDate_shaped (s : string) (y m d : Z) :
  Cli.isoDate s = Some (y, m, d) ->
  exists a1 a2 a3 a4 a5 a6 a7 a8,
    s = shaped a1 a2 a3 a4 a5 a6 a7 a8 /\
    Forall (fun c => JsString.isDigit c = true) [a1; a2; a3; a4; a5; a6; a7; a8] /\
    y = 1000 * JsString.digitValue a1 + 100 * JsString.digitValue a2
        + 10 * JsString.digitValue a3 + JsString.digitValue a4 /\
    m = 10 * JsString.digitValue a5 + JsString.digitValue a6 /\
    d = 10 * JsString.digitValue a7 + JsString.digitValue a8 /\
    1 <= m <= 12 /\ 1 <= d <= DaysInMonth y m.
Proof.
  unfold Cli.isoDate. intros H.
  apply optBind_Some in H. destruct H as [[y' r1] [Hy H]].
  apply hyphen in H. destruct H as [r2 [-> H]].
  apply optBind_Some in H. destruct H as [[m' r3] [Hm H]].
  apply hyphen in H. destruct H as [r4 [-> H]].
  apply optBind_Some in H. destruct H as [[d' r5] [Hd H]].
  destruct r5; [|discriminate].
  destruct (_ && _) eqn:V; [|discriminate]. injection H as <- <- <-.
  apply digitsN_S in Hy. destruct Hy as [a1 [s1 [v1 [-> [D1 [E1 Hy]]]]]].
  apply digitsN_S in Hy. destruct Hy as [a2 [s2 [v2 [-> [D2 [E2 Hy]]]]]].
  apply digitsN_S in Hy. destruct Hy as [a3 [s3 [v3 [-> [D3 [E3 Hy]]]]]].
  apply digitsN_S in Hy. destruct Hy as [a4 [s4 [v4 [-> [D4 [E4 Hy]]]]]].
  apply digitsN_O in Hy. destruct Hy as [Ey <-].
  apply digitsN_S in Hm. destruct Hm as [a5 [s5 [v5 [-> [D5 [E5 Hm]]]]]].
  apply digitsN_S in Hm. destruct Hm as [a6 [s6 [v6 [-> [D6 [E6 Hm]]]]]].
  apply digitsN_O in Hm. destruct Hm as [Em <-].
  apply digitsN_S in Hd. destruct Hd as [a7 [s7 [v7 [-> [D7 [E7 Hd]]]]]].
  apply digitsN_S in Hd. destruct Hd as [a8 [s8 [v8 [-> [D8 [E8 Hd]]]]]].
  apply digitsN_O in Hd. destruct Hd as [Ed <-].
  exists a1, a2, a3, a4, a5, a6, a7, a8.
  split; [reflexivity|]. split; [repeat constructor; assumption|].
  repeat (apply andb_prop in V; destruct V as [V ?]).
  repeat match goal with H : (_ <=? _) = true |- _ => apply Z.leb_le in H end.
  repeat split; lia.
Qed.

End IsoFacts.

Module IsoFacts2.

Import JsDate MonthSpec IsoSpec IsoFacts MonthFacts.

Lemma isoDate_parts (s : string) (y m d : Z) :
  Cli.isoDate s = Some (y, m, d) ->
  exists r2 r4,
    digitsN 4 0 s = Some (y, String "-" r2) /\
    digitsN 2 0 r2 = Some (m, String "-" r4) /\
    digitsN 2 0 r4 = Some (d, "") /\
    (1 <=? m) && (m <=? 12) && (1 <=? d) && (d <=? DaysInMonth y m) = true.
Proof.
  unfold Cli.isoDate. intros H.
  apply optBind_Some in H. destruct H as [[y' r1] [Hy H]].
  apply hyphen in H. destruct H as [r2 [-> H]].
  apply optBind_Some in H. destruct H as [[m' r3] [Hm H]].
  apply hyphen in H. destruct H as [r4 [-> H]].
  apply optBind_Some in H. destruct H as [[d' r5] [Hd H]].
  destruct r5; [|discriminate].
  destruct (_ && _) eqn:V; [|discriminate]. injection H as <- <- <-.
  exists r2, r4. auto.
Qed.

(** The text of a date, with or without the time of midnight UTC after
    it, is read as the midnight UTC of the date. *)
Lemma parseISO_isoDate (s : string) (y m d : Z) :
  Cli.isoDate s = Some (y, m, d) ->
  parseISO s = Some (Instant (daysFromCivil y m d * msPerDay)) /\
  parseISO (s ++ "T00:00:00Z") = Some (Instant (daysFromCivil y m d * msPerDay)).
Proof.
  intros H. destruct (isoDate_parts s y m d H) as [r2 [r4 [Hy [Hm [Hd V]]]]].
  split.
  - unfold parseISO. rewrite Hy. cbn [optBind]. rewrite Hm. cbn [optBind].
    rewrite Hd. cbn [optBind]. rewrite V. unfold MakeDate. do 2 f_equal. lia.
  - unfold parseISO.
    rewrite (digitsN_app 4 "T00:00:00Z" 0 s _ _ Hy). cbn [optBind append].
    rewrite (digitsN_app 2 "T00:00:00Z" 0 r2 _ _ Hm). cbn [optBind append].
    rewrite (digitsN_app 2 "T00:00:00Z" 0 r4 _ _ Hd). cbn [optBind append].
    rewrite V.
    change (parseTime "00:00:00Z") with (Some (0, "Z")). cbn [optBind parseZone].
    unfold MakeDate. do 2 f_equal. lia.
Qed.

Lemma firstOfMonth_range (k : Z) :
  0 <= k <= 119999 -> -719528 <= firstOfMonth k <= 2932866.
Proof.
  intros H.
  pose proof (firstOfMonth_le 0 k ltac:(lia)) as L.
  pose proof (firstOfMonth_le k 119999 ltac:(lia)) as U.
  change (firstOfMonth 0) with (-719528) in L.
  change (firstOfMonth 119999) with 2932866 in U. lia.
Qed.

(** The day number of a date that a text names: its year has four
    digits. *)
Lemma isoDate_range (s : string) (y m d : Z) :
  Cli.isoDate s = Some (y, m, d) ->
  0 <= y <= 9999 /\ 1 <= m <= 12 /\ 1 <= d <= DaysInMonth y m
  /\ -719528 <= daysFromCivil y m d <= 2932896.
Proof.
  intros H. destruct (isoDate_shaped s y m d H)
    as [a1 [a2 [a3 [a4 [a5 [a6 [a7 [a8 [_ [F [Ey [Em [Ed [Hm Hd]]]]]]]]]]]]]].
  repeat match goal with
         | F : Forall _ (_ :: _) |- _ =>
             let D := fresh "D" in
             pose proof (isDigit_value _ (Forall_inv F)) as D; apply Forall_inv_tail in F
         end.
  assert (Hy : 0 <= y <= 9999) by lia.
  split; [exact Hy|]. split; [exact Hm|]. split; [exact Hd|].
  rewrite (daysFromCivil_month y m d Hm).
  pose proof (firstOfMonth_range (12 * y + m - 1) ltac:(lia)).
  pose proof (DaysInMonth_bounds y m Hm). lia.
Qed.

End IsoFacts2.

Module OrderFacts.

Import JsDate MonthSpec IsoSpec IsoFacts MonthFacts IsoFacts2.

Lemma ltb_shaped (a1 a2 a3 a4 a5 a6 a7 a8 b1 b2 b3 b4 b5 b6 b7 b8 : ascii) :
  Forall (fun c => JsString.isDigit c = true) [a1; a2; a3; a4; a5; a6; a7; a8] ->
  Forall (fun c => JsString.isDigit c = true) [b1; b2; b3; b4; b5; b6; b7; b8] ->
  JsRelational.ltb (shaped a1 a2 a3 a4 a5 a6 a7 a8) (shaped b1 b2 b3 b4 b5 b6 b7 b8) = true
  <->
  (1000 * JsString.digitValue a1 + 100 * JsString.digitValue a2
   + 10 * JsString.digitValue a3 + JsString.digitValue a4) * 10000
  + (10 * JsString.digitValue a5 + JsString.digitValue a6) * 100
  + (10 * JsString.digitValue a7 + JsString.digitValue a8)
  < (1000 * JsString.digitValue b1 + 100 * JsString.digitValue b2
     + 10 * JsString.digitValue b3 + JsString.digitValue b4) * 10000
    + (10 * JsString.digitValue b5 + JsString.digitValue b6) * 100
    + (10 * JsString.digitValue b7 + JsString.digitValue b8).
Proof.
  intros Fa Fb.
  repeat match goal with
         | F : Forall _ (_ :: _) |- _ =>
             let D := fresh "D" in
             pose proof (isDigit_value _ (Forall_inv F)) as D; apply Forall_inv_tail in F
         end.
  unfold shaped. cbn [JsRelational.ltb].
  change (JsString.code "-") with 45. change (45 <? 45) with false. cbv iota.
  repeat match goal with
         | |- context [if ?a <? ?b then _ else _] => destruct (Z.ltb_spec a b)
         end;
    split; intros; try discriminate; try reflexivity; lia.
Qed.

(** The order of the dates of the calendar is the order of their day
    numbers. *)
Lemma daysFromCivil_lt_iff (y1 m1 d1 y2 m2 d2 : Z) :
  1 <= m1 <= 12 -> 1 <= d1 <= DaysInMonth y1 m1 ->
  1 <= m2 <= 12 -> 1 <= d2 <= DaysInMonth y2 m2 ->
  (daysFromCivil y1 m1 d1 < daysFromCivil y2 m2 d2
   <-> y1 * 10000 + m1 * 100 + d1 < y2 * 10000 + m2 * 100 + d2).
Proof.
  intros Hm1 Hd1 Hm2 Hd2.
  pose proof (DaysInMonth_bounds y1 m1 Hm1). pose proof (DaysInMonth_bounds y2 m2 Hm2).
  split.
  - intros L.
    destruct (Z.lt_trichotomy (12 * y1 + m1) (12 * y2 + m2)) as [K|[K|K]]; [lia| |].
    + destruct (Z.lt_trichotomy d1 d2) as [D|[D|D]]; [lia| |].
      * assert (y1 = y2) by lia. assert (m1 = m2) by lia. subst. lia.
      * pose proof (daysFromCivil_lt y2 m2 d2 y1 m1 d1 Hm2 Hd2 Hm1 Hd1
                      (or_intror (conj (eq_sym K) D))). lia.
    + pose proof (daysFromCivil_lt y2 m2 d2 y1 m1 d1 Hm2 Hd2 Hm1 Hd1 (or_introl K)). lia.
  - intros L. apply daysFromCivil_lt; try assumption. lia.
Qed.

(** On two texts that name dates, [<] is the order of the dates. *)
Lemma ltb_isoDate (s1 s2 : string) (y1 m1 d1 y2 m2 d2 : Z) :
  Cli.isoDate s1 = Some (y1, m1, d1) -> Cli.isoDate s2 = Some (y2, m2, d2) ->
  JsRelational.ltb s1 s2 = (daysFromCivil y1 m1 d1 <? daysFromCivil y2 m2 d2).
Proof.
  intros H1 H2.
  destruct (isoDate_shaped s1 y1 m1 d1 H1)
    as [a1 [a2 [a3 [a4 [a5 [a6 [a7 [a8 [-> [Fa [Ey1 [Em1 [Ed1 [Hm1 Hd1]]]]]]]]]]]]]].
  destruct (isoDate_shaped s2 y2 m2 d2 H2)
    as [b1 [b2 [b3 [b4 [b5 [b6 [b7 [b8 [-> [Fb [Ey2 [Em2 [Ed2 [Hm2 Hd2]]]]]]]]]]]]]].
  pose proof (ltb_shaped a1 a2 a3 a4 a5 a6 a7 a8 b1 b2 b3 b4 b5 b6 b7 b8 Fa Fb) as L.
  rewrite <- Ey1, <- Em1, <- Ed1, <- Ey2, <- Em2, <- Ed2 in L.
  pose proof (daysFromCivil_lt_iff y1 m1 d1 y2 m2 d2 Hm1 Hd1 Hm2 Hd2) as D.
  destruct (Z.ltb_spec (daysFromCivil y1 m1 d1) (daysFromCivil y2 m2 d2)) as [K|K].
  - apply L. now apply D.
  - apply Bool.not_true_is_false. intros E. apply L in E. apply D in E. lia.
Qed.

End OrderFacts.

Module IsoDateFacts.

Import JsDate IsoFacts MonthFacts IsoFacts2 OrderFacts.

(** The date that the text of a date is turned into. *)
Lemma dateOf_isoDate (host : Host) (s : string) (y m d : Z) :
  Cli.isoDate s = Some (y, m, d) ->
  ofString host s = DateOf (daysFromCivil y m d * msPerDay) /\
  ofString host (s ++ "T00:00:00Z") = DateOf (daysFromCivil y m d * msPerDay).
Proof.
  intros H. destruct (parseISO_isoDate s y m d H) as [P1 P2].
  destruct (isoDate_range s y m d H) as [_ [_ [_ R]]].
  assert (C : TimeClip (daysFromCivil y m d * msPerDay)
              = DateOf (daysFromCivil y m d * msPerDay)).
  { unfold TimeClip, msPerDay.
    destruct (Z.leb_spec (Z.abs (daysFromCivil y m d * 86400000)) 8640000000000000);
      [reflexivity|lia]. }
  unfold ofString, parse. rewrite P1, P2. auto.
Qed.

Lemma Day_exact (n : Z) : Day (n * msPerDay) = n.
Proof. unfold Day, msPerDay. apply Z.div_mul. discriminate. Qed.

End IsoDateFacts.

(** X11.  A text [YYYY-MM-DD] that names a date of the calendar, with
    [T00:00:00Z] put after it as the command line and the other copy of the
    client do, is read as the midnight UTC of that date on every host: an
    exact day, which [checkDate] accepts, and whose UTC year, month and day
    are those written. *)
Theorem isoDate_text_is_exact_day
  (host : JsDate.Host) (text : string) (y m d : Z) :
  Cli.isoDate text = Some (y, m, d) ->
  let date := JsDate.DateOf (JsDate.daysFromCivil y m d * JsDate.msPerDay) in
  Cli.dateOf host text = date /\
  VariantClient.toDate host (inr text) = date /\
  ClientSpec.exactDay date /\
  Fidelity.checkDate date = "" /\
  JsDate.getUTCFullYear date = Some y /\
  JsDate.getUTCMonth date = Some (m - 1) /\
  JsDate.getUTCDate date = Some d.
Proof.
  intros H. cbv zeta.
  destruct (IsoDateFacts.dateOf_isoDate host text y m d H) as [_ P].
  destruct (IsoFacts2.isoDate_range text y m d H) as [_ [Hm [Hd _]]].
  assert (X : ClientSpec.exactDay
                (JsDate.DateOf (JsDate.daysFromCivil y m d * JsDate.msPerDay)))
    by (eexists; reflexivity).
  split; [exact P|]. split; [exact P|]. split; [exact X|].
  split; [exact (FidelityFacts.checkDate_exactDay _ X)|].
  unfold JsDate.getUTCFullYear, JsDate.getUTCMonth, JsDate.getUTCDate, JsDate.getter,
    JsDate.YearFromTime, JsDate.MonthFromTime, JsDate.DateFromTime.
  rewrite IsoDateFacts.Day_exact, (MonthFacts.civilFromDays_daysFromCivil y m d Hm Hd).
  cbn [fst snd]. repeat split.
Qed.

(** 2024-02-29. *)
Lemma isoDate_text_is_exact_day_witness :
  let date := JsDate.DateOf (JsDate.daysFromCivil 2024 2 29 * JsDate.msPerDay) in
  Cli.dateOf Mock.host "2024-02-29" = date /\
  VariantClient.toDate Mock.host (inr "2024-02-29") = date /\
  ClientSpec.exactDay date /\
  Fidelity.checkDate date = "" /\
  JsDate.getUTCFullYear date = Some 2024 /\
  JsDate.getUTCMonth date = Some (2 - 1) /\
  JsDate.getUTCDate date = Some 29.
Proof.
  apply (isoDate_text_is_exact_day Mock.host "2024-02-29" 2024 2 29).
  vm_compute. reflexivity.
Defined.

(** X12.  On two texts that name dates, the comparison [start <= end] of
    the command line's schema is the order of the dates: it holds exactly
    when the start, as the [Date] handed to the client, is not after the
    end.  Dates that the schema accepts pass the validation of both copies
    of the client. *)
Theorem startNotAfterEnd_is_date_order
  (host : JsDate.Host) (start end_ : string) (y1 m1 d1 y2 m2 d2 : Z) :
  Cli.isoDate start = Some (y1, m1, d1) ->
  Cli.isoDate end_ = Some (y2, m2, d2) ->
  Cli.startNotAfterEnd start end_
    = (JsDate.daysFromCivil y1 m1 d1 <=? JsDate.daysFromCivil y2 m2 d2) /\
  Cli.startNotAfterEnd start end_
    = negb (FidelityVariant.dateGt (Cli.dateOf host start) (Cli.dateOf host end_)) /\
  (Cli.validOptions start end_ = true ->
   Fidelity.checkDate (Cli.dateOf host start) = "" /\
   Fidelity.checkDate (Cli.dateOf host end_) = "" /\
   VariantClient.checkStartEnd (Cli.dateOf host start) (Cli.dateOf host end_) = Return tt).
Proof.
  intros H1 H2.
  destruct (IsoDateFacts.dateOf_isoDate host start y1 m1 d1 H1) as [_ P1].
  destruct (IsoDateFacts.dateOf_isoDate host end_ y2 m2 d2 H2) as [_ P2].
  assert (O : Cli.startNotAfterEnd start end_
              = (JsDate.daysFromCivil y1 m1 d1 <=? JsDate.daysFromCivil y2 m2 d2)).
  { unfold Cli.startNotAfterEnd, JsRelational.leb.
    rewrite (OrderFacts.ltb_isoDate end_ start y2 m2 d2 y1 m1 d1 H2 H1).
    destruct (Z.ltb_spec (JsDate.daysFromCivil y2 m2 d2) (JsDate.daysFromCivil y1 m1 d1));
      destruct (Z.leb_spec (JsDate.daysFromCivil y1 m1 d1) (JsDate.daysFromCivil y2 m2 d2));
      try reflexivity; lia. }
  split; [exact O|]. unfold Cli.dateOf in *. rewrite P1, P2. split.
  - rewrite O. unfold FidelityVariant.dateGt, JsDate.msPerDay.
    destruct (Z.ltb_spec (JsDate.daysFromCivil y2 m2 d2 * 86400000)
                         (JsDate.daysFromCivil y1 m1 d1 * 86400000));
      destruct (Z.leb_spec (JsDate.daysFromCivil y1 m1 d1) (JsDate.daysFromCivil y2 m2 d2));
      try reflexivity; lia.
  - unfold Cli.validOptions. rewrite H1, H2, O. intros L. apply Z.leb_le in L.
    split; [apply FidelityFacts.checkDate_exactDay; eexists; reflexivity|].
    split; [apply FidelityFacts.checkDate_exactDay; eexists; reflexivity|].
    unfold VariantClient.checkStartEnd. rewrite RangeFacts.checkStartEnd_message.
    replace (RangeSpec.violations _ _) with (@nil string); [reflexivity|].
    symmetry. apply RangeFacts.violations_none. unfold JsDate.msPerDay.
    rewrite !Z.mod_mul by discriminate. lia.
Qed.

(** The range of the repository's test. *)
Lemma startNotAfterEnd_is_date_order_witness :
  Cli.startNotAfterEnd "2025-11-28" "2025-12-02"
    = (JsDate.daysFromCivil 2025 11 28 <=? JsDate.daysFromCivil 2025 12 2) /\
  Cli.startNotAfterEnd "2025-11-28" "2025-12-02"
    = negb (FidelityVariant.dateGt (Cli.dateOf Mock.host "2025-11-28")
                                   (Cli.dateOf Mock.host "2025-12-02")) /\
  (Cli.validOptions "2025-11-28" "2025-12-02" = true ->
   Fidelity.checkDate (Cli.dateOf Mock.host "2025-11-28") = "" /\
   Fidelity.checkDate (Cli.dateOf Mock.host "2025-12-02") = "" /\
   VariantClient.checkStartEnd (Cli.dateOf Mock.host "2025-11-28")
     (Cli.dateOf Mock.host "2025-12-02") = Return tt).
Proof.
  apply (startNotAfterEnd_is_date_order Mock.host "2025-11-28" "2025-12-02"
           2025 11 28 2025 12 2).
  - vm_compute. reflexivity.
  - vm_compute. reflexivity.
Defined.

(* ------------------------------------------------------------------------- *)
(** ** Midnight in America/New_York *)

Module ZoneFacts.

Import JsDate Temporal ZoneSpec MonthSpec.

(** *** The calendar of a year *)

Lemma firstOfMonth_january (y : Z) : firstOfMonth (12 * y) = daysFromCivil y 1 1.
Proof.
  unfold firstOfMonth.
  replace (12 * y / 12) with y by (Z.div_mod_to_equations; lia).
  replace ((12 * y) mod 12 + 1) with 1 by (Z.div_mod_to_equations; lia).
  reflexivity.
Qed.

Lemma firstOfMonth_next_january (y : Z) :
  firstOfMonth (12 * y + 12) = daysFromCivil (y + 1) 1 1.
Proof. rewrite <- firstOfMonth_january. f_equal. lia. Qed.

(** The days of a year lie between its first of January and the next. *)
Lemma year_bounds (D : Z) :
  daysFromCivil (yearOfDay D) 1 1 <= D < daysFromCivil (yearOfDay D + 1) 1 1.
Proof.
  unfold yearOfDay. destruct (civilFromDays D) as [[y m] d] eqn:E. cbn [fst].
  destruct (CalendarFacts.civilFromDays_valid _ _ _ _ E) as [Hm Hd].
  pose proof (CalendarFacts.daysFromCivil_civilFromDays _ _ _ _ E) as R.
  rewrite (MonthFacts.daysFromCivil_month y m d Hm) in R.
  rewrite (MonthFacts.DaysInMonth_month y m Hm) in Hd.
  pose proof (MonthFacts.firstOfMonth_le (12 * y) (12 * y + m - 1)).
  pose proof (MonthFacts.firstOfMonth_le (12 * y + m) (12 * y + 12)).
  rewrite <- firstOfMonth_next_january, <- firstOfMonth_january. lia.
Qed.

(** A year has 336 days or more. *)
Lemma year_le (y y' : Z) :
  y < y' -> daysFromCivil (y + 1) 1 1 + 336 * (y' - y - 1) <= daysFromCivil y' 1 1.
Proof.
  intros H. pose proof (MonthFacts.firstOfMonth_le (12 * y + 12) (12 * y')).
  rewrite <- firstOfMonth_next_january, <- firstOfMonth_january. lia.
Qed.

(** The year of the next day: the same, or the next on its first day. *)
Lemma year_next (D : Z) :
  (yearOfDay (D + 1) = yearOfDay D /\ D + 1 < daysFromCivil (yearOfDay D + 1) 1 1)
  \/ (yearOfDay (D + 1) = yearOfDay D + 1 /\ D + 1 = daysFromCivil (yearOfDay D + 1) 1 1).
Proof.
  pose proof (year_bounds D) as B. pose proof (year_bounds (D + 1)) as B'.
  set (y := yearOfDay D) in *. set (y' := yearOfDay (D + 1)) in *.
  destruct (Z.lt_trichotomy y' y) as [H|[H|H]].
  - pose proof (year_le y' y H). lia.
  - left. rewrite H in *. lia.
  - pose proof (year_le y y' H) as L.
    destruct (Z.eq_dec y' (y + 1)) as [E|E].
    + right. rewrite E in *. lia.
    + pose proof (year_le (y + 1) y' ltac:(lia)) as L'.
      pose proof (year_le y (y + 1) ltac:(lia)) as L''.
      replace (y + 1 + 1) with (y + 2) in * by lia.
      pose proof (MonthFacts.firstOfMonth_le (12 * (y + 1)) (12 * (y + 1) + 12)) as L3.
      rewrite firstOfMonth_january, firstOfMonth_next_january in L3.
      replace (y + 1 + 1) with (y + 2) in * by lia. lia.
Qed.

(** *** The table of the years *)

Lemma sundayOnOrAfter_bounds (y m d : Z) :
  daysFromCivil y m d <= sundayOnOrAfter y m d <= daysFromCivil y m d + 6.
Proof.
  unfold sundayOnOrAfter. cbv zeta.
  pose proof (Z.mod_pos_bound (7 - (daysFromCivil y m d + 4) mod 7) 7). lia.
Qed.

(** Under the rule since 2007 daylight time begins after the first 63
    days of the year, lasts more than 200 days, and ends 50 days or more
    before the next year. *)
Lemma daylight_in_year (y : Z) :
  daysFromCivil y 1 1 + 63 <= sundayOnOrAfter y 3 8 /\
  sundayOnOrAfter y 3 8 + 200 <= sundayOnOrAfter y 11 1 /\
  sundayOnOrAfter y 11 1 + 50 <= daysFromCivil (y + 1) 1 1.
Proof.
  pose proof (sundayOnOrAfter_bounds y 3 8) as S.
  pose proof (sundayOnOrAfter_bounds y 11 1) as E.
  rewrite (MonthFacts.daysFromCivil_month y 3 8) in S by lia.
  rewrite (MonthFacts.daysFromCivil_month y 11 1) in E by lia.
  replace (12 * y + 3 - 1) with (12 * y + 2) in S by lia.
  replace (12 * y + 11 - 1) with (12 * y + 10) in E by lia.
  pose proof (MonthFacts.firstOfMonth_le (12 * y) (12 * y + 2)).
  pose proof (MonthFacts.firstOfMonth_le (12 * y + 2) (12 * y + 10)).
  pose proof (MonthFacts.firstOfMonth_le (12 * y + 10) (12 * y + 12)).
  rewrite <- firstOfMonth_next_january, <- firstOfMonth_january. lia.
Qed.

Lemma daylight_before_1918 (y : Z) : y < 1918 -> daylight y = Standard.
Proof. intros H. unfold daylight. apply Z.ltb_lt in H. now rewrite H. Qed.

Lemma daylight_since_2007 (y : Z) :
  2007 <= y -> daylight y = Between (sundayOnOrAfter y 3 8) (sundayOnOrAfter y 11 1).
Proof.
  intros H. unfold daylight.
  repeat match goal with
         | |- context [?a <? ?b] =>
             replace (a <? b) with false by (symmetry; apply Z.ltb_ge; lia)
         | |- context [?a =? ?b] =>
             replace (a =? b) with false by (symmetry; apply Z.eqb_neq; lia)
         end.
  reflexivity.
Qed.

(** The years 1917 to 2006, one by one. *)
Lemma tableOk_to_2006 : CalendarSpec.allFrom 90 1917 tableOk = true.
Proof. vm_compute. reflexivity. Qed.

Lemma tableOk_all (y : Z) : tableOk y = true.
Proof.
  destruct (Z.lt_ge_cases y 1917) as [H|H].
  - unfold tableOk, endsInDaylight, startsInDaylight.
    rewrite (daylight_before_1918 y), (daylight_before_1918 (y + 1)) by lia. reflexivity.
  - destruct (Z.lt_ge_cases y 2007) as [H'|H'].
    + apply (CalendarFacts.allFrom_spec tableOk 90 1917 tableOk_to_2006). lia.
    + unfold tableOk, endsInDaylight, startsInDaylight.
      rewrite (daylight_since_2007 y), (daylight_since_2007 (y + 1)) by lia.
      pose proof (daylight_in_year y) as [A [B C]].
      cbn [Bool.eqb andb]. rewrite Bool.andb_true_r.
      apply andb_true_intro; split; [apply andb_true_intro; split|]; apply Z.leb_le; lia.
Qed.

(** What the table says of a year, as inequalities. *)
Lemma table_facts (y : Z) :
  let J := daysFromCivil y 1 1 in
  let J' := daysFromCivil (y + 1) 1 1 in
  match daylight y with
  | Standard | Throughout => True
  | Between first last => J + 1 <= first /\ first + 2 <= last /\ last + 2 <= J'
  | From first => J + 1 <= first /\ first + 2 <= J'
  | Until last => J + 1 <= last /\ last + 2 <= J'
  end /\
  endsInDaylight y = startsInDaylight (y + 1).
Proof.
  pose proof (tableOk_all y) as T. unfold tableOk in T. cbv zeta in *.
  apply andb_prop in T. destruct T as [T S]. split; [|now apply Bool.eqb_prop].
  destruct (daylight y); auto;
    repeat (apply andb_prop in T; destruct T as [T ?]);
    repeat match goal with H : (_ <=? _) = true |- _ => apply Z.leb_le in H end;
    auto.
Qed.

(** *** From one day to the next *)

(** The midnights of two days that follow each other differ in daylight
    time exactly when the clocks change on the first. *)
Lemma daylightAt_step (D : Z) :
  (begins D = true <-> daylightAt D = false /\ daylightAt (D + 1) = true) /\
  (ends D = true <-> daylightAt D = true /\ daylightAt (D + 1) = false).
Proof.
  pose proof (year_bounds D) as B.
  pose proof (table_facts (yearOfDay D)) as [T S]. cbv zeta in T.
  unfold begins, ends, daylightAt.
  destruct (year_next D) as [[-> N]|[-> N]].
  - (* the next day is of the same year *)
    clear S. revert B T N.
    generalize (daysFromCivil (yearOfDay D) 1 1) (daysFromCivil (yearOfDay D + 1) 1 1).
    intros J J' B T N.
    destruct (daylight (yearOfDay D)) as [|f l|f| |l];
      repeat match goal with
             | |- context [?a <? ?b] => destruct (Z.ltb_spec a b)
             | |- context [?a <=? ?b] => destruct (Z.leb_spec a b)
             | |- context [?a =? ?b] => destruct (Z.eqb_spec a b)
             end;
      cbn [andb]; repeat split; intros; try discriminate; try lia;
      repeat match goal with H : _ /\ _ |- _ => destruct H end; try discriminate; try lia.
  - (* the next day is the first of the next year *)
    pose proof (table_facts (yearOfDay D + 1)) as [T' _]. cbv zeta in T'.
    unfold endsInDaylight, startsInDaylight in S.
    revert B T T' N.
    generalize (daysFromCivil (yearOfDay D) 1 1) (daysFromCivil (yearOfDay D + 1) 1 1)
               (daysFromCivil (yearOfDay D + 1 + 1) 1 1).
    intros J J' J'' B T T' N.
    destruct (daylight (yearOfDay D)) as [|f l|f| |l];
      destruct (daylight (yearOfDay D + 1)) as [|f' l'|f'| |l']; try discriminate S;
      repeat match goal with
             | |- context [?a <? ?b] => destruct (Z.ltb_spec a b)
             | |- context [?a <=? ?b] => destruct (Z.leb_spec a b)
             | |- context [?a =? ?b] => destruct (Z.eqb_spec a b)
             end;
      cbn [andb]; repeat split; intros; try discriminate; try lia;
      repeat match goal with H : _ /\ _ |- _ => destruct H end; try discriminate; try lia.
Qed.

(** The clocks do not change on two days that follow each other. *)
Lemma changes_apart (D : Z) :
  (begins D = true -> ends (D + 1) = false) /\
  (ends D = true -> begins (D + 1) = false).
Proof.
  pose proof (year_bounds D) as B.
  pose proof (table_facts (yearOfDay D)) as [T S]. cbv zeta in T.
  unfold begins, ends.
  destruct (year_next D) as [[-> N]|[-> N]].
  - clear S. revert B T N.
    generalize (daysFromCivil (yearOfDay D) 1 1) (daysFromCivil (yearOfDay D + 1) 1 1).
    intros J J' B T N.
    destruct (daylight (yearOfDay D)) as [|f l|f| |l];
      repeat match goal with
             | |- context [?a =? ?b] => destruct (Z.eqb_spec a b)
             end;
      repeat split; intros; try discriminate; try reflexivity; lia.
  - pose proof (table_facts (yearOfDay D + 1)) as [T' _]. cbv zeta in T'.
    clear S. revert B T T' N.
    generalize (daysFromCivil (yearOfDay D) 1 1) (daysFromCivil (yearOfDay D + 1) 1 1)
               (daysFromCivil (yearOfDay D + 1 + 1) 1 1).
    intros J J' J'' B T T' N.
    destruct (daylight (yearOfDay D)) as [|f l|f| |l];
      destruct (daylight (yearOfDay D + 1)) as [|f' l'|f'| |l'];
      repeat match goal with
             | |- context [?a =? ?b] => destruct (Z.eqb_spec a b)
             end;
      repeat split; intros; try discriminate; try reflexivity; lia.
Qed.

(** No day stands alone: the midnight of a day is in daylight time as
    that of the day before or that of the day after. *)
Lemma daylightAt_neighbour (D : Z) :
  daylightAt D = daylightAt (D - 1) \/ daylightAt D = daylightAt (D + 1).
Proof.
  destruct (daylightAt_step (D - 1)) as [B1 E1].
  destruct (daylightAt_step D) as [B2 E2].
  destruct (changes_apart (D - 1)) as [C1 C2].
  replace (D - 1 + 1) with D in * by lia.
  destruct (daylightAt (D - 1)) eqn:X1, (daylightAt D) eqn:X, (daylightAt (D + 1)) eqn:X2; auto.
  - (* daylight, standard, daylight *)
    exfalso. assert (He : ends (D - 1) = true) by (apply E1; auto).
    assert (Hb : begins D = true) by (apply B2; auto).
    rewrite (C2 He) in Hb. discriminate.
  - (* standard, daylight, standard *)
    exfalso. assert (Hb : begins (D - 1) = true) by (apply B1; auto).
    assert (He : ends D = true) by (apply E2; auto).
    rewrite (C1 Hb) in He. discriminate.
Qed.

(** *** The offset at a midnight *)

Lemma firstStandardDay_value : firstStandardDay = -31454.
Proof. reflexivity. Qed.

Lemma americaNewYork_local_mean_time (t : Z) :
  t < standardTimeStart -> americaNewYork t = -17762.
Proof. intros H. unfold americaNewYork. apply Z.ltb_lt in H. now rewrite H. Qed.

(** The offset in the first six hours of a day. *)
Lemma americaNewYork_morning (D c : Z) :
  firstStandardDay <= D -> 0 <= c < 21600 ->
  americaNewYork (D * secondsPerDay + c) = if daylightAt D then -14400 else -18000.
Proof.
  rewrite firstStandardDay_value. intros HD Hc.
  unfold americaNewYork. cbv zeta.
  replace (D * secondsPerDay + c <? standardTimeStart) with false
    by (symmetry; apply Z.ltb_ge; unfold standardTimeStart, secondsPerDay; lia).
  replace ((D * secondsPerDay + c) / secondsPerDay) with D
    by (unfold secondsPerDay; Z.div_mod_to_equations; lia).
  unfold daylightAt, yearOfDay.
  destruct (daylight (fst (fst (civilFromDays D)))) as [|f l|f| |l];
    unfold secondsPerDay;
    repeat match goal with
           | |- context [?a <? ?b] => destruct (Z.ltb_spec a b)
           | |- context [?a <=? ?b] => destruct (Z.leb_spec a b)
           end;
    cbn [andb]; try reflexivity; lia.
Qed.

(** The offset is one of three. *)
Lemma americaNewYork_offsets (t : Z) :
  americaNewYork t = -17762 \/ americaNewYork t = -18000 \/ americaNewYork t = -14400.
Proof.
  unfold americaNewYork. cbv zeta. destruct (t <? standardTimeStart); [now left|].
  match goal with |- context [if ?b then _ else _] => destruct b end; auto.
Qed.

(** [instantFor] when the two instants tried show one offset, and it is
    that of the day before or of the day after. *)
Lemma instantFor_pick (tz : TimeZone) (local o : Z) :
  tz (local - tz (local - secondsPerDay)) = o ->
  tz (local - tz (local + secondsPerDay)) = o ->
  o = tz (local - secondsPerDay) \/ o = tz (local + secondsPerDay) ->
  instantFor tz local = local - o.
Proof.
  unfold instantFor, possibleInstants. cbv zeta.
  generalize (tz (local - secondsPerDay)) (tz (local + secondsPerDay)). intros o1 o2 A B H.
  rewrite Z.min_comm, Z.max_comm.
  destruct (Z.eqb_spec (local - o1) (local - o2)) as [E|E].
  - assert (X : o = o1) by (destruct H; lia).
    cbn [List.filter]. rewrite A.
    destruct (Z.eqb_spec (local - o1 + o) local); [f_equal; lia|lia].
  - destruct (Z.min_spec (local - o2) (local - o1)) as [[L ->]|[L ->]];
      destruct (Z.max_spec (local - o2) (local - o1)) as [[L' ->]|[L' ->]]; try lia;
      cbn [List.filter]; rewrite A, B;
      destruct (Z.eqb_spec (local - o1 + o) local);
      destruct (Z.eqb_spec (local - o2 + o) local);
      try reflexivity; try (f_equal; lia); exfalso; destruct H; lia.
Qed.

(** The instant at which the zone shows the midnight of a day. *)
Lemma instantFor_midnight (D : Z) :
  instantFor americaNewYork (D * secondsPerDay) = D * secondsPerDay - midnightOffset D /\
  americaNewYork (D * secondsPerDay - midnightOffset D) = midnightOffset D.
Proof.
  unfold midnightOffset. rewrite firstStandardDay_value.
  destruct (Z.ltb_spec D (-31454)) as [H|H].
  - (* local mean time *)
    destruct (Z.eq_dec D (-31455)) as [->|N]; [vm_compute; split; reflexivity|].
    assert (L : forall c, c <= 86400 ->
                americaNewYork (D * secondsPerDay + c) = -17762).
    { intros c Hc. apply americaNewYork_local_mean_time.
      unfold standardTimeStart, secondsPerDay. lia. }
    assert (A : americaNewYork (D * secondsPerDay - secondsPerDay) = -17762).
    { replace (D * secondsPerDay - secondsPerDay) with (D * secondsPerDay + -86400)
        by (unfold secondsPerDay; lia). apply L. lia. }
    assert (B : americaNewYork (D * secondsPerDay + secondsPerDay) = -17762).
    { replace (D * secondsPerDay + secondsPerDay) with (D * secondsPerDay + 86400)
        by (unfold secondsPerDay; lia). apply L. lia. }
    assert (C : americaNewYork (D * secondsPerDay - -17762) = -17762).
    { replace (D * secondsPerDay - -17762) with (D * secondsPerDay + 17762) by lia.
      apply L. lia. }
    split; [|exact C].
    apply instantFor_pick; rewrite ?A, ?B; auto.
  - destruct (Z.eq_dec D (-31454)) as [->|N]; [vm_compute; split; reflexivity|].
    assert (M : forall b : bool,
                americaNewYork (D * secondsPerDay - (if b then -14400 else -18000))
                = if daylightAt D then -14400 else -18000).
    { intros b.
      replace (D * secondsPerDay - (if b then -14400 else -18000))
        with (D * secondsPerDay + (if b then 14400 else 18000)) by (destruct b; lia).
      apply americaNewYork_morning; [rewrite firstStandardDay_value|destruct b]; lia. }
    assert (A : americaNewYork (D * secondsPerDay - secondsPerDay)
                = if daylightAt (D - 1) then -14400 else -18000).
    { replace (D * secondsPerDay - secondsPerDay) with ((D - 1) * secondsPerDay + 0)
        by (unfold secondsPerDay; lia).
      apply americaNewYork_morning; [rewrite firstStandardDay_value|]; lia. }
    assert (B : americaNewYork (D * secondsPerDay + secondsPerDay)
                = if daylightAt (D + 1) then -14400 else -18000).
    { replace (D * secondsPerDay + secondsPerDay) with ((D + 1) * secondsPerDay + 0)
        by (unfold secondsPerDay; lia).
      apply americaNewYork_morning; [rewrite firstStandardDay_value|]; lia. }
    split; [|exact (M (daylightAt D))].
    apply instantFor_pick; rewrite ?A, ?B, ?M; try reflexivity.
    destruct (daylightAt_neighbour D) as [<-|<-]; auto.
Qed.

(** [fidelityDate] on a valid date, by [instantFor]. *)
Lemma fidelityDate_instantFor (tz : TimeZone) (t : Z) :
  Z.abs (instantFor tz (Day t * secondsPerDay)) <= instantLimit ->
  Fidelity.fidelityDate tz (DateOf t)
  = Return (JsString.ofZ (instantFor tz (Day t * secondsPerDay))).
Proof.
  intros L. unfold Fidelity.fidelityDate.
  unfold getUTCFullYear, getUTCMonth, getUTCDate, getter, option_map,
    YearFromTime, MonthFromTime, DateFromTime.
  destruct (civilFromDays (Day t)) as [[y m] d] eqn:E. cbn [fst snd].
  destruct (CalendarFacts.civilFromDays_valid _ _ _ _ E) as [Hm Hd].
  pose proof (CalendarFacts.daysFromCivil_civilFromDays _ _ _ _ E) as Hr.
  unfold zonedMidnightEpochMilliseconds.
  replace (m - 1 + 1) with m by lia.
  replace (m <? 1) with false by (symmetry; apply Z.ltb_ge; lia).
  replace (d <? 1) with false by (symmetry; apply Z.ltb_ge; lia).
  cbn [orb]. cbv zeta.
  rewrite (Z.min_l m 12) by lia. rewrite (Z.min_l d) by lia. rewrite Hr.
  apply Z.leb_le in L. rewrite L. cbn [bindC].
  do 2 f_equal. rewrite (Z.mul_comm 1000). apply Z.div_mul. discriminate.
Qed.

Lemma midnightOffset_values (D : Z) :
  (D < firstStandardDay /\ midnightOffset D = -17762)
  \/ (firstStandardDay <= D
      /\ (midnightOffset D = -18000 /\ daylightAt D = false
          \/ midnightOffset D = -14400 /\ daylightAt D = true)).
Proof.
  unfold midnightOffset.
  destruct (Z.ltb_spec D firstStandardDay); [left; auto|right].
  split; [assumption|]. destruct (daylightAt D); auto.
Qed.

Lemma Day_range (t : Z) :
  -8640000000000000 <= t < 8640000000000000 -> -100000000 <= Day t < 100000000.
Proof.
  intros Ht. unfold Day, msPerDay. split.
  - apply Z.div_le_lower_bound; lia.
  - apply Z.div_lt_upper_bound; lia.
Qed.

(** [fidelityDate] on a valid date, the last day that a [Date] holds
    apart: the epoch seconds of the midnight of its day in the zone. *)
Lemma fidelityDate_midnight (t : Z) :
  -8640000000000000 <= t < 8640000000000000 ->
  Fidelity.fidelityDate americaNewYork (DateOf t)
  = Return (JsString.ofZ (Day t * secondsPerDay - midnightOffset (Day t))).
Proof.
  intros Ht. pose proof (Day_range t Ht) as HD.
  destruct (instantFor_midnight (Day t)) as [I _].
  rewrite <- I. apply fidelityDate_instantFor. rewrite I.
  unfold instantLimit, secondsPerDay.
  destruct (midnightOffset_values (Day t)) as [[_ ->]|[_ [[-> _]|[-> _]]]]; lia.
Qed.

End ZoneFacts.

(** C7 (amended).  For every valid date from 19 November 1883 on, the
    first day that begins in standard time, [fidelityDate] returns the
    decimal string of the epoch seconds of the instant at which the clocks
    of America/New_York show the midnight of its calendar day.  The seconds
    depend on the day only and grow strictly with it; from one day to the
    next they grow by 24 hours less the change of the offset between the
    two midnights: by 23 hours exactly when daylight time begins on the
    first of the two days, by 25 hours exactly when it ends on it, and by
    24 hours otherwise. *)
Theorem fidelityDate_increasing_by_day (t1 t2 : Z) :
  ZoneSpec.standardTimeDay t1 -> ZoneSpec.standardTimeDay t2 ->
  exists e1 e2 : Z,
    Fidelity.fidelityDate Temporal.americaNewYork (JsDate.DateOf t1)
      = Return (JsString.ofZ e1) /\
    Fidelity.fidelityDate Temporal.americaNewYork (JsDate.DateOf t2)
      = Return (JsString.ofZ e2) /\
    e1 + Temporal.americaNewYork e1 = JsDate.Day t1 * Temporal.secondsPerDay /\
    e2 + Temporal.americaNewYork e2 = JsDate.Day t2 * Temporal.secondsPerDay /\
    (JsDate.Day t1 = JsDate.Day t2 -> e1 = e2) /\
    (JsDate.Day t1 < JsDate.Day t2 -> e1 < e2) /\
    (JsDate.Day t2 = JsDate.Day t1 + 1 ->
     e2 - e1 = 24 * 3600 + Temporal.americaNewYork e1 - Temporal.americaNewYork e2 /\
     (e2 - e1 = 23 * 3600 \/ e2 - e1 = 24 * 3600 \/ e2 - e1 = 25 * 3600) /\
     (e2 - e1 = 23 * 3600 <-> ZoneSpec.begins (JsDate.Day t1) = true) /\
     (e2 - e1 = 25 * 3600 <-> ZoneSpec.ends (JsDate.Day t1) = true)).
Proof.
  intros [H1 U1] [H2 U2].
  assert (L1 : -8640000000000000 <= t1).
  { rewrite ZoneFacts.firstStandardDay_value in H1. unfold JsDate.Day, JsDate.msPerDay in H1.
    Z.div_mod_to_equations. lia. }
  assert (L2 : -8640000000000000 <= t2).
  { rewrite ZoneFacts.firstStandardDay_value in H2. unfold JsDate.Day, JsDate.msPerDay in H2.
    Z.div_mod_to_equations. lia. }
  exists (JsDate.Day t1 * Temporal.secondsPerDay - ZoneSpec.midnightOffset (JsDate.Day t1)),
         (JsDate.Day t2 * Temporal.secondsPerDay - ZoneSpec.midnightOffset (JsDate.Day t2)).
  split; [exact (ZoneFacts.fidelityDate_midnight t1 (conj L1 U1))|].
  split; [exact (ZoneFacts.fidelityDate_midnight t2 (conj L2 U2))|].
  rewrite (proj2 (ZoneFacts.instantFor_midnight (JsDate.Day t1))),
          (proj2 (ZoneFacts.instantFor_midnight (JsDate.Day t2))).
  split; [lia|]. split; [lia|].
  split; [intros E; rewrite E; reflexivity|].
  pose proof (ZoneFacts.midnightOffset_values (JsDate.Day t1)) as V1.
  pose proof (ZoneFacts.midnightOffset_values (JsDate.Day t2)) as V2.
  destruct V1 as [[V1 _]|[_ V1]]; [lia|].
  destruct V2 as [[V2 _]|[_ V2]]; [lia|].
  unfold Temporal.secondsPerDay. split.
  - intros Lt. destruct V1 as [[-> _]|[-> _]], V2 as [[-> _]|[-> _]]; lia.
  - intros E. rewrite E in *.
    destruct (ZoneFacts.daylightAt_step (JsDate.Day t1)) as [SB SE].
    destruct V1 as [[-> X1]|[-> X1]], V2 as [[-> X2]|[-> X2]];
      rewrite X1, X2 in SB, SE;
      (split; [lia|]); (split; [lia|]);
      split; split; intros K; try lia;
      try (apply SB; split; reflexivity); try (apply SE; split; reflexivity);
      try (apply SB in K; destruct K; discriminate);
      try (apply SE in K; destruct K; discriminate).
Qed.

(** 9 and 10 March 2025: daylight time begins on the first, and the
    seconds grow by 23 hours. *)
Lemma fidelityDate_increasing_by_day_witness :
  exists e1 e2 : Z,
    Fidelity.fidelityDate Temporal.americaNewYork (JsDate.DateOf 1741478400000)
      = Return (JsString.ofZ e1) /\
    Fidelity.fidelityDate Temporal.americaNewYork (JsDate.DateOf 1741564800000)
      = Return (JsString.ofZ e2) /\
    e1 + Temporal.americaNewYork e1 = JsDate.Day 1741478400000 * Temporal.secondsPerDay /\
    e2 + Temporal.americaNewYork e2 = JsDate.Day 1741564800000 * Temporal.secondsPerDay /\
    (JsDate.Day 1741478400000 = JsDate.Day 1741564800000 -> e1 = e2) /\
    (JsDate.Day 1741478400000 < JsDate.Day 1741564800000 -> e1 < e2) /\
    (JsDate.Day 1741564800000 = JsDate.Day 1741478400000 + 1 ->
     e2 - e1 = 24 * 3600 + Temporal.americaNewYork e1 - Temporal.americaNewYork e2 /\
     (e2 - e1 = 23 * 3600 \/ e2 - e1 = 24 * 3600 \/ e2 - e1 = 25 * 3600) /\
     (e2 - e1 = 23 * 3600 <-> ZoneSpec.begins (JsDate.Day 1741478400000) = true) /\
     (e2 - e1 = 25 * 3600 <-> ZoneSpec.ends (JsDate.Day 1741478400000) = true)).
Proof.
  apply (fidelityDate_increasing_by_day 1741478400000 1741564800000).
  - split; [vm_compute; discriminate|lia].
  - split; [vm_compute; discriminate|lia].
Defined.

(** The days around those on which the clocks change in 2025, 9 March
    and 2 November, in numbers. *)
Example fidelityDate_steps_ex :
  List.map (fun D => Fidelity.fidelityDate Temporal.americaNewYork
                       (JsDate.DateOf (D * JsDate.msPerDay)))
    [20155; 20156; 20157; 20393; 20394; 20395]
  = [ Return "1741410000"; Return "1741496400"; Return "1741579200";
      Return "1761969600"; Return "1762056000"; Return "1762146000" ] /\
  1741496400 - 1741410000 = 24 * 3600 /\
  1741579200 - 1741496400 = 23 * 3600 /\
  1762056000 - 1761969600 = 24 * 3600 /\
  1762146000 - 1762056000 = 25 * 3600 /\
  ZoneSpec.begins 20155 = false /\ ZoneSpec.begins 20156 = true /\
  ZoneSpec.ends 20393 = false /\ ZoneSpec.ends 20394 = true.
Proof. vm_compute. repeat split. Qed.

(** C7, the claim as the spec has it, fails before standard time: 18 and
    19 November 1883 are valid calendar days that follow each other, and
    the seconds grow by 24 hours, 3 minutes and 58 seconds, the zone being
    4:56:02 behind UTC at the first midnight and five hours at the
    second. *)
Lemma fidelityDate_local_mean_time :
  JsDate.Day (-31454 * JsDate.msPerDay) = JsDate.Day (-31455 * JsDate.msPerDay) + 1 /\
  JsDate.getUTCFullYear (JsDate.DateOf (-31455 * JsDate.msPerDay)) = Some 1883 /\
  JsDate.getUTCMonth (JsDate.DateOf (-31455 * JsDate.msPerDay)) = Some 10 /\
  JsDate.getUTCDate (JsDate.DateOf (-31455 * JsDate.msPerDay)) = Some 18 /\
  Fidelity.fidelityDate Temporal.americaNewYork (JsDate.DateOf (-31455 * JsDate.msPerDay))
    = Return (JsString.ofZ (-2717694238)) /\
  Fidelity.fidelityDate Temporal.americaNewYork (JsDate.DateOf (-31454 * JsDate.msPerDay))
    = Return (JsString.ofZ (-2717607600)) /\
  Temporal.americaNewYork (-2717694238) = -17762 /\
  Temporal.americaNewYork (-2717607600) = -18000 /\
  -2717607600 - -2717694238 = 24 * 3600 + 238 /\
  -2717607600 - -2717694238 <> 23 * 3600 /\
  -2717607600 - -2717694238 <> 24 * 3600 /\
  -2717607600 - -2717694238 <> 25 * 3600.
Proof. vm_compute. repeat split; discriminate. Qed.

(** X14.  [fidelityDate] on a valid date, the last day that a [Date] holds
    apart, returns the epoch seconds of the instant at which the clocks of
    America/New_York show the midnight of the UTC calendar day of the date:
    4 hours, 56 minutes and 2 seconds after the midnight UTC of the day
    before 19 November 1883, and five or four hours after it since, four
    when the day begins in daylight time. *)
Theorem fidelityDate_is_zone_midnight (t : Z) :
  -8640000000000000 <= t < 8640000000000000 ->
  exists e : Z,
    Fidelity.fidelityDate Temporal.americaNewYork (JsDate.DateOf t)
      = Return (JsString.ofZ e) /\
    e + Temporal.americaNewYork e = JsDate.Day t * Temporal.secondsPerDay /\
    (JsDate.Day t < ZoneSpec.firstStandardDay ->
     e = JsDate.Day t * Temporal.secondsPerDay + 17762) /\
    (ZoneSpec.firstStandardDay <= JsDate.Day t ->
     e = JsDate.Day t * Temporal.secondsPerDay
         + (if ZoneSpec.daylightAt (JsDate.Day t) then 14400 else 18000)).
Proof.
  intros Ht.
  exists (JsDate.Day t * Temporal.secondsPerDay - ZoneSpec.midnightOffset (JsDate.Day t)).
  split; [exact (ZoneFacts.fidelityDate_midnight t Ht)|].
  rewrite (proj2 (ZoneFacts.instantFor_midnight (JsDate.Day t))).
  split; [lia|].
  destruct (ZoneFacts.midnightOffset_values (JsDate.Day t))
    as [[V ->]|[V [[-> X]|[-> X]]]]; rewrite ?X; split; intros; lia.
Qed.

(** 20 March 2006, before the rule of 2007: the day begins in standard
    time. *)
Lemma fidelityDate_is_zone_midnight_witness :
  exists e : Z,
    Fidelity.fidelityDate Temporal.americaNewYork (JsDate.DateOf 1142812800000)
      = Return (JsString.ofZ e) /\
    e + Temporal.americaNewYork e = JsDate.Day 1142812800000 * Temporal.secondsPerDay /\
    (JsDate.Day 1142812800000 < ZoneSpec.firstStandardDay ->
     e = JsDate.Day 1142812800000 * Temporal.secondsPerDay + 17762) /\
    (ZoneSpec.firstStandardDay <= JsDate.Day 1142812800000 ->
     e = JsDate.Day 1142812800000 * Temporal.secondsPerDay
         + (if ZoneSpec.daylightAt (JsDate.Day 1142812800000) then 14400 else 18000)).
Proof.
  apply (fidelityDate_is_zone_midnight 1142812800000). lia.
Defined.

(* ------------------------------------------------------------------------- *)
(** ** Dates written as local time *)

Module LocalDateFacts.

Import JsDate.

(** The date of a transaction, from the instant that its date string is
    read as. *)
Lemma date_of_instant (host : Host) (h : Models.GetTransactionsRespHistoryModel) (t : Z) :
  ofString host (Models.date h) = DateOf t ->
  Fidelity.date (Fidelity.historyEntryToTransaction host h)
  = let localDay := Day (LocalTime host t) in
    let '(y, m, d) := civilFromDays localDay in
    if (0 <=? y) && (y <=? 99) then TimeClip (daysFromCivil (1900 + y) m d * msPerDay)
    else TimeClip (localDay * msPerDay).
Proof.
  intros E. unfold Fidelity.historyEntryToTransaction. cbn [Fidelity.date]. rewrite E.
  unfold getFullYear, getMonth, getDate, getter, YearFromTime, MonthFromTime, DateFromTime, UTC.
  cbv zeta.
  destruct (civilFromDays (Day (LocalTime host t))) as [[y m] d] eqn:Ec.
  cbn [fst snd].
  destruct (CalendarFacts.civilFromDays_valid _ _ _ _ Ec) as [Hm _].
  rewrite !DateFacts.MakeDay_civil by exact Hm.
  unfold MakeDate, MakeTime.
  destruct ((0 <=? y) && (y <=? 99)).
  - f_equal. lia.
  - rewrite (CalendarFacts.daysFromCivil_civilFromDays _ _ _ _ Ec). f_equal. lia.
Qed.

Lemma TimeClip_day (w : Z) :
  Z.abs w <= 8640000000000000 -> TimeClip (Day w * msPerDay) = DateOf (Day w * msPerDay).
Proof.
  intros H. unfold TimeClip, Day, msPerDay.
  destruct (Z.leb_spec (Z.abs (w / 86400000 * 86400000)) 8640000000000000); [reflexivity|].
  exfalso. Z.div_mod_to_equations. lia.
Qed.

End LocalDateFacts.

(** X13.  When the date string of a history entry is read as a wall-clock
    time without zone, on a host whose offset at that wall-clock time is
    the offset at the instant it stands for, the date of the transaction is
    the midnight UTC of the day written, whatever the offset of the host
    (a year from 0 to 99 is read as 1900 and later). *)
Theorem historyEntryToTransaction_wall_clock_date
  (host : JsDate.Host) (h : Models.GetTransactionsRespHistoryModel) (w : Z) :
  JsDate.parse host (Models.date h) = JsDate.WallClock w ->
  Z.abs w <= 8640000000000000 ->
  Z.abs (JsDate.UTCOfLocal host w) <= 8640000000000000 ->
  JsDate.localTZA host (JsDate.UTCOfLocal host w) true = JsDate.localTZA host w false ->
  Fidelity.date (Fidelity.historyEntryToTransaction host h)
  = let '(y, m, d) := JsDate.civilFromDays (JsDate.Day w) in
    if (0 <=? y) && (y <=? 99)
    then JsDate.TimeClip (JsDate.daysFromCivil (1900 + y) m d * JsDate.msPerDay)
    else JsDate.DateOf (JsDate.Day w * JsDate.msPerDay).
Proof.
  intros P Hw Hu Hc.
  assert (E : JsDate.ofString host (Models.date h) = JsDate.DateOf (JsDate.UTCOfLocal host w)).
  { unfold JsDate.ofString. rewrite P. unfold JsDate.TimeClip.
    destruct (Z.leb_spec (Z.abs (JsDate.UTCOfLocal host w)) 8640000000000000);
      [reflexivity|lia]. }
  rewrite (LocalDateFacts.date_of_instant host h _ E). cbv zeta.
  assert (L : JsDate.LocalTime host (JsDate.UTCOfLocal host w) = w).
  { unfold JsDate.LocalTime. rewrite Hc. unfold JsDate.UTCOfLocal. lia. }
  rewrite L. destruct (JsDate.civilFromDays (JsDate.Day w)) as [[y m] d].
  destruct (_ && _); [reflexivity|]. now apply LocalDateFacts.TimeClip_day.
Qed.

(** The first history entry of the mock, on a host five hours behind UTC
    and on one nine hours ahead: 2025-11-28 on both. *)
Lemma historyEntryToTransaction_wall_clock_date_witness :
  let h := {| Models.acctNum := "1234"; Models.amount := "$1,234.56";
              Models.date := "2025-11-28T00:00:00";
              Models.description := "DIVIDEND RECEIVED";
              Models.intradayInd := false; Models.orderNumber := "24332-AB1CD" |} in
  Fidelity.date (Fidelity.historyEntryToTransaction (JsDate.fixedOffsetHost (-18000000)) h)
  = JsDate.DateOf (20420 * JsDate.msPerDay) /\
  Fidelity.date (Fidelity.historyEntryToTransaction (JsDate.fixedOffsetHost 32400000) h)
  = JsDate.DateOf (20420 * JsDate.msPerDay).
Proof.
  cbv zeta. split.
  - apply (historyEntryToTransaction_wall_clock_date (JsDate.fixedOffsetHost (-18000000)) _
             (20420 * JsDate.msPerDay)).
    + vm_compute. reflexivity.
    + vm_compute. discriminate.
    + vm_compute. discriminate.
    + reflexivity.
  - apply (historyEntryToTransaction_wall_clock_date (JsDate.fixedOffsetHost 32400000) _
             (20420 * JsDate.msPerDay)).
    + vm_compute. reflexivity.
    + vm_compute. discriminate.
    + vm_compute. discriminate.
    + reflexivity.
Defined.

(* ------------------------------------------------------------------------- *)
(** ** The encoding of account names *)

Module EncodingFacts.

Import EncodingSpec Buffer.

Lemma sextet_ok (n : Z) :
  0 <= n < 64 ->
  unsextet (sextet n) = n /\ Ascii.eqb (sextet n) "=" = false /\ base64Char (sextet n) = true.
Proof.
  intros H.
  assert (T : sextetsOk = true) by (vm_compute; reflexivity).
  unfold sextetsOk in T. rewrite List.forallb_forall in T.
  specialize (T (Z.to_nat n)). rewrite Z2Nat.id in T by lia.
  assert (I : In (Z.to_nat n) (List.seq 0 64)) by (apply List.in_seq; lia).
  specialize (T I). cbv zeta in T.
  apply andb_prop in T. destruct T as [T T3]. apply andb_prop in T. destruct T as [T1 T2].
  apply Z.eqb_eq in T1. apply Bool.negb_true_iff in T2. auto.
Qed.

Lemma base64_step (a b c : Z) (r : list Z) :
  base64 (a :: b :: c :: r)
  = String (sextet (a / 4))
      (String (sextet ((a mod 4) * 16 + b / 16))
         (String (sextet ((b mod 16) * 4 + c / 64))
            (String (sextet (c mod 64)) (base64 r)))).
Proof. reflexivity. Qed.

(** Induction on a list, three elements at a time. *)
Lemma list_ind3 (P : list Z -> Prop) :
  P [] -> (forall a, P [a]) -> (forall a b, P [a; b]) ->
  (forall a b c r, P r -> P (a :: b :: c :: r)) ->
  forall l, P l.
Proof.
  intros H0 H1 H2 H3.
  assert (K : forall l, P l /\ (forall a, P (a :: l)) /\ (forall a b, P (a :: b :: l))).
  { induction l as [|x l [I0 [I1 I2]]].
    - auto.
    - split; [exact (I1 x)|]. split; [exact (fun a => I2 a x)|].
      intros a b. exact (H3 a b x l I0). }
  intros l. apply K.
Qed.

(** base64 is read back. *)
Lemma unbase64_base64 (bytes : list Z) :
  Forall (fun b => 0 <= b < 256) bytes -> unbase64 (base64 bytes) = bytes.
Proof.
  induction bytes as [|a|a b|a b c r IH] using list_ind3; intros F.
  - reflexivity.
  - pose proof (Forall_inv F) as Ha. cbv beta in Ha.
    cbn [base64 unbase64]. cbv zeta.
    destruct (sextet_ok (a / 4)) as [E1 _]; [Z.div_mod_to_equations; lia|].
    destruct (sextet_ok (a mod 4 * 16)) as [E2 _]; [Z.div_mod_to_equations; lia|].
    rewrite E1, E2. cbn [Ascii.eqb Bool.eqb]. f_equal. Z.div_mod_to_equations; lia.
  - pose proof (Forall_inv F) as Ha. pose proof (Forall_inv (Forall_inv_tail F)) as Hb.
    cbv beta in Ha, Hb. cbn [base64 unbase64]. cbv zeta.
    destruct (sextet_ok (a / 4)) as [E1 _]; [Z.div_mod_to_equations; lia|].
    destruct (sextet_ok (a mod 4 * 16 + b / 16)) as [E2 _]; [Z.div_mod_to_equations; lia|].
    destruct (sextet_ok (b mod 16 * 4)) as [E3 [N3 _]]; [Z.div_mod_to_equations; lia|].
    rewrite E1, E2, E3, N3. cbn [Ascii.eqb Bool.eqb].
    f_equal; [|f_equal]; Z.div_mod_to_equations; lia.
  - pose proof (Forall_inv F) as Ha. pose proof (Forall_inv (Forall_inv_tail F)) as Hb.
    pose proof (Forall_inv (Forall_inv_tail (Forall_inv_tail F))) as Hc.
    cbv beta in Ha, Hb, Hc.
    rewrite base64_step. cbn [unbase64]. cbv zeta.
    destruct (sextet_ok (a / 4)) as [E1 _]; [Z.div_mod_to_equations; lia|].
    destruct (sextet_ok (a mod 4 * 16 + b / 16)) as [E2 _]; [Z.div_mod_to_equations; lia|].
    destruct (sextet_ok (b mod 16 * 4 + c / 64)) as [E3 [N3 _]]; [Z.div_mod_to_equations; lia|].
    destruct (sextet_ok (c mod 64)) as [E4 [N4 _]]; [Z.div_mod_to_equations; lia|].
    rewrite E1, E2, E3, E4, N3, N4.
    rewrite IH by (do 3 apply Forall_inv_tail in F; exact F).
    f_equal; [|f_equal; [|f_equal]]; Z.div_mod_to_equations; lia.
Qed.

Lemma base64_length (bytes : list Z) :
  Z.of_nat (String.length (base64 bytes)) = 4 * ((Z.of_nat (List.length bytes) + 2) / 3).
Proof.
  induction bytes as [|a|a b|a b c r IH] using list_ind3; try reflexivity.
  rewrite base64_step. cbn [String.length List.length].
  rewrite !Nat2Z.inj_succ, IH. Z.div_mod_to_equations; lia.
Qed.

Lemma base64_chars (bytes : list Z) :
  Forall (fun b => 0 <= b < 256) bytes ->
  JsString.forallb base64Char (base64 bytes) = true.
Proof.
  induction bytes as [|a|a b|a b c r IH] using list_ind3; intros F.
  - reflexivity.
  - pose proof (Forall_inv F) as Ha. cbv beta in Ha.
    cbn [base64 JsString.forallb].
    destruct (sextet_ok (a / 4)) as [_ [_ E1]]; [Z.div_mod_to_equations; lia|].
    destruct (sextet_ok (a mod 4 * 16)) as [_ [_ E2]]; [Z.div_mod_to_equations; lia|].
    rewrite E1, E2. reflexivity.
  - pose proof (Forall_inv F) as Ha. pose proof (Forall_inv (Forall_inv_tail F)) as Hb.
    cbv beta in Ha, Hb. cbn [base64 JsString.forallb].
    destruct (sextet_ok (a / 4)) as [_ [_ E1]]; [Z.div_mod_to_equations; lia|].
    destruct (sextet_ok (a mod 4 * 16 + b / 16)) as [_ [_ E2]]; [Z.div_mod_to_equations; lia|].
    destruct (sextet_ok (b mod 16 * 4)) as [_ [_ E3]]; [Z.div_mod_to_equations; lia|].
    rewrite E1, E2, E3. reflexivity.
  - pose proof (Forall_inv F) as Ha. pose proof (Forall_inv (Forall_inv_tail F)) as Hb.
    pose proof (Forall_inv (Forall_inv_tail (Forall_inv_tail F))) as Hc.
    cbv beta in Ha, Hb, Hc.
    rewrite base64_step. cbn [JsString.forallb].
    destruct (sextet_ok (a / 4)) as [_ [_ E1]]; [Z.div_mod_to_equations; lia|].
    destruct (sextet_ok (a mod 4 * 16 + b / 16)) as [_ [_ E2]]; [Z.div_mod_to_equations; lia|].
    destruct (sextet_ok (b mod 16 * 4 + c / 64)) as [_ [_ E3]]; [Z.div_mod_to_equations; lia|].
    destruct (sextet_ok (c mod 64)) as [_ [_ E4]]; [Z.div_mod_to_equations; lia|].
    rewrite E1, E2, E3, E4. cbn [andb].
    apply IH. do 3 apply Forall_inv_tail in F. exact F.
Qed.

End EncodingFacts.

Module Utf16Facts.

Import Utf16 Utf16Spec.

Lemma list_ind2 (P : list Z -> Prop) :
  P [] -> (forall u, P [u]) -> (forall u v r, P r -> P (v :: r) -> P (u :: v :: r)) ->
  forall l, P l.
Proof.
  intros H0 H1 H2.
  assert (K : forall l, P l /\ (forall u, P (u :: l))).
  { induction l as [|x l [IH1 IH2]].
    - split; [exact H0|exact H1].
    - split; [exact (IH2 x)|]. intros u. exact (H2 u x l IH1 (IH2 x)). }
  intros l. exact (proj1 (K l)).
Qed.

Ltac cmp :=
  repeat match goal with
         | |- context [?a <? ?b] => destruct (Z.ltb_spec a b)
         | |- context [?a <=? ?b] => destruct (Z.leb_spec a b)
         | H : context [?a <? ?b] |- _ => destruct (Z.ltb_spec a b)
         | H : context [?a <=? ?b] |- _ => destruct (Z.leb_spec a b)
         end.

Lemma codePoints_pair (u v : Z) (r : list Z) :
  codePoints (u :: v :: r)
  = if isHigh u && isLow v
    then (65536 + (u - 55296) * 1024 + (v - 56320)) :: codePoints r
    else (if isSurrogate u then 65533 else u) :: codePoints (v :: r).
Proof. reflexivity. Qed.

Lemma wellFormed_pair (u v : Z) (r : list Z) :
  wellFormed (u :: v :: r)
  = (0 <=? u) && (u <? 65536)
    && (if isHigh u then isLow v && wellFormed r else negb (isLow u) && wellFormed (v :: r)).
Proof. reflexivity. Qed.

(** The code points of a well-formed text are scalar values, and give the
    text back. *)
Lemma codePoints_wellFormed (text : list Z) :
  wellFormed text = true ->
  Forall scalar (codePoints text) /\
  List.flat_map utf16CodePoint (codePoints text) = text.
Proof.
  induction text as [|u|u v r IH1 IH2] using list_ind2; intros W.
  - split; [constructor|reflexivity].
  - cbn [wellFormed] in W. cbn [codePoints].
    apply andb_prop in W. destruct W as [Ru Ns].
    apply andb_prop in Ru. destruct Ru as [A B].
    apply Bool.negb_true_iff in Ns. rewrite Ns.
    split.
    + constructor; [|constructor]. apply Z.leb_le in A. apply Z.ltb_lt in B.
      split; [lia|exact Ns].
    + cbn [List.flat_map List.app]. unfold utf16CodePoint. rewrite B. reflexivity.
  - rewrite wellFormed_pair in W. rewrite codePoints_pair.
    unfold isHigh, isLow, isSurrogate, scalar in *.
    destruct ((55296 <=? u) && (u <=? 56319)) eqn:Hh.
    + (* a pair *)
      apply andb_prop in W. destruct W as [Ru W].
      apply andb_prop in W. destruct W as [Lv W].
      rewrite Lv. cbn [andb].
      destruct (IH1 W) as [S1 R1]. split.
      * constructor; [|exact S1]. unfold isSurrogate.
        apply andb_prop in Hh. destruct Hh as [A B]. apply andb_prop in Lv. destruct Lv as [C D].
        apply Z.leb_le in A, B, C, D. split; [lia|].
        cmp; cbn [andb]; try reflexivity; lia.
      * cbn [List.flat_map]. rewrite R1. unfold utf16CodePoint.
        apply andb_prop in Hh. destruct Hh as [A B]. apply andb_prop in Lv. destruct Lv as [C D].
        apply Z.leb_le in A, B, C, D.
        replace (65536 + (u - 55296) * 1024 + (v - 56320) <? 65536) with false
          by (symmetry; apply Z.ltb_ge; lia).
        cbn [List.app]. f_equal; [|f_equal]; Z.div_mod_to_equations; lia.
    + apply andb_prop in W. destruct W as [Ru W].
      apply andb_prop in W. destruct W as [Nl W].
      destruct (IH2 W) as [S2 R2]. cbn [andb].
      assert (Su : (55296 <=? u) && (u <=? 57343) = false).
      { revert Hh Nl. cmp; cbn [andb negb]; intros; try reflexivity; try discriminate; lia. }
      rewrite Su. split.
      * constructor; [|exact S2]. apply andb_prop in Ru. destruct Ru as [A B].
        apply Z.leb_le in A. apply Z.ltb_lt in B. split; [lia|exact Su].
      * cbn [List.flat_map]. rewrite R2. unfold utf16CodePoint.
        apply andb_prop in Ru. destruct Ru as [A B]. rewrite B. reflexivity.
Qed.

(** The bytes of a scalar value are read back. *)
Lemma unutf8_step (c : Z) (r : list Z) :
  scalar c -> unutf8 (List.app (utf8CodePoint c) r) = c :: unutf8 r.
Proof.
  intros [R _]. unfold utf8CodePoint.
  destruct (Z.ltb_spec c 128) as [H1|H1].
  - cbn [List.app unutf8]. apply Z.ltb_lt in H1. now rewrite H1.
  - destruct (Z.ltb_spec c 2048) as [H2|H2].
    + cbn [List.app unutf8].
      replace (192 + c / 64 <? 128) with false
        by (symmetry; apply Z.ltb_ge; Z.div_mod_to_equations; lia).
      replace (192 + c / 64 <? 224) with true
        by (symmetry; apply Z.ltb_lt; Z.div_mod_to_equations; lia).
      f_equal. Z.div_mod_to_equations; lia.
    + destruct (Z.ltb_spec c 65536) as [H3|H3].
      * cbn [List.app unutf8].
        replace (224 + c / 4096 <? 128) with false
          by (symmetry; apply Z.ltb_ge; Z.div_mod_to_equations; lia).
        replace (224 + c / 4096 <? 224) with false
          by (symmetry; apply Z.ltb_ge; Z.div_mod_to_equations; lia).
        replace (224 + c / 4096 <? 240) with true
          by (symmetry; apply Z.ltb_lt; Z.div_mod_to_equations; lia).
        f_equal. Z.div_mod_to_equations; lia.
      * cbn [List.app unutf8].
        replace (240 + c / 262144 <? 128) with false
          by (symmetry; apply Z.ltb_ge; Z.div_mod_to_equations; lia).
        replace (240 + c / 262144 <? 224) with false
          by (symmetry; apply Z.ltb_ge; Z.div_mod_to_equations; lia).
        replace (240 + c / 262144 <? 240) with false
          by (symmetry; apply Z.ltb_ge; Z.div_mod_to_equations; lia).
        f_equal. Z.div_mod_to_equations; lia.
Qed.

Lemma unutf8_flat_map (points : list Z) :
  Forall scalar points -> unutf8 (List.flat_map utf8CodePoint points) = points.
Proof.
  induction points as [|c r IH]; intros F; [reflexivity|].
  cbn [List.flat_map]. rewrite unutf8_step by exact (Forall_inv F).
  f_equal. apply IH. exact (Forall_inv_tail F).
Qed.

(** The bytes of a code point are bytes. *)
Lemma utf8CodePoint_bytes (c : Z) :
  0 <= c < 1114112 -> Forall (fun b => 0 <= b < 256) (utf8CodePoint c).
Proof.
  intros R. unfold utf8CodePoint.
  destruct (Z.ltb_spec c 128); [|destruct (Z.ltb_spec c 2048); [|destruct (Z.ltb_spec c 65536)]];
    repeat constructor; Z.div_mod_to_equations; lia.
Qed.

Lemma utf8_text_bytes (text : list Z) :
  wellFormed text = true -> Forall (fun b => 0 <= b < 256) (utf8 text).
Proof.
  intros W. destruct (codePoints_wellFormed text W) as [S _].
  unfold utf8. induction S as [|c r [R _] _ IH]; [constructor|].
  cbn [List.flat_map]. apply Forall_app. split; [now apply utf8CodePoint_bytes|exact IH].
Qed.

(** The text is read back from its bytes. *)
Lemma decode_utf8 (text : list Z) : wellFormed text = true -> decode (utf8 text) = text.
Proof.
  intros W. destruct (codePoints_wellFormed text W) as [S R].
  unfold decode, utf8. now rewrite (unutf8_flat_map _ S).
Qed.

(** On a string of code units below 256 the bytes are those of
    [Buffer.utf8]. *)
Lemma utf8_units (s : string) : utf8 (units s) = Buffer.utf8 s.
Proof.
  unfold utf8, units.
  induction s as [|c s IH]; [reflexivity|].
  cbn [list_ascii_of_string List.map Buffer.utf8]. cbv zeta.
  assert (R : 0 <= JsString.code c < 256).
  { unfold JsString.code. pose proof (N_ascii_bounded c). lia. }
  assert (K : codePoints (JsString.code c :: List.map JsString.code (list_ascii_of_string s))
              = JsString.code c :: codePoints (List.map JsString.code (list_ascii_of_string s))).
  { cbn [codePoints]. unfold isHigh, isSurrogate.
    replace (55296 <=? JsString.code c) with false by (symmetry; apply Z.leb_gt; lia).
    cbn [andb]. now destruct (List.map JsString.code (list_ascii_of_string s)). }
  rewrite K. cbn [List.flat_map]. rewrite IH. unfold utf8CodePoint.
  destruct (Z.ltb_spec (JsString.code c) 128); [reflexivity|].
  replace (JsString.code c <? 2048) with true by (symmetry; apply Z.ltb_lt; lia).
  reflexivity.
Qed.

End Utf16Facts.

Module UnitsFacts.

Import Utf16 Utf16Spec.

(** A string of code units below 256 is well formed. *)
Lemma wellFormed_units (s : string) : wellFormed (units s) = true.
Proof.
  unfold units. induction s as [|c s IH]; [reflexivity|].
  cbn [list_ascii_of_string List.map].
  assert (R : 0 <= JsString.code c < 256).
  { unfold JsString.code. pose proof (N_ascii_bounded c). lia. }
  assert (N : forall r, wellFormed (JsString.code c :: r) = wellFormed r).
  { intros r. cbn [wellFormed]. unfold isHigh, isLow, isSurrogate.
    replace (0 <=? JsString.code c) with true by (symmetry; apply Z.leb_le; lia).
    replace (JsString.code c <? 65536) with true by (symmetry; apply Z.ltb_lt; lia).
    replace (55296 <=? JsString.code c) with false by (symmetry; apply Z.leb_gt; lia).
    replace (56320 <=? JsString.code c) with false by (symmetry; apply Z.leb_gt; lia).
    cbn [andb negb]. now destruct r. }
  rewrite N. exact IH.
Qed.

End UnitsFacts.

(** X15.  [encodeAccountName] loses nothing of a name in which every
    surrogate is half of a pair: two such names with one encoding are one
    name, and the name is read back from the encoding.  The encoding is a
    text of base64 characters, four for every three bytes of the name in
    UTF-8, the last group padded.  A surrogate that stands alone is written
    as U+FFFD is, so that the two names have one encoding. *)
Theorem encodeAccountName_injective (name other : list Z) :
  Utf16Spec.wellFormed name = true ->
  Utf16Spec.wellFormed other = true ->
  (FidelityUnits.encodeAccountName name = FidelityUnits.encodeAccountName other ->
   name = other) /\
  Utf16Spec.decode (EncodingSpec.unbase64 (FidelityUnits.encodeAccountName name)) = name /\
  JsString.forallb EncodingSpec.base64Char (FidelityUnits.encodeAccountName name) = true /\
  Z.of_nat (String.length (FidelityUnits.encodeAccountName name))
  = 4 * ((Z.of_nat (List.length (Utf16.utf8 name)) + 2) / 3) /\
  (forall s : string,
     Fidelity.encodeAccountName s = FidelityUnits.encodeAccountName (Utf16.units s)
     /\ Utf16Spec.wellFormed (Utf16.units s) = true) /\
  FidelityUnits.encodeAccountName [55296] = "77+9" /\
  FidelityUnits.encodeAccountName [65533] = "77+9".
Proof.
  intros W W'.
  assert (R : forall text, Utf16Spec.wellFormed text = true ->
                Utf16Spec.decode (EncodingSpec.unbase64 (FidelityUnits.encodeAccountName text))
                = text).
  { intros text Wt. unfold FidelityUnits.encodeAccountName.
    rewrite EncodingFacts.unbase64_base64 by now apply Utf16Facts.utf8_text_bytes.
    now apply Utf16Facts.decode_utf8. }
  split; [|split; [now apply R|split; [|split; [|split; [|split]]]]].
  - intros E. rewrite <- (R name W), <- (R other W'), E. reflexivity.
  - apply EncodingFacts.base64_chars. now apply Utf16Facts.utf8_text_bytes.
  - apply EncodingFacts.base64_length.
  - intros s. split; [|apply UnitsFacts.wellFormed_units].
    unfold Fidelity.encodeAccountName, FidelityUnits.encodeAccountName.
    now rewrite Utf16Facts.utf8_units.
  - reflexivity.
  - reflexivity.
Qed.

(** A name with a letter of each length in UTF-8, the last a pair of
    surrogates, and a name of one letter. *)
Lemma encodeAccountName_injective_witness :
  (FidelityUnits.encodeAccountName [66; 233; 8364; 55357; 56832]
   = FidelityUnits.encodeAccountName [66] ->
   [66; 233; 8364; 55357; 56832] = [66]) /\
  Utf16Spec.decode
    (EncodingSpec.unbase64 (FidelityUnits.encodeAccountName [66; 233; 8364; 55357; 56832]))
  = [66; 233; 8364; 55357; 56832] /\
  JsString.forallb EncodingSpec.base64Char
    (FidelityUnits.encodeAccountName [66; 233; 8364; 55357; 56832]) = true /\
  Z.of_nat (String.length (FidelityUnits.encodeAccountName [66; 233; 8364; 55357; 56832]))
  = 4 * ((Z.of_nat (List.length (Utf16.utf8 [66; 233; 8364; 55357; 56832])) + 2) / 3) /\
  (forall s : string,
     Fidelity.encodeAccountName s = FidelityUnits.encodeAccountName (Utf16.units s)
     /\ Utf16Spec.wellFormed (Utf16.units s) = true) /\
  FidelityUnits.encodeAccountName [55296] = "77+9" /\
  FidelityUnits.encodeAccountName [65533] = "77+9".
Proof.
  apply (encodeAccountName_injective [66; 233; 8364; 55357; 56832] [66]).
  - reflexivity.
  - reflexivity.
Defined.

(** The bytes and the encoding of the name of the witness. *)
Example encodeAccountName_units_ex :
  Utf16.utf8 [66; 233; 8364; 55357; 56832]
  = [66; 195; 169; 226; 130; 172; 240; 159; 152; 128] /\
  FidelityUnits.encodeAccountName [66; 233; 8364; 55357; 56832] = "QsOp4oKs8J+YgA==" /\
  Utf16.utf8 [55296; 66] = [239; 191; 189; 66] /\
  Utf16.utf8 [56832; 55357] = [239; 191; 189; 239; 191; 189].
Proof. vm_compute. repeat split. Qed.

(* ------------------------------------------------------------------------- *)
(** ** Printing the request options *)

Module PrintFacts.

Import Json JsonText.

Lemma lookup_without (name : string) (members : list (string * json)) :
  lookup name (without name members) = None.
Proof.
  induction members as [|[k x] r IH]; [reflexivity|].
  unfold without in *. cbn [List.filter fst].
  destruct (String.eqb k name) eqn:E; cbn [negb]; [exact IH|].
  cbn [lookup]. rewrite IH. now rewrite String.eqb_sym, E.
Qed.

(** The text that [printFetchTransactionsOptions] returns for options and
    the document of their body. *)
Lemma print_document (options document : list (string * json)) :
  lookup "body" options = Some (JStr (stringify (JObj document))) ->
  FidelityPrint.printFetchTransactionsOptions options
  = Return
      ("options_minus_body=" ++ stringifyIndent 2 0 (JObj (without "body" options))
       ++ newline
       ++ "body_minus_query=" ++ stringifyIndent 2 0 (JObj (without "query" document))
       ++ newline
       ++ "query=" ++ toStringOpt (lookup "query" document)).
Proof.
  intros B.
  unfold FidelityPrint.printFetchTransactionsOptions. cbv zeta. rewrite B.
  cbn [toStringOpt toString].
  rewrite RequestFacts.parseC_stringify. cbn [bindC FidelityPrint.splitQuery].
  cbn [ownProperties JsString.join].
  rewrite <- !DigitFacts.append_assoc. reflexivity.
Qed.

End PrintFacts.

(** X16.  On request options whose [body] is the JSON text of a document
    object, [printFetchTransactionsOptions] returns three parts, each
    beginning a line: the options but the body, the document but its query,
    both as indented JSON, and the query as it is.  The body is shown as
    the document it holds, not as text, and neither [body] nor [query] is
    among the properties printed. *)
Theorem printFetchTransactionsOptions_shows_document
  (options document : list (string * Json.json)) :
  ObjectSpec.proper (Json.JObj options) = true ->
  ObjectSpec.proper (Json.JObj document) = true ->
  Json.lookup "body" options = Some (Json.JStr (Json.stringify (Json.JObj document))) ->
  FidelityPrint.printFetchTransactionsOptions options
  = Return
      ("options_minus_body="
       ++ JsonText.stringifyIndent 2 0 (Json.JObj (JsonText.without "body" options))
       ++ JsonText.newline
       ++ "body_minus_query="
       ++ JsonText.stringifyIndent 2 0 (Json.JObj (JsonText.without "query" document))
       ++ JsonText.newline
       ++ "query=" ++ JsonText.toStringOpt (Json.lookup "query" document)) /\
  Json.lookup "body" (JsonText.without "body" options) = None /\
  Json.lookup "query" (JsonText.without "query" document) = None.
Proof.
  intros _ _ B. split; [|split; apply PrintFacts.lookup_without].
  now apply PrintFacts.print_document.
Qed.


(** The options of the transaction request for the first account of the
    mock. *)
Lemma printFetchTransactionsOptions_shows_document_witness :
  let document :=
    [ ("operationName", Json.JStr "");
      ("variables",
       Json.JObj
         [ ("acctDetailList", Json.JArr [RequestSpec.acctDetail Mock.brokerage]);
           ("searchCriteriaDetail",
            Json.JObj [ ("txnFromDate", Json.JStr "1764306000");
                        ("txnToDate", Json.JStr "1764651600") ]) ]);
      ("query", Json.JStr "query GetTransactions") ] in
  let options :=
    [ ("method", Json.JStr "POST"); ("headers", Json.JObj []);
      ("body", Json.JStr (Json.stringify (Json.JObj document))) ] in
  FidelityPrint.printFetchTransactionsOptions options
  = Return
      ("options_minus_body="
       ++ JsonText.stringifyIndent 2 0 (Json.JObj (JsonText.without "body" options))
       ++ JsonText.newline
       ++ "body_minus_query="
       ++ JsonText.stringifyIndent 2 0 (Json.JObj (JsonText.without "query" document))
       ++ JsonText.newline
       ++ "query=" ++ JsonText.toStringOpt (Json.lookup "query" document)) /\
  Json.lookup "body" (JsonText.without "body" options) = None /\
  Json.lookup "query" (JsonText.without "query" document) = None.
Proof.
  cbv zeta. apply printFetchTransactionsOptions_shows_document.
  - vm_compute. reflexivity.
  - vm_compute. reflexivity.
  - reflexivity.
Defined.

(** The indented text of the witness, written out. *)
Example printFetchTransactionsOptions_ex :
  FidelityPrint.printFetchTransactionsOptions
    [ ("method", Json.JStr "POST"); ("headers", Json.JObj []);
      ("body", Json.JStr (JsString.quoted
         "{'operationName':'','variables':{'list':[1,{'a':null}],'empty':[]},'query':'q'}")) ]
  = Return
      (JsString.join JsonText.newline
         [ "options_minus_body={";
           JsString.quoted "  'method': 'POST',";
           JsString.quoted "  'headers': {}";
           "}";
           "body_minus_query={";
           JsString.quoted "  'operationName': '',";
           JsString.quoted "  'variables': {";
           JsString.quoted "    'list': [";
           "      1,";
           "      {";
           JsString.quoted "        'a': null";
           "      }";
           "    ],";
           JsString.quoted "    'empty': []";
           "  }";
           "}";
           "query=q" ]).
Proof. vm_compute. reflexivity. Qed.

(** X17.  What [printFetchTransactionsOptions] does on options whose body
    is not the text of an object.  Without a body it throws a SyntaxError,
    [JSON.parse] reading the text [undefined].  On the text of [null] it
    throws a TypeError; on the text of another value that is no object it
    returns a text, in which the query is [undefined] and the properties
    of the body are those that the value has by index: the elements of an
    array, the characters of a string, none of a number or a boolean. *)
Theorem printFetchTransactionsOptions_throws
  (options : list (string * Json.json)) (value : Json.json) :
  ObjectSpec.proper (Json.JObj options) = true ->
  ObjectSpec.proper value = true ->
  (Json.lookup "body" options = None ->
   exists message,
     FidelityPrint.printFetchTransactionsOptions options = Throw (SyntaxError message)) /\
  (Json.lookup "body" options = Some (Json.JStr (Json.stringify value)) ->
   match value with
   | Json.JNull =>
       exists message,
         FidelityPrint.printFetchTransactionsOptions options = Throw (TypeError message)
   | Json.JObj document =>
       exists text, FidelityPrint.printFetchTransactionsOptions options = Return text
   | _ =>
       FidelityPrint.printFetchTransactionsOptions options
       = Return
           ("options_minus_body="
            ++ JsonText.stringifyIndent 2 0 (Json.JObj (JsonText.without "body" options))
            ++ JsonText.newline
            ++ "body_minus_query="
            ++ JsonText.stringifyIndent 2 0
                 (Json.JObj (JsonText.without "query" (JsonText.ownProperties value)))
            ++ JsonText.newline
            ++ "query=undefined")
   end).
Proof.
  intros _ _. split.
  - intros N. unfold FidelityPrint.printFetchTransactionsOptions, Json.parseC. cbv zeta.
    rewrite N. cbn [JsonText.toStringOpt].
    assert (U : Json.parse "undefined" = None) by (vm_compute; reflexivity).
    rewrite U. eexists. reflexivity.
  - intros B. unfold FidelityPrint.printFetchTransactionsOptions. cbv zeta. rewrite B.
    cbn [JsonText.toStringOpt JsonText.toString].
    rewrite RequestFacts.parseC_stringify.
    destruct value as [|b|n|s|items|document];
      cbn [bindC FidelityPrint.splitQuery JsString.join JsonText.toStringOpt];
      try (eexists; reflexivity);
      rewrite <- !DigitFacts.append_assoc; reflexivity.
Qed.

(** The body [[7,null]]: the elements are shown by their indices. *)
Lemma printFetchTransactionsOptions_throws_witness :
  (Json.lookup "body" [("method", Json.JStr "POST"); ("body", Json.JStr "[7,null]")] = None ->
   exists message,
     FidelityPrint.printFetchTransactionsOptions
       [("method", Json.JStr "POST"); ("body", Json.JStr "[7,null]")]
     = Throw (SyntaxError message)) /\
  (Json.lookup "body" [("method", Json.JStr "POST"); ("body", Json.JStr "[7,null]")]
   = Some (Json.JStr (Json.stringify (Json.JArr [Json.JNum 7; Json.JNull]))) ->
   FidelityPrint.printFetchTransactionsOptions
     [("method", Json.JStr "POST"); ("body", Json.JStr "[7,null]")]
   = Return
       ("options_minus_body="
        ++ JsonText.stringifyIndent 2 0
             (Json.JObj (JsonText.without "body"
                           [("method", Json.JStr "POST"); ("body", Json.JStr "[7,null]")]))
        ++ JsonText.newline
        ++ "body_minus_query="
        ++ JsonText.stringifyIndent 2 0
             (Json.JObj (JsonText.without "query"
                           (JsonText.ownProperties (Json.JArr [Json.JNum 7; Json.JNull]))))
        ++ JsonText.newline
        ++ "query=undefined")).
Proof.
  apply (printFetchTransactionsOptions_throws
           [("method", Json.JStr "POST"); ("body", Json.JStr "[7,null]")]
           (Json.JArr [Json.JNum 7; Json.JNull])).
  - reflexivity.
  - reflexivity.
Defined.

(** The texts of the witness and of a string, and the kinds of the two
    errors. *)
Example printFetchTransactionsOptions_values_ex :
  FidelityPrint.printFetchTransactionsOptions
    [("method", Json.JStr "POST"); ("body", Json.JStr "[7,null]")]
  = Return
      (JsString.join JsonText.newline
         [ "options_minus_body={";
           JsString.quoted "  'method': 'POST'";
           "}";
           "body_minus_query={";
           JsString.quoted "  '0': 7,";
           JsString.quoted "  '1': null";
           "}";
           "query=undefined" ]) /\
  FidelityPrint.printFetchTransactionsOptions [("body", Json.JStr (JsString.quoted "'ab'"))]
  = Return
      (JsString.join JsonText.newline
         [ "options_minus_body={}";
           "body_minus_query={";
           JsString.quoted "  '0': 'a',";
           JsString.quoted "  '1': 'b'";
           "}";
           "query=undefined" ]) /\
  (exists message,
     FidelityPrint.printFetchTransactionsOptions [("body", Json.JStr "null")]
     = Throw (TypeError message)) /\
  (exists message,
     FidelityPrint.printFetchTransactionsOptions [("method", Json.JStr "POST")]
     = Throw (SyntaxError message)).
Proof. vm_compute. repeat split; eexists; reflexivity. Qed.

(** X18.  The request options that [getTransactionsOptions] builds are
    printed without an error: for accounts whose numbers hold no character
    that is escaped, and dates that [fidelityDate] encodes, the text shows
    the options without their body, then the request document that
    [getTransactionsBody] returns without its query, then the query. *)
Theorem printFetchTransactionsOptions_of_request
  (zone : Temporal.TimeZone) (accounts : list Fidelity.Account)
  (start end_ : JsDate.Date) (s e : string) :
  RequestSpec.plainNumbers accounts ->
  Fidelity.fidelityDate zone start = Return s ->
  Fidelity.fidelityDate zone end_ = Return e ->
  exists options document : list (string * Json.json),
    Fidelity.getTransactionsOptions zone accounts start end_ = Return (Json.JObj options) /\
    Fidelity.getTransactionsBody zone accounts start end_ = Return (Json.JObj document) /\
    FidelityPrint.printFetchTransactionsOptions options
    = Return
        ("options_minus_body="
         ++ JsonText.stringifyIndent 2 0 (Json.JObj (JsonText.without "body" options))
         ++ JsonText.newline
         ++ "body_minus_query="
         ++ JsonText.stringifyIndent 2 0 (Json.JObj (JsonText.without "query" document))
         ++ JsonText.newline
         ++ "query=" ++ JsonText.toStringOpt (Json.lookup "query" document)) /\
    List.map fst (JsonText.without "body" options) = ["method"; "headers"] /\
    List.map fst (JsonText.without "query" document) = ["operationName"; "variables"].
Proof.
  intros Hp Hs He.
  eexists. eexists.
  split; [exact (RequestFacts.getTransactionsOptions_value zone accounts start end_ s e Hp Hs He)|].
  split; [exact (RequestFacts.getTransactionsBody_value zone accounts start end_ s e Hp Hs He)|].
  split; [|split; reflexivity].
  apply PrintFacts.print_document. reflexivity.
Qed.

(** The first account of the mock and the dates of the repository's test. *)
Lemma printFetchTransactionsOptions_of_request_witness :
  exists options document : list (string * Json.json),
    Fidelity.getTransactionsOptions Temporal.americaNewYork [Mock.brokerage] Mock.nov28 Mock.dec02
    = Return (Json.JObj options) /\
    Fidelity.getTransactionsBody Temporal.americaNewYork [Mock.brokerage] Mock.nov28 Mock.dec02
    = Return (Json.JObj document) /\
    FidelityPrint.printFetchTransactionsOptions options
    = Return
        ("options_minus_body="
         ++ JsonText.stringifyIndent 2 0 (Json.JObj (JsonText.without "body" options))
         ++ JsonText.newline
         ++ "body_minus_query="
         ++ JsonText.stringifyIndent 2 0 (Json.JObj (JsonText.without "query" document))
         ++ JsonText.newline
         ++ "query=" ++ JsonText.toStringOpt (Json.lookup "query" document)) /\
    List.map fst (JsonText.without "body" options) = ["method"; "headers"] /\
    List.map fst (JsonText.without "query" document) = ["operationName"; "variables"].
Proof.
  apply (printFetchTransactionsOptions_of_request
           Temporal.americaNewYork [Mock.brokerage] Mock.nov28 Mock.dec02
           "1764306000" "1764651600").
  - repeat constructor.
  - vm_compute. reflexivity.
  - vm_compute. reflexivity.
Defined.

(* ------------------------------------------------------------------------- *)
(** ** The two copies of the client compared *)

Module CopiesFacts.

Import CopiesSpec.

Lemma historyEntryToTransaction_same
  (host : JsDate.Host) (h : Models.GetTransactionsRespHistoryModel) :
  sameTransaction (Fidelity.historyEntryToTransaction host h)
                  (VariantClient.historyEntryToTransaction host h).
Proof.
  unfold sameTransaction. repeat (split; [reflexivity|]).
  unfold Fidelity.historyEntryToTransaction, VariantClient.historyEntryToTransaction.
  cbn [Fidelity.amount VariantClient.amount].
  rewrite StringFacts.trim_blank.
  destruct (AmountSpec.blank _) eqn:B; cbn [negb].
  - rewrite (VariantFacts.parseFloat_blank _ B). reflexivity.
  - destruct (JsNumber.isNaN _); reflexivity.
Qed.

Lemma mapC_same (host : JsDate.Host) (l : list Json.json) :
  sameResult
    (mapC (fun h => let* h' := Fidelity.readHistoryEntry h in
                    Return (Fidelity.historyEntryToTransaction host h')) l)
    (mapC (fun h => let* h' := Fidelity.readHistoryEntry h in
                    Return (VariantClient.historyEntryToTransaction host h')) l).
Proof.
  induction l as [|x l IH]; [constructor|].
  cbn [mapC]. destruct (Fidelity.readHistoryEntry x) as [h|e]; cbn [bindC]; [|reflexivity].
  destruct (mapC _ l) as [ts|e]; destruct (mapC _ l) as [ts'|e']; cbn [bindC sameResult] in *;
    try contradiction; try exact IH.
  constructor; [apply historyEntryToTransaction_same|exact IH].
Qed.

Lemma readTransactions_same (host : JsDate.Host) (respJson : option Json.json) :
  sameResult (Fidelity.parseGuard "get_transactions" (Fidelity.readTransactions host respJson))
             (Fidelity.parseGuard "get_transactions"
                (VariantClient.readTransactions host respJson)).
Proof.
  unfold Fidelity.readTransactions, VariantClient.readTransactions.
  destruct (Json.getProp respJson "data") as [data|e]; cbn [bindC]; [|reflexivity].
  destruct (Json.getProp data "getTransactions") as [g|e]; cbn [bindC]; [|reflexivity].
  destruct (Json.getProp g "historys") as [hs|e]; cbn [bindC]; [|reflexivity].
  destruct (Json.asArray hs "historys" "map") as [l|e]; cbn [bindC]; [|reflexivity].
  pose proof (mapC_same host l) as S.
  destruct (mapC _ l) as [ts|e]; destruct (mapC _ l) as [ts'|e']; cbn [sameResult] in *;
    try contradiction; [exact S|].
  cbn [Fidelity.parseGuard]. now rewrite S.
Qed.

(** A range that [checkStartEnd] accepts passes the check of the first
    copy. *)
Lemma checkStartEnd_checkDate (start end_ : JsDate.Date) :
  FidelityVariant.checkStartEnd start end_ = None ->
  Fidelity.checkDate start = "" /\ Fidelity.checkDate end_ = "".
Proof.
  unfold FidelityVariant.checkStartEnd. cbv zeta.
  generalize (if FidelityVariant.dateGt start end_ then "start > end" else "").
  generalize (Fidelity.checkDate start) (Fidelity.checkDate end_).
  intros [|c1 m1] [|c2 m2] [|c3 m3]; cbn; intros H; try discriminate; auto.
Qed.

End CopiesFacts.

(** X19.  On a range of dates that [checkStartEnd] accepts, the two copies
    of the client do the same: [getTransactions] makes the same calls and
    leaves the same state, throws the same error if one throws, and
    otherwise returns transactions that agree one by one (an amount that
    the first copy leaves out being NaN in the second); and
    [getTransactionsOptions] gives the same options. *)
Theorem getTransactions_copies_agree
  (zone : Temporal.TimeZone) (host : JsDate.Host) (accountsOptions : Json.json)
  (evaluator : Fidelity.EvaluateFunc)
  (ids : list string) (accounts : list Fidelity.Account)
  (start end_ : JsDate.Date) (st : Fidelity.State) :
  FidelityVariant.checkStartEnd start end_ = None ->
  let first :=
    Fidelity.getTransactions zone host accountsOptions evaluator ids start end_ st in
  let second :=
    VariantClient.getTransactions zone host accountsOptions evaluator ids
      (inl start) (inl end_) st in
  CopiesSpec.sameResult (fst first) (fst second) /\
  snd second = snd first /\
  VariantClient.getTransactionsOptions zone host accounts (inl start) (inl end_)
  = Fidelity.getTransactionsOptions zone accounts start end_.
Proof.
  intros H. cbv zeta.
  destruct (CopiesFacts.checkStartEnd_checkDate start end_ H) as [C1 C2].
  unfold VariantClient.getTransactionsOptions, VariantClient.getTransactions,
    VariantClient.checkStartEnd, Fidelity.getTransactions.
  cbn [VariantClient.toDate]. cbv zeta. rewrite H, C1, C2.
  cbn [List.filter String.length Nat.ltb Nat.leb JsString.join bindC].
  split; [|split; [|reflexivity]].
  - unfold Fidelity.bind at 2, Fidelity.lift at 1. unfold Fidelity.bind.
    destruct (Fidelity.resolveAccounts accountsOptions evaluator ids st) as [[acctDict|e] st0];
      cbv beta iota; [|exact eq_refl].
    destruct (List.length (Fidelity.missingAccounts acctDict)) as [|n]; cbv beta iota;
      [|exact eq_refl].
    unfold Fidelity.fetchTransactions, Fidelity.bind, Fidelity.lift.
    change (VariantClient._getTransactionsOptions zone) with (Fidelity.getTransactionsOptions zone).
    destruct (Fidelity.getTransactionsOptions zone (Fidelity.presentAccounts acctDict)
                start end_) as [o|e]; cbv beta iota; [|exact eq_refl].
    destruct (Fidelity.fetch evaluator Fidelity.transactionsUrl o st0) as [[respJson|e] st1];
      cbv beta iota; [|exact eq_refl].
    cbn [fst]. apply CopiesFacts.readTransactions_same.
  - unfold Fidelity.bind at 2, Fidelity.lift at 1. unfold Fidelity.bind.
    destruct (Fidelity.resolveAccounts accountsOptions evaluator ids st) as [[acctDict|e] st0];
      cbv beta iota; [|reflexivity].
    destruct (List.length (Fidelity.missingAccounts acctDict)) as [|n]; cbv beta iota;
      [|reflexivity].
    unfold Fidelity.fetchTransactions, Fidelity.bind, Fidelity.lift.
    change (VariantClient._getTransactionsOptions zone) with (Fidelity.getTransactionsOptions zone).
    destruct (Fidelity.getTransactionsOptions zone (Fidelity.presentAccounts acctDict)
                start end_) as [o|e]; cbv beta iota; [|reflexivity].
    destruct (Fidelity.fetch evaluator Fidelity.transactionsUrl o st0) as [[respJson|e] st1];
      reflexivity.
Qed.

(** The scenario of the repository's test. *)
Lemma getTransactions_copies_agree_witness :
  let first :=
    Fidelity.getTransactions Temporal.americaNewYork Mock.host Json.JNull (Mock.evaluator "ok")
      ["1234"; "5678"] Mock.nov28 Mock.dec02 Fidelity.newInstance in
  let second :=
    VariantClient.getTransactions Temporal.americaNewYork Mock.host Json.JNull
      (Mock.evaluator "ok") ["1234"; "5678"] (inl Mock.nov28) (inl Mock.dec02)
      Fidelity.newInstance in
  CopiesSpec.sameResult (fst first) (fst second) /\
  snd second = snd first /\
  VariantClient.getTransactionsOptions Temporal.americaNewYork Mock.host [Mock.brokerage]
    (inl Mock.nov28) (inl Mock.dec02)
  = Fidelity.getTransactionsOptions Temporal.americaNewYork [Mock.brokerage]
      Mock.nov28 Mock.dec02.
Proof.
  apply (getTransactions_copies_agree Temporal.americaNewYork Mock.host Json.JNull
           (Mock.evaluator "ok") ["1234"; "5678"] [Mock.brokerage] Mock.nov28 Mock.dec02
           Fidelity.newInstance).
  vm_compute. reflexivity.
Defined.
